(** * AbodeX backend: booking price, host ranking, guest handlers, host gate

    A shallow embedding of the business logic of the AbodeX rental
    backend (Express + Mongoose) and the properties its specification
    states about it.

    Conventions of the embedding.
    - A JavaScript [Number] holding money, earnings or a ratio is a
      rational ([Q]), and comparisons of numbers are exact.  The handlers
      compute with exact products, quotients and differences; doubles
      round them, which can change an amount in its last digits and with
      it which of two nearly equal discounts is the best.  The price
      computation is therefore also given for any arithmetic of the three
      operations ([Numbers.quote]), with the arithmetic of doubles
      ([Numbers.binary64]) as an instance, and the selection of the
      discount is proved for all of them.
    - A [Date] is its time value, an integer number of milliseconds ([Z]).
    - A Mongoose collection addressed by [_id] is a [gmap] from ObjectIds
      to documents; the review collection, which is searched by a field
      that is not a key, is a list of documents in insertion order.
    - Handlers run in a small state-and-exception monad over the document
      store and the console; calls to Stripe, Twilio, the mailer and the
      JWT library are fields of a [Services] record.  Queries on the
      document store itself always succeed.  A request is served to its
      answer before the next one starts ([serve]); POST /reviews is also
      given stretch by stretch between its [await]s ([Overlap]), for
      requests that overlap. *)

From Stdlib Require Import ZArith QArith Qround Qabs Lqa Lia.
From stdpp Require Import gmap strings list sorting.

Close Scope Q_scope.
Open Scope Z_scope.

(** * Part I: the embedding *)

(** ** JavaScript numbers, strings and dates *)

Module JS.

(** [Math.ceil] on an exact quotient. *)
Definition Math_ceil (x : Q) : Z := Qceiling x.

(** [Math.round]: the nearest integer, halves going up. *)
Definition Math_round (x : Q) : Z := Qfloor (x + (1 # 2))%Q.

(** [a > b] on numbers. *)
Definition gt (a b : Q) : bool := negb (Qle_bool a b).

(** Truthiness of an optional number field: [undefined] and [0] are
    falsy. *)
Definition truthy (o : option Q) : bool :=
  match o with
  | None => false
  | Some m => negb (Qeq_bool m 0)
  end.

(** [s.replace(pat, rep)] with a string pattern: the first occurrence
    only. *)
Definition replace (pat rep s : string) : string :=
  match String.index 0 pat s with
  | None => s
  | Some n =>
      let k := (n + String.length pat)%nat in
      String.substring 0 n s +:+ rep +:+
      String.substring k (String.length s - k) s
  end.

(** [reduce] without an initial value, on a non-empty array. *)
Definition reduce1 {A} (f : A -> A -> A) (x : A) (xs : list A) : A :=
  fold_left f xs x.

End JS.

(** ** Documents *)

Definition ObjectId := string.
Definition Date := Z.

Inductive DiscountType := percentage | fixed.

(** An element of [discounts] in models/Property.js. *)
Record Discount := mkDiscount {
  discountType : DiscountType;
  value : Q;
  minNights : option Q;
  validFrom : Date;
  validUntil : Date
}.

(** An element of [availability] in models/Property.js. *)
Record Availability := mkAvailability {
  startDate : Date;
  endDate : Date;
  isAvailable : bool
}.

Module Property.

Record t := mk {
  host : ObjectId;
  title : string;
  pricePerNight : Q;
  maxGuests : Z;
  availability : list Availability;
  discounts : list Discount;
  isActive : bool
}.

(** The update [{ $push: { availability: entry } }]. *)
Definition push_availability (entry : Availability) (p : t) : t :=
  mk (host p) (title p) (pricePerNight p) (maxGuests p)
     (availability p ++ [entry]) (discounts p) (isActive p).

End Property.

Inductive BookingStatus := pending | confirmed | cancelled | completed.
Inductive PaymentStatus := payment_pending | paid | refunded | failed.

#[global] Instance BookingStatus_eq_dec : EqDecision BookingStatus.
Proof. solve_decision. Defined.

#[global] Instance PaymentStatus_eq_dec : EqDecision PaymentStatus.
Proof. solve_decision. Defined.

Module Booking.

Record t := mk {
  guest : ObjectId;
  property : ObjectId;
  checkIn : Date;
  checkOut : Date;
  guestsCount : Z;
  totalAmount : Q;
  discountAmount : Q;
  status : BookingStatus;
  paymentStatus : PaymentStatus;
  paymentIntentId : string;
  transactionId : option string;
  specialRequests : option string
}.

Definition set_status (s : BookingStatus) (b : t) : t :=
  mk (guest b) (property b) (checkIn b) (checkOut b) (guestsCount b)
     (totalAmount b) (discountAmount b) s (paymentStatus b)
     (paymentIntentId b) (transactionId b) (specialRequests b).

Definition set_paymentStatus (s : PaymentStatus) (b : t) : t :=
  mk (guest b) (property b) (checkIn b) (checkOut b) (guestsCount b)
     (totalAmount b) (discountAmount b) (status b) s
     (paymentIntentId b) (transactionId b) (specialRequests b).

Definition set_transactionId (i : string) (b : t) : t :=
  mk (guest b) (property b) (checkIn b) (checkOut b) (guestsCount b)
     (totalAmount b) (discountAmount b) (status b) (paymentStatus b)
     (paymentIntentId b) (Some i) (specialRequests b).

End Booking.

Module Review.

Record t := mk {
  _id : ObjectId;
  guest : ObjectId;
  property : ObjectId;
  booking : ObjectId;
  rating : Z;
  comment : string;
  hostReply : option string
}.

Definition set_hostReply (reply : string) (r : t) : t :=
  mk (_id r) (guest r) (property r) (booking r) (rating r) (comment r) (Some reply).

End Review.

Inductive Role := guest | host | admin.

#[global] Instance Role_eq_dec : EqDecision Role.
Proof. solve_decision. Defined.

Module User.

(** Modelled from the spec: models/User.js is not part of the sources; the
    fields are the ones the routes and the middleware read and write
    (section 3: identity, credentials, role, password-reset token and
    expiry). *)
Record t := mk {
  email : string;
  password : option string;
  firstName : string;
  phone : string;
  role : Role;
  resetPasswordToken : option string;
  resetPasswordExpires : option Z
}.

(** [.select("-password")]. *)
Definition without_password (u : t) : t :=
  mk (email u) None (firstName u) (phone u) (role u)
     (resetPasswordToken u) (resetPasswordExpires u).

Definition set_reset (token : string) (expires : Z) (u : t) : t :=
  mk (email u) (password u) (firstName u) (phone u) (role u)
     (Some token) (Some expires).

End User.

Inductive HostTag := bronze | silver | gold.

#[global] Instance HostTag_eq_dec : EqDecision HostTag.
Proof. solve_decision. Defined.

Module Host.

Record t := mk {
  _id : ObjectId;
  user : ObjectId;
  isVerified : bool;
  earnings : Q;
  totalBookings : Z;
  hostTag : option HostTag
}.

Definition set_hostTag (tag : option HostTag) (h : t) : t :=
  mk (_id h) (user h) (isVerified h) (earnings h) (totalBookings h) tag.

End Host.

(** ** Booking price (POST /bookings, "Calculate total amount") *)

Module Price.

(** One day in milliseconds: [1000 * 60 * 60 * 24]. *)
Definition msPerDay : Z := 1000 * 60 * 60 * 24.

(** [Math.ceil((new Date(checkOut) - new Date(checkIn)) / msPerDay)]. *)
Definition nights (checkIn checkOut : Date) : Z :=
  JS.Math_ceil (inject_Z (checkOut - checkIn) / inject_Z msPerDay)%Q.

(** The predicate of [property.discounts.filter]. *)
Definition applicable (checkIn checkOut : Date) (n : Z) (d : Discount) : bool :=
  (validFrom d <=? checkIn) && (validUntil d >=? checkOut) &&
  (negb (JS.truthy (minNights d)) ||
   match minNights d with
   | Some m => Qle_bool m (inject_Z n)
   | None => false
   end).

(** The amount a discount takes off [totalAmount]: the conditional
    expression that occurs three times in the handler. *)
Definition amountOf (totalAmount : Q) (d : Discount) : Q :=
  match discountType d with
  | percentage => (totalAmount * value d / 100)%Q
  | fixed => value d
  end.

(** The callback of [applicableDiscounts.reduce]. *)
Definition pick (totalAmount : Q) (prev current : Discount) : Discount :=
  if JS.gt (amountOf totalAmount current) (amountOf totalAmount prev)
  then current else prev.

(** The values the handler holds after line 183. *)
Record Quote := mkQuote {
  q_nights : Z;
  rawTotal : Q;
  applicableDiscounts : list Discount;
  bestDiscount : option Discount;
  discountAmount : Q;
  totalAmount : Q
}.

(** Lines 150-183 of the guest routes. *)
Definition quote (pricePerNight : Q) (discounts : list Discount)
    (checkIn checkOut : Date) : Quote :=
  let n := nights checkIn checkOut in
  let total := (inject_Z n * pricePerNight)%Q in
  let applicableDiscounts := List.filter (applicable checkIn checkOut n) discounts in
  match applicableDiscounts with
  | [] => mkQuote n total applicableDiscounts None 0%Q total
  | d :: ds =>
      let bestDiscount := JS.reduce1 (pick total) d ds in
      let amount := amountOf total bestDiscount in
      mkQuote n total applicableDiscounts (Some bestDiscount) amount (total - amount)%Q
  end.

End Price.

(** ** Host ranking (GET /hosts of the admin routes) *)

Module Rank.

(** The comparator [(a, b) => b.earnings - a.earnings] is non-positive
    when [a] may stay in front of [b]. *)
Definition inOrder (a b : Host.t) : Prop := (Host.earnings b <= Host.earnings a)%Q.

#[global] Instance inOrder_dec : RelDecision inOrder.
Proof.
  intros a b. unfold inOrder.
  destruct (Qlt_le_dec (Host.earnings a) (Host.earnings b)) as [L | L].
  - right. now apply Qlt_not_le.
  - now left.
Defined.

(** Where a host goes in a descending list of the hosts that came after
    it: behind those that have earned strictly more, in front of the
    others. *)
Fixpoint place (h : Host.t) (sorted : list Host.t) : list Host.t :=
  match sorted with
  | [] => [h]
  | x :: rest =>
      if JS.gt (Host.earnings x) (Host.earnings h) then x :: place h rest
      else h :: sorted
  end.

(** [allHosts.sort(...)]: [Array.prototype.sort] is stable, so the hosts
    come out by descending earnings and hosts of equal earnings keep the
    order they had. *)
Definition sortedHosts (allHosts : list Host.t) : list Host.t :=
  foldr place [] allHosts.

(** The hosts of a list whose earnings are [e], in the order of the
    list. *)
Definition earning (e : Q) (l : list Host.t) : list Host.t :=
  List.filter (fun h => Qeq_bool (Host.earnings h) e) l.

(** [(index + 1) / sortedHosts.length]. *)
Definition percentile (index len : nat) : Q :=
  (inject_Z (Z.of_nat index + 1) / inject_Z (Z.of_nat len))%Q.

(** The if-chain on [percentile]. *)
Definition tagOf (percentile : Q) : option HostTag :=
  if Qle_bool percentile 0.01 then Some gold
  else if Qle_bool percentile 0.1 then Some silver
  else if Qle_bool percentile 0.3 then Some bronze
  else None.

(** The body of [sortedHosts.forEach((host, index) => ...)]. *)
Definition assignTags (sorted : list Host.t) : list Host.t :=
  imap (fun index host =>
          Host.set_hostTag (tagOf (percentile index (length sorted))) host)
       sorted.

(** The hosts as they are saved after the request. *)
Definition rerank (allHosts : list Host.t) : list Host.t :=
  assignTags (sortedHosts allHosts).

End Rank.

(** ** The document store, the console and the handler monad *)

Record World := mkWorld {
  users : gmap ObjectId User.t;
  hosts : list Host.t;
  properties : gmap ObjectId Property.t;
  bookings : gmap ObjectId Booking.t;
  reviews : list Review.t;
  console : list (list string)
}.

Definition set_users (f : gmap ObjectId User.t -> gmap ObjectId User.t) (w : World) : World :=
  mkWorld (f (users w)) (hosts w) (properties w) (bookings w) (reviews w) (console w).

Definition set_properties (f : gmap ObjectId Property.t -> gmap ObjectId Property.t)
    (w : World) : World :=
  mkWorld (users w) (hosts w) (f (properties w)) (bookings w) (reviews w) (console w).

Definition set_bookings (f : gmap ObjectId Booking.t -> gmap ObjectId Booking.t)
    (w : World) : World :=
  mkWorld (users w) (hosts w) (properties w) (f (bookings w)) (reviews w) (console w).

Definition set_reviews (f : list Review.t -> list Review.t) (w : World) : World :=
  mkWorld (users w) (hosts w) (properties w) (bookings w) (f (reviews w)) (console w).

Definition set_console (f : list (list string) -> list (list string)) (w : World) : World :=
  mkWorld (users w) (hosts w) (properties w) (bookings w) (reviews w) (f (console w)).

(** A thrown JavaScript exception, by its message. *)
Inductive Exn := Error (message : string).

Definition message_of (e : Exn) : string := let 'Error m := e in m.

Inductive Outcome (A : Type) := Returned (a : A) | Thrown (e : Exn).
Arguments Returned {A} a.
Arguments Thrown {A} e.

(** An [async] function body: it reads and writes the store and either
    returns or throws; writes made before a throw stay. *)
Definition M (A : Type) : Type := World -> Outcome A * World.

#[global] Instance M_ret : MRet M := fun A a w => (Returned a, w).

#[global] Instance M_bind : MBind M := fun A B f m w =>
  match m w with
  | (Returned a, w') => f a w'
  | (Thrown e, w') => (Thrown e, w')
  end.

Definition throw {A} (e : Exn) : M A := fun w => (Thrown e, w).

(** [try { body } catch (error) { handler }]. *)
Definition tryCatch {A} (body : M A) (handler : Exn -> M A) : M A := fun w =>
  match body w with
  | (Returned a, w') => (Returned a, w')
  | (Thrown e, w') => handler e w'
  end.

Definition gets {A} (f : World -> A) : M A := fun w => (Returned (f w), w).
Definition modify (f : World -> World) : M unit := fun w => (Returned tt, f w).

(** The store with further lines on the console. *)
Definition logged (entries : list (list string)) (w : World) : World :=
  set_console (fun c => c ++ entries) w.

(** [console.error(...args)]. *)
Definition console_error (args : list string) : M unit :=
  modify (logged [args]).

(** The result of awaiting a call to an outside library: its value, or
    the exception it raises. *)
Definition await {A} (result : option A) (library : string) : M A :=
  match result with
  | Some a => mret a
  | None => throw (Error library)
  end.

(** ** Outside collaborators *)

Module PaymentIntent.
Record t := mk { id : string; client_secret : string; status : string }.
End PaymentIntent.

Module Metadata.
Record t := mk { userId : ObjectId; propertyId : ObjectId; checkIn : Date; checkOut : Date }.
End Metadata.

Module BookingDetails.
Record t := mk { propertyTitle : string; checkIn : Date; checkOut : Date; totalAmount : Q }.
End BookingDetails.

(** The environment variables and the libraries the handlers call:
    jsonwebtoken, Stripe, Twilio, nodemailer, validator.js and the clock.
    A result of [None] stands for a rejected promise or a thrown
    exception.  Twilio is given the details from which the text of the
    message is built, the mailer the three arguments of the e-mail
    template. *)
Record Services := mkServices {
  JWT_SECRET : string;
  JWT_ADMIN_SECRET : string;
  jwt_sign : ObjectId -> string -> string;
  jwt_verify : string -> string -> option ObjectId;
  stripe_paymentIntents_create : Z -> string -> Metadata.t -> option PaymentIntent.t;
  stripe_paymentIntents_retrieve : string -> option PaymentIntent.t;
  twilio_messages_create : string -> BookingDetails.t -> option unit;
  transporter_sendMail : string -> string -> string -> option unit;
  isMongoId : string -> bool;
  isEmail : string -> bool;
  isLength : nat -> string -> bool;
  Date_now : Z
}.

(** services/paymentService.js *)
Definition createPaymentIntent (sv : Services) (amount : Q) (currency : string)
    (metadata : Metadata.t) : M PaymentIntent.t :=
  tryCatch
    (await (stripe_paymentIntents_create sv (JS.Math_round (amount * 100)%Q)
              currency metadata) "stripe")
    (fun error =>
       console_error ["Stripe error:"; message_of error];;
       throw (Error "Payment processing failed")).

Definition confirmPaymentIntent (sv : Services) (paymentIntentId : string)
    : M PaymentIntent.t :=
  tryCatch
    (await (stripe_paymentIntents_retrieve sv paymentIntentId) "stripe")
    (fun error =>
       console_error ["Stripe error:"; message_of error];;
       throw (Error "Payment confirmation failed")).

(** services/smsService.js *)
Definition sendSMS (sv : Services) (to : string) (details : BookingDetails.t) : M unit :=
  tryCatch
    (await (twilio_messages_create sv to details) "twilio")
    (fun error =>
       console_error ["Twilio error:"; message_of error];;
       throw (Error "Failed to send SMS")).

Definition sendBookingConfirmation (sv : Services) (phone : string)
    (bookingDetails : BookingDetails.t) : M unit :=
  sendSMS sv phone bookingDetails.

(** services/emailService.js *)
Definition sendPasswordResetEmail (sv : Services) (email token firstName : string)
    : M unit :=
  await (transporter_sendMail sv email token firstName) "nodemailer".

(** ** Queries *)

Definition Property_findById (id : ObjectId) : M (option Property.t) :=
  gets (fun w => properties w !! id).

Definition Property_findByIdAndUpdate (id : ObjectId) (update : Property.t -> Property.t)
    : M unit :=
  modify (set_properties (alter update id)).

Definition Booking_findById (id : ObjectId) : M (option Booking.t) :=
  gets (fun w => bookings w !! id).

(** [booking.save()] for the document whose [_id] is [id]. *)
Definition Booking_save (id : ObjectId) (b : Booking.t) : M unit :=
  modify (set_bookings <[id := b]>).

(** The filter [{ _id, guest, property, status: "completed" }] on the
    bookings. *)
Definition completedBooking (id guest property : ObjectId) (w : World)
    : option Booking.t :=
  match bookings w !! id with
  | Some b =>
      if bool_decide (Booking.guest b = guest) &&
         bool_decide (Booking.property b = property) &&
         bool_decide (Booking.status b = completed)
      then Some b else None
  | None => None
  end.

(** [Booking.findOne({ _id, guest, property, status: "completed" })]. *)
Definition Booking_findOne_completed (id guest property : ObjectId)
    : M (option Booking.t) :=
  gets (completedBooking id guest property).

(** The first review that refers to the booking, if any. *)
Definition reviewOf (bookingId : ObjectId) (w : World) : option Review.t :=
  List.find (fun r => bool_decide (Review.booking r = bookingId)) (reviews w).

(** [Review.findOne({ booking: bookingId })]. *)
Definition Review_findOne_booking (bookingId : ObjectId) : M (option Review.t) :=
  gets (reviewOf bookingId).

(** [review.save()] for a new document. *)
Definition Review_save (r : Review.t) : M unit :=
  modify (set_reviews (fun rs => rs ++ [r])).

(** [User.findById(id).select("-password")]. *)
Definition User_findById_select (id : ObjectId) : M (option User.t) :=
  gets (fun w => User.without_password <$> users w !! id).

(** The first user with the given address, if any. *)
Definition userByEmail (email : string) (w : World) : option (ObjectId * User.t) :=
  List.find (fun iu => bool_decide (User.email iu.2 = email)) (map_to_list (users w)).

(** [User.findOne({ email })]. *)
Definition User_findOne_email (email : string) : M (option (ObjectId * User.t)) :=
  gets (userByEmail email).

Definition User_save (id : ObjectId) (u : User.t) : M unit :=
  modify (set_users <[id := u]>).

(** The host profile of a user, if any. *)
Definition hostOf (user : ObjectId) (w : World) : option Host.t :=
  List.find (fun h => bool_decide (Host.user h = user)) (hosts w).

(** [Host.findOne({ user })]. *)
Definition Host_findOne_user (user : ObjectId) : M (option Host.t) :=
  gets (hostOf user).

(** ** Requests and responses *)

Inductive Json :=
| J_message (message : string)
| J_errors (errors : list string)
| J_created (id : ObjectId) (booking : Booking.t) (clientSecret : string)
| J_confirmed (message : string) (booking : Booking.t)
| J_booking (booking : Booking.t)
| J_review (review : Review.t).

Record Response := mkResponse { statusCode : Z; json : Json }.

(** [req.user] as the authentication middleware leaves it. *)
Module ReqUser.
Record t := mk { id : ObjectId; doc : User.t }.
End ReqUser.

(** [console.error(error); res.status(500).json({ message: "Server error" })]. *)
Definition serverError (error : Exn) : M Response :=
  console_error [message_of error];;
  mret (mkResponse 500 (J_message "Server error")).

(** Reading [_id] of [null]. *)
Definition nullDereference : Exn :=
  Error "TypeError: Cannot read properties of null (reading '_id')".

(** ** middleware/auth.js *)

Module Middleware.

Inductive Gate := next (user : ReqUser.t) | reject (response : Response).

(** [req.header("Authorization")?.replace("Bearer ", "")]. *)
Definition bearer (authorization : option string) : option string :=
  JS.replace "Bearer " "" <$> authorization.

(** [!token]. *)
Definition missing (token : option string) : bool :=
  match token with
  | None => true
  | Some t => bool_decide (t = "")
  end.

Definition authenticate (sv : Services) (authorization : option string) : M Gate :=
  tryCatch
    (let token := bearer authorization in
     if missing token then
       mret (reject (mkResponse 401 (J_message "Access denied. No token provided.")))
     else
       decoded ← await (jwt_verify sv (default "" token) (JWT_SECRET sv)) "jsonwebtoken";
       user ← User_findById_select decoded;
       match user with
       | None => mret (reject (mkResponse 401 (J_message "Token is not valid.")))
       | Some user => mret (next (ReqUser.mk decoded user))
       end)
    (fun error => mret (reject (mkResponse 401 (J_message "Token is not valid.")))).

Definition authenticateAdmin (sv : Services) (authorization : option string) : M Gate :=
  tryCatch
    (let token := bearer authorization in
     if missing token then
       mret (reject (mkResponse 401 (J_message "Access denied. No token provided.")))
     else
       decoded ← await (jwt_verify sv (default "" token) (JWT_ADMIN_SECRET sv)) "jsonwebtoken";
       user ← User_findById_select decoded;
       match user with
       | None => mret (reject (mkResponse 401 (J_message "Admin access required.")))
       | Some user =>
           if negb (bool_decide (User.role user = admin)) then
             mret (reject (mkResponse 401 (J_message "Admin access required.")))
           else mret (next (ReqUser.mk decoded user))
       end)
    (fun error => mret (reject (mkResponse 401 (J_message "Admin token is not valid.")))).

Definition authenticateHost (sv : Services) (authorization : option string) : M Gate :=
  tryCatch
    (let token := bearer authorization in
     if missing token then
       mret (reject (mkResponse 401 (J_message "Access denied. No token provided.")))
     else
       decoded ← await (jwt_verify sv (default "" token) (JWT_SECRET sv)) "jsonwebtoken";
       user ← User_findById_select decoded;
       match user with
       | None => mret (reject (mkResponse 401 (J_message "Host access required.")))
       | Some user =>
           if negb (bool_decide (User.role user = host)) &&
              negb (bool_decide (User.role user = admin)) then
             mret (reject (mkResponse 401 (J_message "Host access required.")))
           else mret (next (ReqUser.mk decoded user))
       end)
    (fun error => mret (reject (mkResponse 401 (J_message "Token is not valid.")))).

End Middleware.

(** ** routes/guest.js *)

Module Guest.

(** The body of POST /bookings.  [checkIn] and [checkOut] are the dates
    their ISO 8601 strings denote, so [isISO8601] holds by typing. *)
Module BookingBody.
Record t := mk {
  propertyId : ObjectId;
  checkIn : Date;
  checkOut : Date;
  guestsCount : Z;
  specialRequests : option string
}.
End BookingBody.

Definition bookingErrors (sv : Services) (body : BookingBody.t) : list string :=
  (if isMongoId sv (BookingBody.propertyId body) then [] else ["propertyId"]) ++
  (if 1 <=? BookingBody.guestsCount body then [] else ["guestsCount"]).

(** The price of the stay the body asks for. *)
Definition quoteFor (property : Property.t) (body : BookingBody.t) : Price.Quote :=
  Price.quote (Property.pricePerNight property) (Property.discounts property)
    (BookingBody.checkIn body) (BookingBody.checkOut body).

(** The metadata handed to [createPaymentIntent]. *)
Definition metadata (user : ReqUser.t) (body : BookingBody.t) : Metadata.t :=
  Metadata.mk (ReqUser.id user) (BookingBody.propertyId body)
    (BookingBody.checkIn body) (BookingBody.checkOut body).

(** [new Booking({ guest, property, checkIn, ... })]; status and payment
    status take the defaults of the schema. *)
Definition newBooking (user : ReqUser.t) (body : BookingBody.t) (q : Price.Quote)
    (paymentIntent : PaymentIntent.t) : Booking.t :=
  Booking.mk (ReqUser.id user) (BookingBody.propertyId body)
    (BookingBody.checkIn body) (BookingBody.checkOut body)
    (BookingBody.guestsCount body) (Price.totalAmount q) (Price.discountAmount q)
    pending payment_pending (PaymentIntent.id paymentIntent) None
    (BookingBody.specialRequests body).

(** POST /bookings; [newId] is the [_id] of the new booking. *)
Definition createBooking (sv : Services) (newId : ObjectId) (user : ReqUser.t)
    (body : BookingBody.t) : M Response :=
  tryCatch
    (match bookingErrors sv body with
     | (_ :: _) as errors => mret (mkResponse 400 (J_errors errors))
     | [] =>
         property ← Property_findById (BookingBody.propertyId body);
         match property with
         | None => mret (mkResponse 404 (J_message "Property not found"))
         | Some property =>
             let q := quoteFor property body in
             paymentIntent ← createPaymentIntent sv (Price.totalAmount q) "usd"
                               (metadata user body);
             let booking := newBooking user body q paymentIntent in
             Booking_save newId booking;;
             mret (mkResponse 200
                     (J_created newId booking (PaymentIntent.client_secret paymentIntent)))
         end
     end)
    serverError.

(** The assignments to [booking] after a successful payment. *)
Definition markPaid (paymentIntent : PaymentIntent.t) (booking : Booking.t) : Booking.t :=
  Booking.set_transactionId (PaymentIntent.id paymentIntent)
    (Booking.set_paymentStatus paid (Booking.set_status confirmed booking)).

(** The availability entry pushed for a confirmed booking. *)
Definition bookedWindow (booking : Booking.t) : Availability :=
  mkAvailability (Booking.checkIn booking) (Booking.checkOut booking) false.

(** The argument of [sendBookingConfirmation]. *)
Definition smsDetails (property : Property.t) (booking : Booking.t) : BookingDetails.t :=
  BookingDetails.mk (Property.title property) (Booking.checkIn booking)
    (Booking.checkOut booking) (Booking.totalAmount booking).

(** POST /bookings/:id/confirm *)
Definition confirmBooking (sv : Services) (user : ReqUser.t) (id : ObjectId)
    : M Response :=
  tryCatch
    (found ← Booking_findById id;
     match found with
     | None => mret (mkResponse 404 (J_message "Booking not found"))
     | Some booking =>
         populated ← Property_findById (Booking.property booking);
         if negb (bool_decide (Booking.guest booking = ReqUser.id user)) then
           mret (mkResponse 404 (J_message "Booking not found"))
         else
           paymentIntent ← confirmPaymentIntent sv (Booking.paymentIntentId booking);
           if bool_decide (PaymentIntent.status paymentIntent = "succeeded") then
             let booking := markPaid paymentIntent booking in
             Booking_save id booking;;
             match populated with
             | None => throw nullDereference
             | Some property =>
                 Property_findByIdAndUpdate (Booking.property booking)
                   (Property.push_availability (bookedWindow booking));;
                 tryCatch
                   (sendBookingConfirmation sv (User.phone (ReqUser.doc user))
                      (smsDetails property booking))
                   (fun smsError =>
                      console_error ["SMS sending failed:"; message_of smsError]);;
                 mret (mkResponse 200
                         (J_confirmed "Booking confirmed successfully" booking))
             end
           else mret (mkResponse 400 (J_message "Payment failed"))
     end)
    serverError.

(** The body of POST /reviews. *)
Module ReviewBody.
Record t := mk {
  bookingId : ObjectId;
  propertyId : ObjectId;
  rating : Z;
  comment : string
}.
End ReviewBody.

Definition reviewErrors (sv : Services) (body : ReviewBody.t) : list string :=
  (if isMongoId sv (ReviewBody.bookingId body) then [] else ["bookingId"]) ++
  (if isMongoId sv (ReviewBody.propertyId body) then [] else ["propertyId"]) ++
  (if (1 <=? ReviewBody.rating body) && (ReviewBody.rating body <=? 5)
   then [] else ["rating"]) ++
  (if isLength sv 10 (ReviewBody.comment body) then [] else ["comment"]).

(** [new Review({ guest, property, booking, rating, comment })]. *)
Definition newReview (newId : ObjectId) (user : ReqUser.t) (body : ReviewBody.t)
    : Review.t :=
  Review.mk newId (ReqUser.id user) (ReviewBody.propertyId body)
    (ReviewBody.bookingId body) (ReviewBody.rating body) (ReviewBody.comment body) None.

(** POST /reviews; [newId] is the [_id] of the new review. *)
Definition createReview (sv : Services) (newId : ObjectId) (user : ReqUser.t)
    (body : ReviewBody.t) : M Response :=
  tryCatch
    (match reviewErrors sv body with
     | (_ :: _) as errors => mret (mkResponse 400 (J_errors errors))
     | [] =>
         booking ← Booking_findOne_completed (ReviewBody.bookingId body)
                     (ReqUser.id user) (ReviewBody.propertyId body);
         match booking with
         | None => mret (mkResponse 404 (J_message "Valid booking not found"))
         | Some _ =>
             existingReview ← Review_findOne_booking (ReviewBody.bookingId body);
             match existingReview with
             | Some _ =>
                 mret (mkResponse 400
                         (J_message "Review already exists for this booking"))
             | None =>
                 let review := newReview newId user body in
                 Review_save review;;
                 mret (mkResponse 201 (J_review review))
             end
         end
     end)
    serverError.

End Guest.

(** ** routes/host.js *)

Module HostRoutes.

(** The filter [{ _id: id, property: { $in: ids } }] where [ids] are the
    properties of the host [hostId]. *)
Definition bookingOfHost (id hostId : ObjectId) (w : World) : option Booking.t :=
  match bookings w !! id with
  | Some b =>
      match properties w !! Booking.property b with
      | Some p => if bool_decide (Property.host p = hostId) then Some b else None
      | None => None
      end
  | None => None
  end.

(** [Booking.findOne({ _id: id, property: { $in: ids } })]. *)
Definition Booking_findOne_of_host (id hostId : ObjectId) : M (option Booking.t) :=
  gets (bookingOfHost id hostId).

(** PATCH /bookings/:id; the validator is
    [isIn(["confirmed", "cancelled", "completed"])]. *)
Definition updateBookingStatus (user : ReqUser.t) (id : ObjectId)
    (status : BookingStatus) : M Response :=
  tryCatch
    (if negb (bool_decide (status ∈ [confirmed; cancelled; completed])) then
       mret (mkResponse 400 (J_errors ["status"]))
     else
       found ← Host_findOne_user (ReqUser.id user);
       match found with
       | None => throw nullDereference
       | Some h =>
           booking ← Booking_findOne_of_host id (Host._id h);
           match booking with
           | None => mret (mkResponse 404 (J_message "Booking not found"))
           | Some booking =>
               let booking := Booking.set_status status booking in
               Booking_save id booking;;
               mret (mkResponse 200 (J_booking booking))
           end
       end)
    serverError.

(** The filter [{ _id: id, property: { $in: ids } }] on the reviews, where
    [ids] are the properties of the host [hostId]. *)
Definition ownReview (id hostId : ObjectId) (w : World) (r : Review.t) : bool :=
  bool_decide (Review._id r = id) &&
  match properties w !! Review.property r with
  | Some p => bool_decide (Property.host p = hostId)
  | None => false
  end.

(** The first such review and its place in the collection. *)
Definition reviewOfHost (id hostId : ObjectId) (w : World) : option (nat * Review.t) :=
  list_find (fun r => ownReview id hostId w r = true) (reviews w).

(** POST /reviews/:id/reply; the validator is [notEmpty()]. *)
Definition replyToReview (user : ReqUser.t) (id : ObjectId) (reply : string)
    : M Response :=
  tryCatch
    (if bool_decide (reply = "") then mret (mkResponse 400 (J_errors ["reply"]))
     else
       found ← Host_findOne_user (ReqUser.id user);
       match found with
       | None => throw nullDereference
       | Some h =>
           review ← gets (reviewOfHost id (Host._id h));
           match review with
           | None => mret (mkResponse 404 (J_message "Review not found"))
           | Some (i, review) =>
               let review := Review.set_hostReply reply review in
               modify (set_reviews <[i := review]>);;
               mret (mkResponse 200 (J_review review))
           end
       end)
    serverError.

End HostRoutes.

(** ** routes/auth.js *)

Module Auth.

(** [generateToken(id, isAdmin)]. *)
Definition generateToken (sv : Services) (id : ObjectId) (isAdmin : bool) : string :=
  jwt_sign sv id (if isAdmin then JWT_ADMIN_SECRET sv else JWT_SECRET sv).

(** POST /forgot-password *)
Definition forgotPassword (sv : Services) (email : string) : M Response :=
  tryCatch
    (if negb (isEmail sv email) then mret (mkResponse 400 (J_errors ["email"]))
     else
       found ← User_findOne_email email;
       match found with
       | None => mret (mkResponse 404 (J_message "User not found"))
       | Some (id, user) =>
           let resetToken :=
             jwt_sign sv id (JWT_SECRET sv +:+ default "undefined" (User.password user)) in
           User_save id (User.set_reset resetToken (Date_now sv + 3600000) user);;
           sendPasswordResetEmail sv (User.email user) resetToken (User.firstName user);;
           mret (mkResponse 200 (J_message "Password reset email sent"))
       end)
    serverError.

End Auth.

(** ** The server as a transition system *)

Inductive Request :=
| PostBookings (newId : ObjectId) (user : ReqUser.t) (body : Guest.BookingBody.t)
| PostBookingsConfirm (user : ReqUser.t) (id : ObjectId)
| PostReviews (newId : ObjectId) (user : ReqUser.t) (body : Guest.ReviewBody.t)
| PatchHostBookings (user : ReqUser.t) (id : ObjectId) (status : BookingStatus)
| PostReviewsReply (user : ReqUser.t) (id : ObjectId) (reply : string)
| PostForgotPassword (email : string).

Definition handle (sv : Services) (r : Request) : M Response :=
  match r with
  | PostBookings newId user body => Guest.createBooking sv newId user body
  | PostBookingsConfirm user id => Guest.confirmBooking sv user id
  | PostReviews newId user body => Guest.createReview sv newId user body
  | PatchHostBookings user id status => HostRoutes.updateBookingStatus user id status
  | PostReviewsReply user id reply => HostRoutes.replyToReview user id reply
  | PostForgotPassword email => Auth.forgotPassword sv email
  end.

(** The store after a sequence of requests, each served to its answer
    before the next one starts, with the outside world as it is at that
    moment. *)
Definition serve (trace : list (Services * Request)) (w : World) : World :=
  fold_left (fun w step => (handle step.1 step.2 w).2) trace w.

(** ** The vocabulary of the specification *)

Module Spec.

(** Section 4.1, step 3, in the specification's words: the validity
    window covers the stay and [minNights], when present, is at most
    [nights]. *)
Definition eligible (checkIn checkOut : Date) (n : Z) (d : Discount) : Prop :=
  validFrom d <= checkIn /\ checkOut <= validUntil d /\
  match minNights d with
  | Some m => (m <= inject_Z n)%Q
  | None => True
  end.

(** The same with the handler's reading of "present": a threshold that is
    absent or zero imposes nothing. *)
Definition eligible_nonzero (checkIn checkOut : Date) (n : Z) (d : Discount) : Prop :=
  validFrom d <= checkIn /\ checkOut <= validUntil d /\
  match minNights d with
  | Some m => (m == 0)%Q \/ (m <= inject_Z n)%Q
  | None => True
  end.

(** [best] is the first element of [l] whose amount is the largest. *)
Definition first_maximum (total : Q) (l : list Discount) (best : Discount) : Prop :=
  exists i : nat,
    l !! i = Some best /\
    (forall (j : nat) d, l !! j = Some d ->
       (Price.amountOf total d <= Price.amountOf total best)%Q) /\
    (forall (j : nat) d, (j < i)%nat -> l !! j = Some d ->
       (Price.amountOf total d < Price.amountOf total best)%Q).

(** The tag thresholds of section 4.3 on integers: rank [index + 1] among
    [len] hosts. *)
Definition tag_by_rank (index len : nat) : option HostTag :=
  let r := Z.of_nat index + 1 in
  let n := Z.of_nat len in
  if 100 * r <=? n then Some gold
  else if 10 * r <=? n then Some silver
  else if 10 * r <=? 3 * n then Some bronze
  else None.

(** The four reasons for which a host-gated route refuses a request:
    no token, a token that does not verify under [JWT_SECRET], a token
    whose user is gone, a user who is neither host nor admin. *)
Definition host_gate_refuses (sv : Services) (w : World)
    (authorization : option string) : Prop :=
  let token := Middleware.bearer authorization in
  token = None \/ token = Some "" \/
  (exists t, token = Some t /\ jwt_verify sv t (JWT_SECRET sv) = None) \/
  (exists t id, token = Some t /\ jwt_verify sv t (JWT_SECRET sv) = Some id /\
                users w !! id = None) \/
  (exists t id u, token = Some t /\ jwt_verify sv t (JWT_SECRET sv) = Some id /\
                  users w !! id = Some u /\
                  User.role u <> host /\ User.role u <> admin).

(** The conditions under which a review may be written: the body is
    valid, the booking named exists, is completed and is the requesting
    guest's booking of the property named, and no review refers to it. *)
Definition may_review (sv : Services) (w : World) (user : ReqUser.t)
    (body : Guest.ReviewBody.t) : Prop :=
  Guest.reviewErrors sv body = [] /\
  (exists b, bookings w !! Guest.ReviewBody.bookingId body = Some b /\
             Booking.guest b = ReqUser.id user /\
             Booking.property b = Guest.ReviewBody.propertyId body /\
             Booking.status b = completed) /\
  (forall r, r ∈ reviews w -> Review.booking r <> Guest.ReviewBody.bookingId body).

(** The requests of a trace that create bookings ask for at least one
    night. *)
Definition stays_positive (trace : list (Services * Request)) : Prop :=
  Forall (fun step =>
            match step.2 with
            | PostBookings _ _ body =>
                1 <= Price.nights (Guest.BookingBody.checkIn body)
                       (Guest.BookingBody.checkOut body)
            | _ => True
            end) trace.

(** At most one review refers to any booking. *)
Definition one_review_per_booking (w : World) : Prop :=
  NoDup (Review.booking <$> reviews w).

(** Every stored booking ends after it starts. *)
Definition bookings_ordered (w : World) : Prop :=
  forall id b, bookings w !! id = Some b -> Booking.checkIn b < Booking.checkOut b.

End Spec.

(** ** Sample data *)

Module Sample.

(** Midnight of day [n], counted from the epoch. *)
Definition day (n : Z) : Date := n * Price.msPerDay.

(** The characters of a string held as UTF-8 bytes: the bytes that do
    not continue a character (those outside [128, 192)). *)
Definition characters (s : string) : nat :=
  length (List.filter (fun c => let n := Ascii.nat_of_ascii c in
                                negb ((128 <=? n)%nat && (n <? 192)%nat))
            (String.list_ascii_of_string s)).

(** Outside services that accept every call. *)
Definition obliging : Services :=
  mkServices "secret" "admin-secret"
    (fun id secret => secret +:+ "." +:+ id)
    (fun token secret =>
       if String.prefix (secret +:+ ".") token
       then Some (String.substring (String.length secret + 1)
                    (String.length token - (String.length secret + 1)) token)
       else None)
    (fun amount currency metadata => Some (PaymentIntent.mk "pi_1" "cs_1" "requires_payment_method"))
    (fun id => Some (PaymentIntent.mk id "cs_1" "succeeded"))
    (fun to details => Some tt)
    (fun email token firstName => Some tt)
    (fun id => true)
    (fun email => true)
    (fun min s => (min <=? characters s)%nat)
    0.

(** The same with a payment gateway that only takes positive amounts. *)
Definition positive_charges_only : Services :=
  mkServices (JWT_SECRET obliging) (JWT_ADMIN_SECRET obliging)
    (jwt_sign obliging) (jwt_verify obliging)
    (fun amount currency metadata =>
       if 0 <? amount then Some (PaymentIntent.mk "pi_1" "cs_1" "requires_payment_method")
       else None)
    (stripe_paymentIntents_retrieve obliging)
    (twilio_messages_create obliging) (transporter_sendMail obliging)
    (isMongoId obliging) (isEmail obliging) (isLength obliging) (Date_now obliging).

(** The same with Twilio down. *)
Definition sms_down : Services :=
  mkServices (JWT_SECRET obliging) (JWT_ADMIN_SECRET obliging)
    (jwt_sign obliging) (jwt_verify obliging)
    (stripe_paymentIntents_create obliging)
    (stripe_paymentIntents_retrieve obliging)
    (fun to details => None) (transporter_sendMail obliging)
    (isMongoId obliging) (isEmail obliging) (isLength obliging) (Date_now obliging).

(** The same with the mail relay down. *)
Definition mail_down : Services :=
  mkServices (JWT_SECRET obliging) (JWT_ADMIN_SECRET obliging)
    (jwt_sign obliging) (jwt_verify obliging)
    (stripe_paymentIntents_create obliging)
    (stripe_paymentIntents_retrieve obliging)
    (twilio_messages_create obliging) (fun email token firstName => None)
    (isMongoId obliging) (isEmail obliging) (isLength obliging) (Date_now obliging).

(** The same with Stripe down. *)
Definition stripe_down : Services :=
  mkServices (JWT_SECRET obliging) (JWT_ADMIN_SECRET obliging)
    (jwt_sign obliging) (jwt_verify obliging)
    (fun amount currency metadata => None) (fun id => None)
    (twilio_messages_create obliging) (transporter_sendMail obliging)
    (isMongoId obliging) (isEmail obliging) (isLength obliging) (Date_now obliging).

Definition alice : ReqUser.t :=
  ReqUser.mk "u1" (User.mk "alice@example.org" None "Alice" "+15550100" guest None None).

Definition cottage : Property.t :=
  Property.mk "h1" "Cottage" 100 4 [] [] true.

Definition emptyWorld : World := mkWorld ∅ [] ∅ ∅ [] [].

(** A hundred hosts; host [i] has earned [10 * i]. *)
Definition hostNo (i : nat) : Host.t :=
  Host.mk (String (Ascii.ascii_of_nat (32 + i)) "") "u" true
    (inject_Z (10 * Z.of_nat i)) 0 None.

Definition hundredHosts : list Host.t := hostNo <$> seq 0 100.

Definition world1 : World :=
  mkWorld ∅ [] {[ "p1" := cottage ]} ∅ [] [].

(** A pending booking of the cottage by alice, and the store holding it. *)
Definition stay : Booking.t :=
  Booking.mk "u1" "p1" (day 1) (day 5) 2 400 0 pending payment_pending "pi_1" None None.

Definition world3 : World :=
  mkWorld ∅ [] {[ "p1" := cottage ]} {[ "b1" := stay ]} [] [].

(** The stay once completed, and a review of it. *)
Definition world5 : World :=
  mkWorld ∅ [] {[ "p1" := cottage ]} {[ "b1" := Booking.set_status completed stay ]} [] [].

Definition praise : Guest.ReviewBody.t :=
  Guest.ReviewBody.mk "b1" "p1" 5 "A lovely stay".

(** The store with alice, the host hedda and the administrator adam
    registered. *)
Definition hedda : User.t :=
  User.mk "hedda@example.org" (Some "$2b$hash2") "Hedda" "+15550101" host None None.

Definition adam : User.t :=
  User.mk "adam@example.org" (Some "$2b$hash3") "Adam" "+15550102" admin None None.

Definition world4 : World :=
  mkWorld {[ "u1" := User.mk "alice@example.org" (Some "$2b$hash1") "Alice" "+15550100"
                       guest None None;
             "u2" := hedda; "u3" := adam ]}
    [Host.mk "h1" "u2" true 0 0 None] {[ "p1" := cottage ]} {[ "b1" := stay ]} [] [].

(** A property whose only discount has a negative value (a surcharge). *)
Definition annex : Property.t :=
  Property.mk "h1" "Annex" 100 2 []
    [mkDiscount fixed (-200) None (day 0) (day 30)] true.

Definition world2 : World :=
  mkWorld ∅ [] {[ "p2" := annex ]} ∅ [] [].

End Sample.

(** ** Further routes of routes/auth.js and of the admin routes *)

(** An answer whose body is a document of type [A], a message or a list
    of validation errors. *)
Inductive Answer (A : Type) :=
| A_json (statusCode : Z) (value : A)
| A_message (statusCode : Z) (message : string)
| A_errors (statusCode : Z) (errors : list string).
Arguments A_json {A} statusCode value.
Arguments A_message {A} statusCode message.
Arguments A_errors {A} statusCode errors.

(** [console.error(error); res.status(500).json({ message: "Server error" })]
    for these answers. *)
Definition serverFailure {A} (error : Exn) : M (Answer A) :=
  console_error [message_of error];;
  mret (A_message 500 "Server error").

(** A level for each tag, gold being the highest. *)
Definition tagLevel (tag : option HostTag) : Z :=
  match tag with
  | Some gold => 3
  | Some silver => 2
  | Some bronze => 1
  | None => 0
  end.

Module Account.

(** The body that POST /login answers with. *)
Module LoginBody.
Record t := mk {
  token : string;
  id : ObjectId;
  email : string;
  firstName : string;
  phone : string;
  role : Role
}.
End LoginBody.

Definition loginErrors (sv : Services) (email password : string) : list string :=
  (if isEmail sv email then [] else ["email"]) ++
  (if bool_decide (password = "") then ["password"] else []).

(** POST /login.  [correctPassword] is the method of that name of the
    user model: it compares a candidate with the stored password. *)
Definition login (sv : Services) (correctPassword : string -> option string -> bool)
    (email password : string) : M (Answer LoginBody.t) :=
  tryCatch
    (match loginErrors sv email password with
     | (_ :: _) as errors => mret (A_errors 400 errors)
     | [] =>
         found ← User_findOne_email email;
         match found with
         | None => mret (A_message 401 "Invalid credentials")
         | Some (id, user) =>
             if negb (correctPassword password (User.password user)) then
               mret (A_message 401 "Invalid credentials")
             else
               let token :=
                 Auth.generateToken sv id (bool_decide (User.role user = admin)) in
               mret (A_json 200
                       (LoginBody.mk token id (User.email user) (User.firstName user)
                          (User.phone user) (User.role user)))
         end
     end)
    serverFailure.

(** The filter [{ resetPasswordToken: token,
    resetPasswordExpires: { $gt: Date.now() } }] on the users. *)
Definition holdsResetToken (token : string) (now : Z) (u : User.t) : bool :=
  bool_decide (User.resetPasswordToken u = Some token) &&
  match User.resetPasswordExpires u with
  | Some expires => now <? expires
  | None => false
  end.

Definition userByResetToken (token : string) (now : Z) (w : World)
    : option (ObjectId * User.t) :=
  List.find (fun iu => holdsResetToken token now iu.2) (map_to_list (users w)).

(** The assignments of the reset: the new password, and the token and
    its expiry set to [undefined]. *)
Definition withNewPassword (stored : string) (u : User.t) : User.t :=
  User.mk (User.email u) (Some stored) (User.firstName u) (User.phone u)
    (User.role u) None None.

Definition resetErrors (sv : Services) (token password : string) : list string :=
  (if bool_decide (token = "") then ["token"] else []) ++
  (if isLength sv 6 password then [] else ["password"]).

(** POST /reset-password.  [hash] is what saving the user makes of a
    password that was assigned to it. *)
Definition resetPassword (sv : Services) (hash : string -> string)
    (token password : string) : M (Answer unit) :=
  tryCatch
    (match resetErrors sv token password with
     | (_ :: _) as errors => mret (A_errors 400 errors)
     | [] =>
         found ← gets (userByResetToken token (Date_now sv));
         match found with
         | None => mret (A_message 400 "Invalid or expired token")
         | Some (id, user) =>
             verified ← tryCatch
               (await (jwt_verify sv token
                         (JWT_SECRET sv +:+ default "undefined" (User.password user)))
                  "jsonwebtoken";;
                mret true)
               (fun error => mret false);
             if negb verified then mret (A_message 400 "Token expired or invalid")
             else
               User_save id (withNewPassword (hash password) user);;
               mret (A_message 200 "Password reset successfully")
         end
     end)
    serverFailure.

End Account.

Module Admin.

(** [property.isActive = !property.isActive]. *)
Definition toggled (p : Property.t) : Property.t :=
  Property.mk (Property.host p) (Property.title p) (Property.pricePerNight p)
    (Property.maxGuests p) (Property.availability p) (Property.discounts p)
    (negb (Property.isActive p)).

(** [findById] of a string that is no ObjectId. *)
Definition castError : Exn := Error "CastError: Cast to ObjectId failed".

(** PATCH /properties/:id/status.  [castable] tells whether Mongoose can
    cast a string to an ObjectId; [findById] rejects with a CastError
    when it cannot. *)
Definition togglePropertyStatus (castable : ObjectId -> bool) (id : ObjectId)
    : M (Answer Property.t) :=
  tryCatch
    (if negb (castable id) then throw castError
     else
       found ← Property_findById id;
       match found with
       | None => mret (A_message 404 "Property not found")
       | Some property =>
           let property := toggled property in
           modify (set_properties <[id := property]>);;
           mret (A_json 200 property)
       end)
    serverFailure.

End Admin.

(** ** The dashboards *)

(** The body of the host's GET /dashboard. *)
Module HostStats.
Record t := mk {
  host : Host.t;
  properties : nat;
  bookings : nat;
  upcomingBookings : nat;
  totalEarnings : Q;
  reviews : nat
}.
End HostStats.

Module Dashboard.









End Dashboard.

(** ** Further sample data *)

Module Sample2.



(** The store of [Sample.world4] with a review of the cottage. *)
Definition world7 : World :=
  mkWorld (users Sample.world4) (hosts Sample.world4) (properties Sample.world4)
    (bookings Sample.world4) [Guest.newReview "r1" Sample.alice Sample.praise] [].

End Sample2.

(** ** Routes: a gate in front of a handler *)

Module Routes.

(** [router.post(path, gate, ..., handler)]: the handler runs only when
    the gate calls [next()], with the [req.user] the gate has set. *)
Definition guarded (gate : M Middleware.Gate) (handler : ReqUser.t -> M Response)
    : M Response :=
  passed ← gate;
  match passed with
  | Middleware.next user => handler user
  | Middleware.reject response => mret response
  end.

(** POST /api/guest/bookings *)
Definition postBookings (sv : Services) (newId : ObjectId)
    (authorization : option string) (body : Guest.BookingBody.t) : M Response :=
  guarded (Middleware.authenticate sv authorization)
    (fun user => Guest.createBooking sv newId user body).

(** PATCH /api/host/bookings/:id *)
Definition patchHostBooking (sv : Services) (authorization : option string)
    (id : ObjectId) (status : BookingStatus) : M Response :=
  guarded (Middleware.authenticateHost sv authorization)
    (fun user => HostRoutes.updateBookingStatus user id status).

End Routes.

(** The requests of a trace that create a booking use another id than
    [id]. *)
Definition keeps_id (id : ObjectId) (trace : list (Services * Request)) : Prop :=
  Forall (fun step =>
            match step.2 with
            | PostBookings newId _ _ => newId <> id
            | _ => True
            end) trace.

(** The fields of a booking that are fixed when it is created. *)
Definition bookingCore (b : Booking.t) :=
  (Booking.guest b, Booking.property b, Booking.checkIn b, Booking.checkOut b,
   Booking.guestsCount b, Booking.totalAmount b, Booking.discountAmount b,
   Booking.paymentIntentId b, Booking.specialRequests b).

(** The fields of a property other than its availability. *)
Definition propertyCore (p : Property.t) :=
  (Property.host p, Property.title p, Property.pricePerNight p, Property.maxGuests p,
   Property.discounts p, Property.isActive p).

(** ** The arithmetic of the price computation *)

Module Numbers.

(** The operations that lines 150-183 of the guest routes apply to
    numbers.  A JavaScript number is a rational, and comparing two
    numbers compares them exactly; a product, a quotient and a difference
    are rounded to a number that can be held. *)
Record Arith := mkArith {
  mul : Q -> Q -> Q;
  div : Q -> Q -> Q;
  sub : Q -> Q -> Q
}.

(** Arithmetic without rounding, as [Price.quote] has it. *)
Definition exact : Arith := mkArith Qmult Qdiv Qminus.

(** [2 ^ e] for any integer [e]. *)
Definition pow2 (e : Z) : Q :=
  if 0 <=? e then inject_Z (2 ^ e) else (1 # Z.to_pos (2 ^ (- e)))%Q.

(** The nearest integer, halves going to the even one. *)
Definition nearestEven (x : Q) : Z :=
  let f := Qfloor x in
  match (x - inject_Z f ?= 1 # 2)%Q with
  | Lt => f
  | Gt => f + 1
  | Eq => if Z.even f then f else f + 1
  end.

(** The IEEE 754 double nearest to [x], for [x] below the largest double:
    53 significant bits, exponents from -1074. *)
Definition round64 (x : Q) : Q :=
  if Qeq_bool x 0 then 0%Q
  else
    let a := Qabs x in
    let l0 := Z.log2 (Qnum a) - Z.log2 (Zpos (Qden a)) in
    let l := if Qle_bool (pow2 l0) a then l0 else l0 - 1 in
    let e := Z.max (l - 52) (-1074) in
    let y := (inject_Z (nearestEven (a / pow2 e)) * pow2 e)%Q in
    Qred (if Qle_bool 0 x then y else - y)%Q.

(** The arithmetic of doubles. *)
Definition binary64 : Arith :=
  mkArith (fun a b => round64 (a * b)) (fun a b => round64 (a / b))
          (fun a b => round64 (a - b)).

Section Arithmetic.

Variable A : Arith.

(** [Math.ceil((new Date(checkOut) - new Date(checkIn)) / msPerDay)]. *)
Definition nights (checkIn checkOut : Date) : Z :=
  JS.Math_ceil (div A (inject_Z (checkOut - checkIn)) (inject_Z Price.msPerDay)).

(** The conditional expression on a discount. *)
Definition amountOf (totalAmount : Q) (d : Discount) : Q :=
  match discountType d with
  | percentage => div A (mul A totalAmount (value d)) 100
  | fixed => value d
  end.

(** The callback of [applicableDiscounts.reduce]. *)
Definition pick (totalAmount : Q) (prev current : Discount) : Discount :=
  if JS.gt (amountOf totalAmount current) (amountOf totalAmount prev)
  then current else prev.

(** Lines 150-183 of the guest routes in the arithmetic [A]. *)
Definition quote (pricePerNight : Q) (discounts : list Discount)
    (checkIn checkOut : Date) : Price.Quote :=
  let n := nights checkIn checkOut in
  let total := mul A (inject_Z n) pricePerNight in
  let applicableDiscounts :=
    List.filter (Price.applicable checkIn checkOut n) discounts in
  match applicableDiscounts with
  | [] => Price.mkQuote n total applicableDiscounts None 0%Q total
  | d :: ds =>
      let bestDiscount := JS.reduce1 (pick total) d ds in
      let amount := amountOf total bestDiscount in
      Price.mkQuote n total applicableDiscounts (Some bestDiscount) amount
        (sub A total amount)
  end.

End Arithmetic.

(** [best] is the first element of [l] whose amount is the largest. *)
Definition first_maximum (amount : Discount -> Q) (l : list Discount)
    (best : Discount) : Prop :=
  exists i : nat,
    l !! i = Some best /\
    (forall (j : nat) d, l !! j = Some d -> (amount d <= amount best)%Q) /\
    (forall (j : nat) d, (j < i)%nat -> l !! j = Some d -> (amount d < amount best)%Q).

End Numbers.

(** ** POST /reviews between its awaits *)

Module Overlap.

(** Where a POST /reviews request stands: about to look for the booking,
    about to look for an earlier review, about to save its review, or
    answered.  The handler gives way to other requests at each of its
    three [await]s. *)
Inductive Stage :=
| findsBooking
| findsReview
| saves
| answered (response : Response).

(** A POST /reviews request: the [_id] its review would get, [req.user]
    and the body. *)
Record Call := mkCall {
  newId : ObjectId;
  user : ReqUser.t;
  body : Guest.ReviewBody.t
}.

(** The handler of [Guest.createReview] from one [await] to the next. *)
Definition advance (sv : Services) (c : Call) (stage : Stage) : M Stage :=
  tryCatch
    (match stage with
     | findsBooking =>
         match Guest.reviewErrors sv (body c) with
         | (_ :: _) as errors => mret (answered (mkResponse 400 (J_errors errors)))
         | [] =>
             booking ← Booking_findOne_completed (Guest.ReviewBody.bookingId (body c))
                         (ReqUser.id (user c)) (Guest.ReviewBody.propertyId (body c));
             match booking with
             | None =>
                 mret (answered (mkResponse 404 (J_message "Valid booking not found")))
             | Some _ => mret findsReview
             end
         end
     | findsReview =>
         existingReview ← Review_findOne_booking (Guest.ReviewBody.bookingId (body c));
         match existingReview with
         | Some _ =>
             mret (answered (mkResponse 400
                               (J_message "Review already exists for this booking")))
         | None => mret saves
         end
     | saves =>
         let review := Guest.newReview (newId c) (user c) (body c) in
         Review_save review;;
         mret (answered (mkResponse 201 (J_review review)))
     | answered response => mret (answered response)
     end)
    (fun error => response ← serverError error; mret (answered response)).

(** The request served with no other request in between. *)
Definition alone (sv : Services) (c : Call) : M Stage :=
  stage ← advance sv c findsBooking;
  stage ← advance sv c stage;
  advance sv c stage.

(** Which of two requests in flight runs up to its next [await]. *)
Inductive Turn := first | second.

(** Two requests in flight and the store. *)
Definition step (sv : Services) (c1 c2 : Call) (st : Stage * Stage * World)
    (turn : Turn) : Stage * Stage * World :=
  let '(s1, s2, w) := st in
  match turn with
  | first =>
      match advance sv c1 s1 w with
      | (Returned s1', w') => (s1', s2, w')
      | (Thrown _, w') => (s1, s2, w')
      end
  | second =>
      match advance sv c2 s2 w with
      | (Returned s2', w') => (s1, s2', w')
      | (Thrown _, w') => (s1, s2, w')
      end
  end.

Definition run (sv : Services) (c1 c2 : Call) (schedule : list Turn) (w : World)
    : Stage * Stage * World :=
  fold_left (step sv c1 c2) schedule (findsBooking, findsBooking, w).

(** Both requests look for an earlier review before either saves. *)
Definition overlapping : list Turn := [first; second; first; second; first; second].

(** The first request is answered before the second starts. *)
Definition oneAfterAnother : list Turn := [first; first; first; second; second; second].

End Overlap.

(** * Part II: properties *)

(** ** The ceiling of a quotient *)

Section CeilingQuotient.

Variables (a d : Z).
Hypothesis d_pos : 0 < d.

Let c := Qceiling (inject_Z a / inject_Z d)%Q.

Lemma inject_Z_pos : (0 < inject_Z d)%Q.
Proof. change 0%Q with (inject_Z 0). now rewrite <- Zlt_Qlt. Qed.

Lemma quotient_times_divisor : (inject_Z a / inject_Z d * inject_Z d == inject_Z a)%Q.
Proof.
  field. intros E. pose proof inject_Z_pos as P.
  rewrite E in P. now apply Qlt_irrefl in P.
Qed.

Lemma ceil_quotient_upper : a <= c * d.
Proof.
  rewrite Zle_Qle, inject_Z_mult, <- quotient_times_divisor.
  apply Qmult_le_compat_r; [apply Qle_ceiling | apply Qlt_le_weak, inject_Z_pos].
Qed.

Lemma ceil_quotient_lower : (c - 1) * d < a.
Proof.
  rewrite Zlt_Qlt, inject_Z_mult, <- quotient_times_divisor.
  apply Qmult_lt_compat_r; [apply inject_Z_pos | apply Qceiling_lt].
Qed.

Lemma ceil_quotient_least (n : Z) : a <= n * d -> c <= n.
Proof. pose proof ceil_quotient_lower. nia. Qed.

End CeilingQuotient.

(** ** Nights *)

Lemma nights_upper checkIn checkOut :
  checkOut - checkIn <= Price.nights checkIn checkOut * Price.msPerDay.
Proof. now apply ceil_quotient_upper. Qed.

Lemma nights_lower checkIn checkOut :
  (Price.nights checkIn checkOut - 1) * Price.msPerDay < checkOut - checkIn.
Proof. now apply ceil_quotient_lower. Qed.

Lemma nights_least checkIn checkOut n :
  checkOut - checkIn <= n * Price.msPerDay -> Price.nights checkIn checkOut <= n.
Proof. now apply ceil_quotient_least. Qed.


Lemma nights_positive_iff checkIn checkOut :
  1 <= Price.nights checkIn checkOut <-> checkIn < checkOut.
Proof.
  pose proof (nights_upper checkIn checkOut) as U.
  pose proof (nights_lower checkIn checkOut) as L.
  unfold Price.msPerDay in *. lia.
Qed.

(** C4. The number of nights is the ceiling of the length of the stay in
    days: it is the least integer [n] such that [n] days cover
    [checkOut - checkIn]; a check-out exactly 24 hours after the check-in
    gives one night. *)
Theorem nights_is_day_ceiling (checkIn checkOut : Date) :
  let n := Price.nights checkIn checkOut in
  (n - 1) * Price.msPerDay < checkOut - checkIn <= n * Price.msPerDay /\
  (forall m, checkOut - checkIn <= m * Price.msPerDay -> n <= m) /\
  (inject_Z n - 1 < inject_Z (checkOut - checkIn) / inject_Z Price.msPerDay <= inject_Z n)%Q /\
  Price.nights checkIn (checkIn + 24 * 60 * 60 * 1000) = 1.
Proof.
  cbv zeta. split; [split; [apply nights_lower | apply nights_upper] |].
  split; [intros m; apply nights_least |]. split.
  - split.
    + pose proof (Qceiling_lt (inject_Z (checkOut - checkIn) / inject_Z Price.msPerDay)) as L.
      unfold Price.nights, JS.Math_ceil.
      unfold Z.sub in L. rewrite inject_Z_plus in L. exact L.
    + apply Qle_ceiling.
  - pose proof (nights_upper checkIn (checkIn + 24 * 60 * 60 * 1000)) as U.
    pose proof (nights_lower checkIn (checkIn + 24 * 60 * 60 * 1000)) as L.
    unfold Price.msPerDay in *. lia.
Qed.

(** ** The best discount *)

Lemma gt_true a b : JS.gt a b = true <-> (b < a)%Q.
Proof.
  unfold JS.gt. rewrite negb_true_iff, <- not_true_iff_false, Qle_bool_iff.
  split; [apply Qnot_le_lt | apply Qlt_not_le].
Qed.

Lemma gt_false a b : JS.gt a b = false <-> (a <= b)%Q.
Proof. unfold JS.gt. rewrite negb_false_iff. apply Qle_bool_iff. Qed.

Section BestDiscount.

Variable total : Q.

#[local] Abbreviation amount := (Price.amountOf total).

Lemma pick_cases prev current :
  (Price.pick total prev current = current /\ (amount prev < amount current)%Q) \/
  (Price.pick total prev current = prev /\ (amount current <= amount prev)%Q).
Proof.
  unfold Price.pick. destruct (JS.gt _ _) eqn:G.
  - left. now apply gt_true in G.
  - right. now apply gt_false in G.
Qed.

(** [reduce] with [pick] walks the array from the left and keeps the
    first element of largest amount. *)
Lemma reduce_pick_first_maximum (d : Discount) (ds : list Discount) :
  Spec.first_maximum total (d :: ds) (JS.reduce1 (Price.pick total) d ds).
Proof.
  unfold JS.reduce1. induction ds as [| x xs IH] using rev_ind.
  - exists 0%nat. simpl. split; [reflexivity |]. split.
    + intros [| j] y Hy; simpl in Hy; [| discriminate].
      injection Hy as <-. apply Qle_refl.
    + intros j y Hj. lia.
  - rewrite fold_left_app. simpl.
    destruct IH as (i & Hi & Hmax & Hfirst).
    set (best := fold_left (Price.pick total) xs d) in *.
    assert (Hlen : (i < length (d :: xs))%nat) by (eapply lookup_lt_Some; eauto).
    destruct (pick_cases best x) as [[-> Hlt] | [-> Hle]].
    + exists (length (d :: xs)). split; [| split].
      * change (d :: xs ++ [x]) with ((d :: xs) ++ [x]).
        rewrite lookup_app_r by lia. now rewrite Nat.sub_diag.
      * intros j y Hy. change (d :: xs ++ [x]) with ((d :: xs) ++ [x]) in Hy.
        apply lookup_app_Some in Hy as [Hy | [_ Hy]].
        -- apply Qlt_le_weak. eapply Qle_lt_trans; [eapply Hmax; eauto | exact Hlt].
        -- destruct (j - length (d :: xs))%nat; simpl in Hy; [| discriminate].
           injection Hy as <-. apply Qle_refl.
      * intros j y Hj Hy. change (d :: xs ++ [x]) with ((d :: xs) ++ [x]) in Hy.
        rewrite lookup_app_l in Hy by lia.
        eapply Qle_lt_trans; [eapply Hmax; eauto | exact Hlt].
    + exists i. split; [| split].
      * change (d :: xs ++ [x]) with ((d :: xs) ++ [x]).
        now rewrite lookup_app_l by lia.
      * intros j y Hy. change (d :: xs ++ [x]) with ((d :: xs) ++ [x]) in Hy.
        apply lookup_app_Some in Hy as [Hy | [_ Hy]]; [eapply Hmax; eauto |].
        destruct (j - length (d :: xs))%nat; simpl in Hy; [| discriminate].
        now injection Hy as <-.
      * intros j y Hj Hy. change (d :: xs ++ [x]) with ((d :: xs) ++ [x]) in Hy.
        rewrite lookup_app_l in Hy by lia. eapply Hfirst; eauto.
Qed.

End BestDiscount.

Lemma applicable_iff checkIn checkOut n d :
  Price.applicable checkIn checkOut n d = true <->
  Spec.eligible_nonzero checkIn checkOut n d.
Proof.
  unfold Price.applicable, Spec.eligible_nonzero, JS.truthy.
  rewrite !andb_true_iff, Z.leb_le, Z.geb_le, orb_true_iff.
  destruct (minNights d) as [m |].
  - rewrite negb_involutive, Qeq_bool_iff, Qle_bool_iff. tauto.
  - simpl. intuition.
Qed.

Lemma quote_applicable pricePerNight discounts checkIn checkOut :
  Price.applicableDiscounts (Price.quote pricePerNight discounts checkIn checkOut) =
  List.filter (Price.applicable checkIn checkOut (Price.nights checkIn checkOut)) discounts.
Proof. unfold Price.quote. cbv zeta. now destruct (List.filter _ _). Qed.

Lemma quote_rawTotal pricePerNight discounts checkIn checkOut :
  Price.rawTotal (Price.quote pricePerNight discounts checkIn checkOut) =
  (inject_Z (Price.nights checkIn checkOut) * pricePerNight)%Q.
Proof. unfold Price.quote. cbv zeta. now destruct (List.filter _ _). Qed.

Lemma quote_total pricePerNight discounts checkIn checkOut :
  let q := Price.quote pricePerNight discounts checkIn checkOut in
  (Price.totalAmount q == Price.rawTotal q - Price.discountAmount q)%Q.
Proof.
  unfold Price.quote. cbv zeta. destruct (List.filter _ _); simpl; [| reflexivity].
  unfold Qminus. now rewrite Qplus_0_r.
Qed.

Lemma quote_best pricePerNight discounts checkIn checkOut :
  let q := Price.quote pricePerNight discounts checkIn checkOut in
  match Price.applicableDiscounts q with
  | [] => Price.bestDiscount q = None /\ Price.discountAmount q = 0%Q
  | d :: ds =>
      exists best,
        Price.bestDiscount q = Some best /\
        Price.discountAmount q = Price.amountOf (Price.rawTotal q) best /\
        Spec.first_maximum (Price.rawTotal q) (d :: ds) best
  end.
Proof.
  unfold Price.quote. cbv zeta. destruct (List.filter _ _) as [| d ds]; simpl.
  - now split.
  - eexists. split; [reflexivity |]. split; [reflexivity |].
    apply reduce_pick_first_maximum.
Qed.

Lemma sublist_filter_bool {A} (f : A -> bool) (l : list A) : sublist (List.filter f l) l.
Proof.
  induction l as [| x l IH]; simpl; [constructor |].
  destruct (f x); now constructor.
Qed.

Lemma quote_nights pricePerNight discounts checkIn checkOut :
  Price.q_nights (Price.quote pricePerNight discounts checkIn checkOut) =
  Price.nights checkIn checkOut.
Proof. unfold Price.quote. cbv zeta. now destruct (List.filter _ _). Qed.

Section FirstMaximum.

Variable amount : Discount -> Q.

#[local] Abbreviation pickBy :=
  (fun prev current => if JS.gt (amount current) (amount prev) then current else prev).

(** [reduce] with a callback that keeps [prev] unless [current] is worth
    strictly more returns the first element of largest amount. *)
Lemma reduce_first_maximum (d : Discount) (ds : list Discount) :
  Numbers.first_maximum amount (d :: ds) (JS.reduce1 pickBy d ds).
Proof.
  unfold JS.reduce1. induction ds as [| x xs IH] using rev_ind.
  - exists 0%nat. simpl. split; [reflexivity |]. split.
    + intros [| j] y Hy; simpl in Hy; [| discriminate].
      injection Hy as <-. apply Qle_refl.
    + intros j y Hj. lia.
  - rewrite fold_left_app. simpl.
    destruct IH as (i & Hi & Hmax & Hfirst).
    set (best := fold_left pickBy xs d) in *.
    assert (Hlen : (i < length (d :: xs))%nat) by (eapply lookup_lt_Some; eauto).
    destruct (JS.gt (amount x) (amount best)) eqn:G.
    + apply gt_true in G. exists (length (d :: xs)). split; [| split].
      * change (d :: xs ++ [x]) with ((d :: xs) ++ [x]).
        rewrite lookup_app_r by lia. now rewrite Nat.sub_diag.
      * intros j y Hy. change (d :: xs ++ [x]) with ((d :: xs) ++ [x]) in Hy.
        apply lookup_app_Some in Hy as [Hy | [_ Hy]].
        -- apply Qlt_le_weak. eapply Qle_lt_trans; [eapply Hmax; eauto | exact G].
        -- destruct (j - length (d :: xs))%nat; simpl in Hy; [| discriminate].
           injection Hy as <-. apply Qle_refl.
      * intros j y Hj Hy. change (d :: xs ++ [x]) with ((d :: xs) ++ [x]) in Hy.
        rewrite lookup_app_l in Hy by lia.
        eapply Qle_lt_trans; [eapply Hmax; eauto | exact G].
    + apply gt_false in G. exists i. split; [| split].
      * change (d :: xs ++ [x]) with ((d :: xs) ++ [x]).
        now rewrite lookup_app_l by lia.
      * intros j y Hy. change (d :: xs ++ [x]) with ((d :: xs) ++ [x]) in Hy.
        apply lookup_app_Some in Hy as [Hy | [_ Hy]]; [eapply Hmax; eauto |].
        destruct (j - length (d :: xs))%nat; simpl in Hy; [| discriminate].
        now injection Hy as <-.
      * intros j y Hj Hy. change (d :: xs ++ [x]) with ((d :: xs) ++ [x]) in Hy.
        rewrite lookup_app_l in Hy by lia. eapply Hfirst; eauto.
Qed.

End FirstMaximum.

(** From a stay of no negative length on, a threshold of zero asks for
    nothing, and the handler's filter is the specification's. *)
Lemma eligible_from_zero_nights checkIn checkOut n d :
  0 <= n ->
  Spec.eligible_nonzero checkIn checkOut n d <-> Spec.eligible checkIn checkOut n d.
Proof.
  intros Hn. unfold Spec.eligible_nonzero, Spec.eligible.
  destruct (minNights d) as [m |]; [| reflexivity].
  assert (H0 : (0 <= inject_Z n)%Q) by (change 0%Q with (inject_Z 0); now rewrite <- Zle_Qle).
  split; intros (H1 & H2 & H3); (split; [exact H1 |]); (split; [exact H2 |]).
  - destruct H3 as [E | L]; [now rewrite E | exact L].
  - now right.
Qed.

(** The exact arithmetic gives the quote of the handlers. *)
Lemma quote_exact pricePerNight discounts checkIn checkOut :
  Numbers.quote Numbers.exact pricePerNight discounts checkIn checkOut =
  Price.quote pricePerNight discounts checkIn checkOut.
Proof. reflexivity. Qed.

(** C1. In whatever arithmetic the numbers are computed (rounded as
    doubles are, or exact), and for a stay of no negative number of
    nights: a discount is applied iff its validity window covers the stay
    and its [minNights], when present, is at most [nights]; the
    applicable discounts keep their list order; [discountAmount] is 0
    when none is applicable and otherwise the amount of the first
    applicable discount of largest amount (a percentage is worth
    [rawTotal * value / 100], a fixed discount [value]); and
    [finalTotal = rawTotal - discountAmount] with
    [rawTotal = nights * nightlyRate], nothing being subtracted when no
    discount is applicable. *)
Theorem quote_discount_selection (A : Numbers.Arith) (pricePerNight : Q)
    (discounts : list Discount) (checkIn checkOut : Date) :
  let q := Numbers.quote A pricePerNight discounts checkIn checkOut in
  let n := Numbers.nights A checkIn checkOut in
  0 <= n ->
  Price.q_nights q = n /\
  Price.rawTotal q = Numbers.mul A (inject_Z n) pricePerNight /\
  (forall d, d ∈ Price.applicableDiscounts q <->
             d ∈ discounts /\ Spec.eligible checkIn checkOut n d) /\
  sublist (Price.applicableDiscounts q) discounts /\
  match Price.applicableDiscounts q with
  | [] =>
      Price.bestDiscount q = None /\ Price.discountAmount q = 0%Q /\
      Price.totalAmount q = Price.rawTotal q
  | d :: ds =>
      exists best,
        Price.bestDiscount q = Some best /\
        Price.discountAmount q = Numbers.amountOf A (Price.rawTotal q) best /\
        Numbers.first_maximum (Numbers.amountOf A (Price.rawTotal q)) (d :: ds) best /\
        Price.totalAmount q = Numbers.sub A (Price.rawTotal q) (Price.discountAmount q)
  end /\
  (forall total d,
     Numbers.amountOf A total d =
     match discountType d with
     | percentage => Numbers.div A (Numbers.mul A total (value d)) 100
     | fixed => value d
     end) /\
  (A = Numbers.exact ->
   q = Price.quote pricePerNight discounts checkIn checkOut /\
   (Price.totalAmount q == Price.rawTotal q - Price.discountAmount q)%Q).
Proof.
  cbv zeta. intros Hn.
  assert (Happ : Price.applicableDiscounts
                   (Numbers.quote A pricePerNight discounts checkIn checkOut) =
                 List.filter
                   (Price.applicable checkIn checkOut (Numbers.nights A checkIn checkOut))
                   discounts).
  { unfold Numbers.quote. cbv zeta. now destruct (List.filter _ _). }
  split; [unfold Numbers.quote; cbv zeta; now destruct (List.filter _ _) |].
  split; [unfold Numbers.quote; cbv zeta; now destruct (List.filter _ _) |].
  split; [| split; [| split; [| split]]].
  - intros d. rewrite Happ, !list_elem_of_In, filter_In, applicable_iff.
    now rewrite (eligible_from_zero_nights _ _ _ _ Hn).
  - rewrite Happ. apply sublist_filter_bool.
  - unfold Numbers.quote. cbv zeta. destruct (List.filter _ _) as [| d ds]; simpl.
    + now repeat split.
    + eexists. split; [reflexivity |]. split; [reflexivity |].
      split; [| reflexivity].
      apply (reduce_first_maximum (Numbers.amountOf A _)).
  - reflexivity.
  - intros ->. split; [apply quote_exact |]. rewrite quote_exact. apply quote_total.
Qed.

Lemma quote_discount_selection_witness :
  let price := Numbers.round64 (507 # 10)%Q in
  let q := Numbers.quote Numbers.binary64 price
             [mkDiscount fixed (Numbers.round64 (1521 # 100)%Q) None
                (Sample.day 0) (Sample.day 30);
              mkDiscount percentage 10 (Some 2%Q) (Sample.day 0) (Sample.day 30)]
             (Sample.day 10) (Sample.day 13) in
  Price.q_nights q = 3 /\
  Price.rawTotal q = Numbers.mul Numbers.binary64 (inject_Z 3) price.
Proof.
  cbv zeta.
  destruct (quote_discount_selection Numbers.binary64 (Numbers.round64 (507 # 10)%Q)
              [mkDiscount fixed (Numbers.round64 (1521 # 100)%Q) None
                 (Sample.day 0) (Sample.day 30);
               mkDiscount percentage 10 (Some 2%Q) (Sample.day 0) (Sample.day 30)]
              (Sample.day 10) (Sample.day 13)) as (H1 & H2 & _).
  - vm_compute. discriminate.
  - split; [exact H1 | exact H2].
Defined.

(** Rounding can decide which discount is the best: for three nights at
    50.7 a fixed discount of 15.21 and one of ten per cent are worth the
    same in exact arithmetic, where the first of them is kept, while in
    doubles the ten per cent come to 15.210000000000003 and win. *)
Example rounding_decides_the_best_discount :
  let price := Numbers.round64 (507 # 10)%Q in
  let off := mkDiscount fixed (Numbers.round64 (1521 # 100)%Q) None
               (Sample.day 0) (Sample.day 30) in
  let tenth := mkDiscount percentage 10 None (Sample.day 0) (Sample.day 30) in
  let q := Numbers.quote Numbers.binary64 price [off; tenth] (Sample.day 10) (Sample.day 13) in
  let q' := Numbers.quote Numbers.exact price [off; tenth] (Sample.day 10) (Sample.day 13) in
  Price.bestDiscount q = Some tenth /\
  Price.discountAmount q = (8562468791538157 # 562949953421312)%Q /\
  (value off < Price.discountAmount q)%Q /\
  Price.bestDiscount q' = Some off /\
  (Numbers.amountOf Numbers.exact (Price.rawTotal q') tenth == value off)%Q.
Proof. cbv zeta. vm_compute. repeat split; try reflexivity; discriminate. Qed.

(** Below zero nights the filter differs: on a stay whose check-out
    precedes its check-in ([nights = -1]), which the handler does not
    refuse, a discount with [minNights = 0] is applied although [0 <= -1]
    is false, and [discountAmount] is 10, not 0. *)
Example zero_threshold_discount_on_inverted_stay :
  let d := mkDiscount fixed 10 (Some 0%Q) (Sample.day 0) (Sample.day 3) in
  let q := Price.quote 100 [d] (Sample.day 2) (Sample.day 1) in
  Price.q_nights q = -1 /\
  ~ Spec.eligible (Sample.day 2) (Sample.day 1) (Price.q_nights q) d /\
  (forall d', d' ∈ [d] -> ~ Spec.eligible (Sample.day 2) (Sample.day 1) (Price.q_nights q) d') /\
  Price.applicableDiscounts q = [d] /\
  Price.discountAmount q = 10%Q /\
  ~ (Price.discountAmount q == 0)%Q.
Proof.
  cbv zeta.
  assert (N : ~ Spec.eligible (Sample.day 2) (Sample.day 1) (-1)
                 (mkDiscount fixed 10 (Some 0%Q) (Sample.day 0) (Sample.day 3))).
  { intros (_ & _ & H). simpl in H. vm_compute in H. now apply H. }
  split; [reflexivity |]. split; [exact N |]. split.
  - intros d' Hd'. apply list_elem_of_singleton in Hd'. subst d'. exact N.
  - split; [reflexivity |]. split; [reflexivity |]. intros H. vm_compute in H. discriminate.
Qed.

(** The worked example of section 8: 100 a night, 20 percent from three
    nights on, a stay of four nights. *)
Example quote_four_nights :
  let d := mkDiscount percentage 20 (Some 3%Q) (Sample.day 0) (Sample.day 30) in
  let q := Price.quote 100 [d] (Sample.day 1) (Sample.day 5) in
  Price.q_nights q = 4 /\ (Price.rawTotal q == 400)%Q /\
  (Price.discountAmount q == 80)%Q /\ (Price.totalAmount q == 320)%Q.
Proof. cbv zeta. repeat split; reflexivity. Qed.

(** A tie goes to the discount that comes first in the list. *)
Example quote_tie_first_wins :
  let d1 := mkDiscount fixed 80 None (Sample.day 0) (Sample.day 30) in
  let d2 := mkDiscount percentage 20 None (Sample.day 0) (Sample.day 30) in
  Price.bestDiscount (Price.quote 100 [d1; d2] (Sample.day 1) (Sample.day 5)) = Some d1 /\
  Price.bestDiscount (Price.quote 100 [d2; d1] (Sample.day 1) (Sample.day 5)) = Some d2.
Proof. cbv zeta. split; reflexivity. Qed.

(** ** Sign of the outputs *)

Lemma first_maximum_elem total l best : Spec.first_maximum total l best -> best ∈ l.
Proof. intros (i & Hi & _). eapply list_elem_of_lookup_2; eauto. Qed.



(** Unfolding the handler monad. *)
Ltac munfold :=
  unfold tryCatch, mbind, M_bind, mret, M_ret, gets, modify, throw, await,
    console_error, serverError in *.





(** ** Host tags *)

#[global] Instance inOrder_total : Total Rank.inOrder.
Proof.
  intros a b. unfold Rank.inOrder.
  destruct (Qlt_le_dec (Host.earnings a) (Host.earnings b)) as [L | L].
  - right. now apply Qlt_le_weak.
  - now left.
Qed.

Lemma place_perm h l : Rank.place h l ≡ₚ h :: l.
Proof.
  induction l as [| x rest IH]; simpl; [reflexivity |].
  destruct (JS.gt _ _); [| reflexivity].
  rewrite IH. apply Permutation_swap.
Qed.

Lemma sortedHosts_perm allHosts : Rank.sortedHosts allHosts ≡ₚ allHosts.
Proof.
  induction allHosts as [| h l IH]; simpl; [reflexivity |].
  now rewrite place_perm, IH.
Qed.

Lemma place_sorted h l :
  StronglySorted Rank.inOrder l -> StronglySorted Rank.inOrder (Rank.place h l).
Proof.
  induction 1 as [| x rest Hs IH Hx]; simpl; [repeat constructor |].
  destruct (JS.gt (Host.earnings x) (Host.earnings h)) eqn:G.
  - constructor; [exact IH |].
    rewrite Forall_forall. intros y Hy.
    apply gt_true in G.
    rewrite place_perm in Hy. apply elem_of_cons in Hy as [-> | Hy].
    + unfold Rank.inOrder. now apply Qlt_le_weak.
    + rewrite Forall_forall in Hx. now apply Hx.
  - apply gt_false in G. constructor; [now constructor |].
    constructor; [exact G |].
    rewrite Forall_forall in Hx |- *. intros y Hy. unfold Rank.inOrder in *.
    eapply Qle_trans; [apply Hx, Hy | exact G].
Qed.

Lemma sortedHosts_strongly allHosts :
  StronglySorted Rank.inOrder (Rank.sortedHosts allHosts).
Proof.
  induction allHosts as [| h l IH]; simpl; [constructor | now apply place_sorted].
Qed.

Lemma sortedHosts_sorted allHosts : Sorted Rank.inOrder (Rank.sortedHosts allHosts).
Proof. apply StronglySorted_Sorted, sortedHosts_strongly. Qed.

Lemma place_earning e h l : Rank.earning e (Rank.place h l) = Rank.earning e (h :: l).
Proof.
  unfold Rank.earning. induction l as [| x rest IH]; [reflexivity |].
  cbn [Rank.place]. destruct (JS.gt (Host.earnings x) (Host.earnings h)) eqn:G;
    [| reflexivity].
  apply gt_true in G. cbn [List.filter] in *. rewrite IH.
  destruct (Qeq_bool (Host.earnings h) e) eqn:Eh; [| reflexivity].
  destruct (Qeq_bool (Host.earnings x) e) eqn:Ex; [| reflexivity].
  apply Qeq_bool_iff in Eh, Ex. rewrite Eh, Ex in G. now apply Qlt_irrefl in G.
Qed.

(** The sort is stable: the hosts of any one amount of earnings are in
    the order in which they were given. *)
Lemma sortedHosts_is_stable e allHosts :
  Rank.earning e (Rank.sortedHosts allHosts) = Rank.earning e allHosts.
Proof.
  induction allHosts as [| h l IH]; [reflexivity |].
  cbn [Rank.sortedHosts foldr]. rewrite place_earning.
  unfold Rank.earning in *. cbn [List.filter]. fold (Rank.sortedHosts l). now rewrite IH.
Qed.

Lemma sortedHosts_length allHosts : length (Rank.sortedHosts allHosts) = length allHosts.
Proof. apply Permutation_length, sortedHosts_perm. Qed.

(** A percentile against a decimal threshold [a / b], on integers. *)
Lemma percentile_le (index len : nat) (a : Z) (b : positive) :
  (0 < len)%nat ->
  (Rank.percentile index len <= a # b)%Q <->
  (Z.of_nat index + 1) * Z.pos b <= a * Z.of_nat len.
Proof.
  intros Hlen. destruct len as [| k]; [lia |].
  unfold Rank.percentile, Qle, Qdiv, Qmult, Qinv. simpl. lia.
Qed.

Lemma percentile_leb (index len : nat) (a : Z) (b : positive) :
  (0 < len)%nat ->
  Qle_bool (Rank.percentile index len) (a # b)%Q =
  ((Z.of_nat index + 1) * Z.pos b <=? a * Z.of_nat len).
Proof.
  intros Hlen. apply eq_true_iff_eq.
  now rewrite Qle_bool_iff, Z.leb_le, percentile_le.
Qed.

Lemma tagOf_by_rank (index len : nat) :
  (0 < len)%nat -> Rank.tagOf (Rank.percentile index len) = Spec.tag_by_rank index len.
Proof.
  intros Hlen. unfold Rank.tagOf, Spec.tag_by_rank.
  change 0.01%Q with (1 # 100)%Q. change 0.1%Q with (1 # 10)%Q.
  change 0.3%Q with (3 # 10)%Q.
  rewrite !percentile_leb by exact Hlen.
  replace ((Z.of_nat index + 1) * 100) with (100 * (Z.of_nat index + 1)) by lia.
  replace ((Z.of_nat index + 1) * 10) with (10 * (Z.of_nat index + 1)) by lia.
  replace (1 * Z.of_nat len) with (Z.of_nat len) by lia.
  reflexivity.
Qed.

Lemma tagOf_cases (p : Q) :
  ((p <= 0.01)%Q /\ Rank.tagOf p = Some gold) \/
  ((0.01 < p <= 0.1)%Q /\ Rank.tagOf p = Some silver) \/
  ((0.1 < p <= 0.3)%Q /\ Rank.tagOf p = Some bronze) \/
  ((0.3 < p)%Q /\ Rank.tagOf p = None).
Proof.
  unfold Rank.tagOf.
  destruct (Qle_bool p 0.01) eqn:G; [left; split; [now apply Qle_bool_iff | reflexivity] |].
  assert (0.01 < p)%Q as G'.
  { apply Qnot_le_lt. rewrite <- Qle_bool_iff. congruence. }
  destruct (Qle_bool p 0.1) eqn:S.
  { right; left. split; [split; [exact G' | now apply Qle_bool_iff] | reflexivity]. }
  assert (0.1 < p)%Q as S'.
  { apply Qnot_le_lt. rewrite <- Qle_bool_iff. congruence. }
  destruct (Qle_bool p 0.3) eqn:B.
  { right; right; left. split; [split; [exact S' | now apply Qle_bool_iff] | reflexivity]. }
  right; right; right. split; [| reflexivity].
  apply Qnot_le_lt. rewrite <- Qle_bool_iff. congruence.
Qed.

(** C5. The hosts are sorted by descending earnings, hosts of equal
    earnings keeping the order they had, and the host at
    0-based position [index] among [N] hosts is saved with the tag gold if
    [(index + 1) / N <= 0.01], else silver if it is [<= 0.1], else bronze if
    it is [<= 0.3], else with no tag; with 100 hosts the ranks 1, 5, 25 and
    50 get gold, silver, bronze and no tag. *)
Theorem host_tag_by_percentile (allHosts : list Host.t) (index : nat) (h : Host.t) :
  Rank.sortedHosts allHosts !! index = Some h ->
  let N := length allHosts in
  let p := Rank.percentile index N in
  Sorted Rank.inOrder (Rank.sortedHosts allHosts) /\
  Rank.sortedHosts allHosts ≡ₚ allHosts /\
  (forall e, Rank.earning e (Rank.sortedHosts allHosts) = Rank.earning e allHosts) /\
  p = (inject_Z (Z.of_nat index + 1) / inject_Z (Z.of_nat N))%Q /\
  Rank.rerank allHosts !! index = Some (Host.set_hostTag (Rank.tagOf p) h) /\
  (((p <= 0.01)%Q /\ Rank.tagOf p = Some gold) \/
   ((0.01 < p <= 0.1)%Q /\ Rank.tagOf p = Some silver) \/
   ((0.1 < p <= 0.3)%Q /\ Rank.tagOf p = Some bronze) \/
   ((0.3 < p)%Q /\ Rank.tagOf p = None)) /\
  Rank.tagOf p = Spec.tag_by_rank index N /\
  (N = 100%nat ->
   (index = 0%nat -> Rank.tagOf p = Some gold) /\
   (index = 4%nat -> Rank.tagOf p = Some silver) /\
   (index = 24%nat -> Rank.tagOf p = Some bronze) /\
   (index = 49%nat -> Rank.tagOf p = None)).
Proof.
  intros Hh N p.
  assert (Hlen : (index < N)%nat).
  { unfold N. rewrite <- sortedHosts_length. eapply lookup_lt_Some; eauto. }
  split; [apply sortedHosts_sorted |]. split; [apply sortedHosts_perm |].
  split; [intros e; apply sortedHosts_is_stable |].
  split; [reflexivity |]. split.
  - unfold Rank.rerank, Rank.assignTags.
    rewrite list_lookup_imap, Hh, sortedHosts_length. reflexivity.
  - split; [apply tagOf_cases |]. split; [apply tagOf_by_rank; lia |].
    intros HN. unfold p. rewrite HN.
    repeat split; intros ->; reflexivity.
Qed.

Lemma host_tag_by_percentile_witness :
  Host.hostTag <$> Rank.rerank Sample.hundredHosts !! 0%nat = Some (Some gold) /\
  Host.hostTag <$> Rank.rerank Sample.hundredHosts !! 4%nat = Some (Some silver) /\
  Host.hostTag <$> Rank.rerank Sample.hundredHosts !! 24%nat = Some (Some bronze) /\
  Host.hostTag <$> Rank.rerank Sample.hundredHosts !! 49%nat = Some None.
Proof.
  assert (L : length Sample.hundredHosts = 100%nat) by reflexivity.
  split; [| split; [| split]].
  - destruct (host_tag_by_percentile Sample.hundredHosts 0 (Sample.hostNo 99))
      as (_ & _ & _ & _ & -> & _ & _ & T); [vm_compute; reflexivity |].
    destruct (T L) as (-> & _); reflexivity.
  - destruct (host_tag_by_percentile Sample.hundredHosts 4 (Sample.hostNo 95))
      as (_ & _ & _ & _ & -> & _ & _ & T); [vm_compute; reflexivity |].
    destruct (T L) as (_ & -> & _); reflexivity.
  - destruct (host_tag_by_percentile Sample.hundredHosts 24 (Sample.hostNo 75))
      as (_ & _ & _ & _ & -> & _ & _ & T); [vm_compute; reflexivity |].
    destruct (T L) as (_ & _ & -> & _); reflexivity.
  - destruct (host_tag_by_percentile Sample.hundredHosts 49 (Sample.hostNo 50))
      as (_ & _ & _ & _ & -> & _ & _ & T); [vm_compute; reflexivity |].
    destruct (T L) as (_ & _ & _ & ->); reflexivity.
Defined.

(** Hosts of equal earnings keep their order, as [Array.prototype.sort]
    requires. *)
Example sortedHosts_stable :
  let a := Host.mk "a" "u" true 5 0 None in
  let b := Host.mk "b" "u" true 7 0 None in
  let c := Host.mk "c" "u" true 5 0 None in
  let d := Host.mk "d" "u" true 7 0 None in
  let e := Host.mk "e" "u" true 5 0 None in
  Rank.sortedHosts [a; b; c; d] = [b; d; a; c] /\
  Rank.sortedHosts [c; d; a; b] = [d; b; c; a] /\
  Rank.sortedHosts [a; c; e] = [a; c; e] /\
  Rank.sortedHosts [e; c; a; b; d] = [b; d; e; c; a].
Proof. cbv zeta. repeat split; reflexivity. Qed.

(** ** Running the handlers *)

Lemma createPaymentIntent_run sv amount currency md w :
  createPaymentIntent sv amount currency md w =
  match stripe_paymentIntents_create sv (JS.Math_round (amount * 100)%Q) currency md with
  | Some paymentIntent => (Returned paymentIntent, w)
  | None => (Thrown (Error "Payment processing failed"),
             logged [["Stripe error:"; "stripe"]] w)
  end.
Proof.
  unfold createPaymentIntent. munfold.
  now destruct (stripe_paymentIntents_create _ _ _ _).
Qed.

Lemma confirmPaymentIntent_run sv paymentIntentId w :
  confirmPaymentIntent sv paymentIntentId w =
  match stripe_paymentIntents_retrieve sv paymentIntentId with
  | Some paymentIntent => (Returned paymentIntent, w)
  | None => (Thrown (Error "Payment confirmation failed"),
             logged [["Stripe error:"; "stripe"]] w)
  end.
Proof.
  unfold confirmPaymentIntent. munfold.
  now destruct (stripe_paymentIntents_retrieve _ _).
Qed.

Lemma sendBookingConfirmation_run sv phone details w :
  sendBookingConfirmation sv phone details w =
  match twilio_messages_create sv phone details with
  | Some _ => (Returned tt, w)
  | None => (Thrown (Error "Failed to send SMS"), logged [["Twilio error:"; "twilio"]] w)
  end.
Proof.
  unfold sendBookingConfirmation, sendSMS. munfold.
  now destruct (twilio_messages_create _ _ _) as [[] |].
Qed.

Lemma createBooking_run sv newId user body w :
  Guest.createBooking sv newId user body w =
  match Guest.bookingErrors sv body with
  | (_ :: _) as errors => (Returned (mkResponse 400 (J_errors errors)), w)
  | [] =>
      match properties w !! Guest.BookingBody.propertyId body with
      | None => (Returned (mkResponse 404 (J_message "Property not found")), w)
      | Some property =>
          let q := Guest.quoteFor property body in
          match stripe_paymentIntents_create sv
                  (JS.Math_round (Price.totalAmount q * 100)%Q) "usd"
                  (Guest.metadata user body) with
          | Some paymentIntent =>
              let booking := Guest.newBooking user body q paymentIntent in
              (Returned (mkResponse 200
                           (J_created newId booking
                              (PaymentIntent.client_secret paymentIntent))),
               set_bookings <[newId := booking]> w)
          | None =>
              (Returned (mkResponse 500 (J_message "Server error")),
               logged [["Payment processing failed"]]
                 (logged [["Stripe error:"; "stripe"]] w))
          end
      end
  end.
Proof.
  unfold Guest.createBooking, tryCatch at 1.
  destruct (Guest.bookingErrors sv body) as [| e es]; [| reflexivity].
  unfold mbind at 1, M_bind at 1, Property_findById, gets.
  destruct (properties w !! _) as [property |]; [| reflexivity].
  cbv zeta. unfold mbind at 1, M_bind at 1. rewrite createPaymentIntent_run.
  destruct (stripe_paymentIntents_create _ _ _ _); reflexivity.
Qed.

(** ** Bookings with an empty or inverted stay *)

(** C2 (as amended). The handler has no date-range check.  For a valid
    request on an existing property whose computed nights are [<= 0] the
    price is computed as for any other stay, [rawTotal = nights * rate]
    (hence [<= 0] for a non-negative rate), and the outcome depends on the
    payment gateway alone: if it accepts the amount the booking is stored
    and returned, otherwise the answer is 500 and nothing is stored. *)
Theorem createBooking_without_date_check (sv : Services) (newId : ObjectId)
    (user : ReqUser.t) (body : Guest.BookingBody.t) (w : World) (property : Property.t) :
  Guest.bookingErrors sv body = [] ->
  properties w !! Guest.BookingBody.propertyId body = Some property ->
  Price.nights (Guest.BookingBody.checkIn body) (Guest.BookingBody.checkOut body) <= 0 ->
  let q := Guest.quoteFor property body in
  let n := Price.nights (Guest.BookingBody.checkIn body) (Guest.BookingBody.checkOut body) in
  Price.rawTotal q = (inject_Z n * Property.pricePerNight property)%Q /\
  ((0 <= Property.pricePerNight property)%Q -> (Price.rawTotal q <= 0)%Q) /\
  match stripe_paymentIntents_create sv (JS.Math_round (Price.totalAmount q * 100)%Q)
          "usd" (Guest.metadata user body) with
  | Some paymentIntent =>
      let booking := Guest.newBooking user body q paymentIntent in
      Guest.createBooking sv newId user body w =
        (Returned (mkResponse 200
                     (J_created newId booking (PaymentIntent.client_secret paymentIntent))),
         set_bookings <[newId := booking]> w)
  | None =>
      exists w',
        Guest.createBooking sv newId user body w =
          (Returned (mkResponse 500 (J_message "Server error")), w') /\
        bookings w' = bookings w
  end.
Proof.
  intros He Hp Hn q n. split; [apply quote_rawTotal |]. split.
  - intros Hrate. unfold q, Guest.quoteFor. rewrite quote_rawTotal. fold n.
    assert (inject_Z n <= 0)%Q by (change 0%Q with (inject_Z 0); now rewrite <- Zle_Qle).
    nra.
  - rewrite createBooking_run, He, Hp. cbv zeta. fold q.
    destruct (stripe_paymentIntents_create _ _ _ _); [reflexivity |].
    eexists. split; reflexivity.
Qed.

Lemma createBooking_without_date_check_witness :
  Guest.createBooking Sample.obliging "b1" Sample.alice
    (Guest.BookingBody.mk "p1" (Sample.day 2) (Sample.day 1) 2 None) Sample.world1 =
  (Returned (mkResponse 200
     (J_created "b1"
        (Booking.mk "u1" "p1" (Sample.day 2) (Sample.day 1) 2
           (inject_Z (-1) * 100)%Q 0%Q pending payment_pending "pi_1" None None)
        "cs_1")),
   set_bookings <["b1" :=
        Booking.mk "u1" "p1" (Sample.day 2) (Sample.day 1) 2
           (inject_Z (-1) * 100)%Q 0%Q pending payment_pending "pi_1" None None]>
     Sample.world1).
Proof.
  destruct (createBooking_without_date_check Sample.obliging "b1" Sample.alice
              (Guest.BookingBody.mk "p1" (Sample.day 2) (Sample.day 1) 2 None)
              Sample.world1 Sample.cottage) as (_ & _ & H).
  - reflexivity.
  - reflexivity.
  - vm_compute. discriminate.
  - exact H.
Defined.

(** C2, the claim as worded fails: with a gateway that refuses every
    amount that is not positive, a stay whose check-out is the day before
    its check-in ([nights = -1]) on a property with a negative discount is
    priced at 100, charged and stored; no error is raised. *)
Lemma inverted_stay_is_booked :
  let body := Guest.BookingBody.mk "p2" (Sample.day 2) (Sample.day 1) 2 None in
  let result := Guest.createBooking Sample.positive_charges_only "b1" Sample.alice body
                  Sample.world2 in
  Price.nights (Sample.day 2) (Sample.day 1) = -1 /\
  (Price.totalAmount (Guest.quoteFor Sample.annex body) == 100)%Q /\
  exists booking,
    result.1 = Returned (mkResponse 200 (J_created "b1" booking "cs_1")) /\
    bookings result.2 !! "b1" = Some booking /\
    bookings Sample.world2 !! "b1" = None.
Proof.
  cbv zeta. split; [reflexivity |]. split; [reflexivity |].
  eexists. split; [vm_compute; reflexivity |]. split; reflexivity.
Qed.

(** The same stay on a property without discounts, when the gateway
    accepts the amount it is given. *)
Example inverted_stay_negative_total :
  let body := Guest.BookingBody.mk "p1" (Sample.day 2) (Sample.day 1) 2 None in
  exists booking,
    bookings (Guest.createBooking Sample.obliging "b1" Sample.alice body Sample.world1).2
      !! "b1" = Some booking /\
    (Booking.totalAmount booking == -100)%Q.
Proof. cbv zeta. eexists. split; [vm_compute; reflexivity | reflexivity]. Qed.

(** ** Confirmation *)

Lemma confirmBooking_run sv user id w :
  Guest.confirmBooking sv user id w =
  match bookings w !! id with
  | None => (Returned (mkResponse 404 (J_message "Booking not found")), w)
  | Some booking =>
      if negb (bool_decide (Booking.guest booking = ReqUser.id user)) then
        (Returned (mkResponse 404 (J_message "Booking not found")), w)
      else
        match stripe_paymentIntents_retrieve sv (Booking.paymentIntentId booking) with
        | None =>
            (Returned (mkResponse 500 (J_message "Server error")),
             logged [["Payment confirmation failed"]]
               (logged [["Stripe error:"; "stripe"]] w))
        | Some paymentIntent =>
            if bool_decide (PaymentIntent.status paymentIntent = "succeeded") then
              let booking' := Guest.markPaid paymentIntent booking in
              let w1 := set_bookings <[id := booking']> w in
              match properties w !! Booking.property booking with
              | None =>
                  (Returned (mkResponse 500 (J_message "Server error")),
                   logged [[message_of nullDereference]] w1)
              | Some property =>
                  let w2 :=
                    set_properties
                      (alter (Property.push_availability (Guest.bookedWindow booking'))
                         (Booking.property booking)) w1 in
                  (Returned (mkResponse 200
                               (J_confirmed "Booking confirmed successfully" booking')),
                   match twilio_messages_create sv (User.phone (ReqUser.doc user))
                           (Guest.smsDetails property booking') with
                   | Some _ => w2
                   | None =>
                       logged [["SMS sending failed:"; "Failed to send SMS"]]
                         (logged [["Twilio error:"; "twilio"]] w2)
                   end)
              end
            else (Returned (mkResponse 400 (J_message "Payment failed")), w)
        end
  end.
Proof.
  unfold Guest.confirmBooking, tryCatch at 1.
  unfold mbind at 1, M_bind at 1, Booking_findById, gets.
  destruct (bookings w !! id) as [booking |]; [| reflexivity].
  unfold mbind at 1, M_bind at 1, Property_findById, gets.
  destruct (negb _); [reflexivity |].
  unfold mbind at 1, M_bind at 1. rewrite confirmPaymentIntent_run.
  destruct (stripe_paymentIntents_retrieve _ _) as [paymentIntent |]; [| reflexivity].
  destruct (bool_decide _); [| reflexivity].
  cbv zeta. unfold mbind at 1, M_bind at 1, Booking_save, modify.
  destruct (properties w !! Booking.property booking) as [property |]; [| reflexivity].
  unfold mbind at 1, M_bind at 1, Property_findByIdAndUpdate, modify.
  unfold mbind at 1, M_bind at 1, tryCatch. rewrite sendBookingConfirmation_run.
  destruct (twilio_messages_create _ _ _) as [[] |]; reflexivity.
Qed.

Lemma alter_as_insert {A} (f : A -> A) (m : gmap ObjectId A) (k : ObjectId) (x : A) :
  m !! k = Some x -> alter f k m = <[k := f x]> m.
Proof.
  intros H. apply map_eq. intros j. destruct (decide (k = j)) as [<- | Hne].
  - now rewrite lookup_alter_eq, lookup_insert_eq, H.
  - now rewrite lookup_alter_ne, lookup_insert_ne.
Qed.

(** C7. When the confirmation succeeds (answer 200) the booking is stored
    with status confirmed and payment status paid, its other fields but
    the transaction id being as before; the property gains exactly one
    availability entry, [checkIn, checkOut] marked unavailable, appended
    after the entries it had, which are kept as they were, as are its
    other fields; every other booking and property, and the users, hosts
    and reviews, are unchanged. *)
Theorem confirmation_effect (sv : Services) (user : ReqUser.t) (id : ObjectId)
    (w w' : World) (response : Response) :
  Guest.confirmBooking sv user id w = (Returned response, w') ->
  statusCode response = 200 ->
  exists booking property paymentIntent,
    bookings w !! id = Some booking /\
    properties w !! Booking.property booking = Some property /\
    stripe_paymentIntents_retrieve sv (Booking.paymentIntentId booking) = Some paymentIntent /\
    PaymentIntent.status paymentIntent = "succeeded" /\
    let booking' := Guest.markPaid paymentIntent booking in
    let property' := Property.push_availability (Guest.bookedWindow booking) property in
    response = mkResponse 200 (J_confirmed "Booking confirmed successfully" booking') /\
    bookings w' = <[id := booking']> (bookings w) /\
    Booking.status booking' = confirmed /\
    Booking.paymentStatus booking' = paid /\
    Booking.transactionId booking' = Some (PaymentIntent.id paymentIntent) /\
    (Booking.guest booking', Booking.property booking', Booking.checkIn booking',
     Booking.checkOut booking', Booking.guestsCount booking', Booking.totalAmount booking',
     Booking.discountAmount booking', Booking.paymentIntentId booking',
     Booking.specialRequests booking') =
    (Booking.guest booking, Booking.property booking, Booking.checkIn booking,
     Booking.checkOut booking, Booking.guestsCount booking, Booking.totalAmount booking,
     Booking.discountAmount booking, Booking.paymentIntentId booking,
     Booking.specialRequests booking) /\
    properties w' = <[Booking.property booking := property']> (properties w) /\
    Property.availability property' =
      Property.availability property ++
      [mkAvailability (Booking.checkIn booking) (Booking.checkOut booking) false] /\
    (Property.host property', Property.title property', Property.pricePerNight property',
     Property.maxGuests property', Property.discounts property', Property.isActive property') =
    (Property.host property, Property.title property, Property.pricePerNight property,
     Property.maxGuests property, Property.discounts property, Property.isActive property) /\
    (forall other, other <> id -> bookings w' !! other = bookings w !! other) /\
    (forall other, other <> Booking.property booking ->
       properties w' !! other = properties w !! other) /\
    users w' = users w /\ hosts w' = hosts w /\ reviews w' = reviews w.
Proof.
  intros Hrun Hok. rewrite confirmBooking_run in Hrun.
  destruct (bookings w !! id) as [booking |] eqn:Hb; [| simplify_eq; discriminate].
  destruct (negb _); [simplify_eq; discriminate |].
  destruct (stripe_paymentIntents_retrieve _ _) as [paymentIntent |] eqn:Hpi;
    [| simplify_eq; discriminate].
  destruct (bool_decide _) eqn:Hs; [| simplify_eq; discriminate].
  apply bool_decide_eq_true in Hs. cbv zeta in Hrun.
  destruct (properties w !! Booking.property booking) as [property |] eqn:Hp;
    [| simplify_eq; discriminate].
  exists booking, property, paymentIntent.
  assert (Hprops : properties w' =
            <[Booking.property booking :=
                Property.push_availability (Guest.bookedWindow booking) property]>
              (properties w) /\
          bookings w' = <[id := Guest.markPaid paymentIntent booking]> (bookings w) /\
          users w' = users w /\ hosts w' = hosts w /\ reviews w' = reviews w).
  { injection Hrun as _ <-.
    destruct (twilio_messages_create _ _ _); simpl;
      (split; [now apply alter_as_insert | repeat split]). }
  destruct Hprops as (Hps & Hbs & Hu & Hh & Hr).
  injection Hrun as <- _.
  repeat split; try assumption; try reflexivity.
  - intros other Hne. rewrite Hbs. now apply lookup_insert_ne.
  - intros other Hne. rewrite Hps. now apply lookup_insert_ne.
Qed.

(** The confirmation succeeds whenever the booking is the guest's, its
    property exists and the gateway reports the payment as succeeded. *)
Lemma confirmation_succeeds sv user id w booking property paymentIntent :
  bookings w !! id = Some booking ->
  Booking.guest booking = ReqUser.id user ->
  properties w !! Booking.property booking = Some property ->
  stripe_paymentIntents_retrieve sv (Booking.paymentIntentId booking) = Some paymentIntent ->
  PaymentIntent.status paymentIntent = "succeeded" ->
  (Guest.confirmBooking sv user id w).1 =
    Returned (mkResponse 200
                (J_confirmed "Booking confirmed successfully"
                   (Guest.markPaid paymentIntent booking))).
Proof.
  intros Hb Hg Hp Hpi Hok. rewrite confirmBooking_run, Hb, Hpi, Hp.
  now rewrite (bool_decide_eq_true_2 _ Hg), (bool_decide_eq_true_2 _ Hok).
Qed.

Lemma confirmation_effect_witness :
  exists booking',
    bookings (Guest.confirmBooking Sample.obliging Sample.alice "b1" Sample.world3).2
      = <["b1" := booking']> (bookings Sample.world3) /\
    Booking.status booking' = confirmed /\ Booking.paymentStatus booking' = paid.
Proof.
  destruct (confirmation_effect Sample.obliging Sample.alice "b1" Sample.world3
              (Guest.confirmBooking Sample.obliging Sample.alice "b1" Sample.world3).2
              (mkResponse 200
                 (J_confirmed "Booking confirmed successfully"
                    (Guest.markPaid (PaymentIntent.mk "pi_1" "cs_1" "succeeded") Sample.stay))))
    as (booking & property & paymentIntent & _ & _ & _ & _ & H).
  - vm_compute. reflexivity.
  - reflexivity.
  - cbv zeta in H. destruct H as (_ & Hb & Hs & Hp & _).
    eexists. split; [exact Hb |]. split; [exact Hs | exact Hp].
Defined.

(** ** Failing collaborators *)

Lemma forgotPassword_run sv email w :
  Auth.forgotPassword sv email w =
  if negb (isEmail sv email) then (Returned (mkResponse 400 (J_errors ["email"])), w)
  else
    match userByEmail email w with
    | None => (Returned (mkResponse 404 (J_message "User not found")), w)
    | Some (id, user) =>
        let resetToken :=
          jwt_sign sv id (JWT_SECRET sv +:+ default "undefined" (User.password user)) in
        let w1 :=
          set_users <[id := User.set_reset resetToken (Date_now sv + 3600000) user]> w in
        match transporter_sendMail sv (User.email user) resetToken (User.firstName user) with
        | Some _ => (Returned (mkResponse 200 (J_message "Password reset email sent")), w1)
        | None => (Returned (mkResponse 500 (J_message "Server error")),
                   logged [["nodemailer"]] w1)
        end
    end.
Proof.
  unfold Auth.forgotPassword, tryCatch at 1.
  destruct (negb _); [reflexivity |].
  unfold mbind at 1, M_bind at 1, User_findOne_email, gets.
  destruct (userByEmail email w) as [[id user] |]; [| reflexivity].
  cbv zeta. unfold mbind at 1, M_bind at 1, User_save, modify.
  unfold mbind at 1, M_bind at 1, sendPasswordResetEmail, await.
  destruct (transporter_sendMail _ _ _ _) as [[] |]; reflexivity.
Qed.

Lemma confirmBooking_sms_independent sv sv' user id w :
  stripe_paymentIntents_retrieve sv = stripe_paymentIntents_retrieve sv' ->
  let r := Guest.confirmBooking sv user id w in
  let r' := Guest.confirmBooking sv' user id w in
  r.1 = r'.1 /\ bookings r.2 = bookings r'.2 /\ properties r.2 = properties r'.2 /\
  users r.2 = users r'.2 /\ hosts r.2 = hosts r'.2 /\ reviews r.2 = reviews r'.2.
Proof.
  intros Hs. cbv zeta. rewrite !confirmBooking_run, <- Hs.
  destruct (bookings w !! id) as [booking |]; [| now repeat split].
  destruct (negb _); [now repeat split |].
  destruct (stripe_paymentIntents_retrieve _ _) as [paymentIntent |]; [| now repeat split].
  destruct (bool_decide _); [| now repeat split]. cbv zeta.
  destruct (properties w !! _) as [property |]; [| now repeat split].
  destruct (twilio_messages_create sv _ _), (twilio_messages_create sv' _ _);
    now repeat split.
Qed.

(** C9. The answer to a confirmation request and the stored bookings,
    properties, users, hosts and reviews do not depend on whether the SMS
    can be sent: when Twilio fails on a request that is otherwise
    confirmed, the failure is written to the console and the answer is
    still 200 with the booking and the availability updated.  A failure
    of the payment gateway, at confirmation or at booking, and a failure
    of the mail relay in the password-reset request, end the request with
    500. *)
Theorem sms_failure_is_swallowed (sv sv' : Services) (user : ReqUser.t) (id : ObjectId)
    (w : World) :
  stripe_paymentIntents_retrieve sv = stripe_paymentIntents_retrieve sv' ->
  let r := Guest.confirmBooking sv user id w in
  let r' := Guest.confirmBooking sv' user id w in
  (r.1 = r'.1 /\ bookings r.2 = bookings r'.2 /\ properties r.2 = properties r'.2 /\
   users r.2 = users r'.2 /\ hosts r.2 = hosts r'.2 /\ reviews r.2 = reviews r'.2) /\
  (forall booking property paymentIntent,
     bookings w !! id = Some booking ->
     Booking.guest booking = ReqUser.id user ->
     properties w !! Booking.property booking = Some property ->
     stripe_paymentIntents_retrieve sv (Booking.paymentIntentId booking) =
       Some paymentIntent ->
     PaymentIntent.status paymentIntent = "succeeded" ->
     twilio_messages_create sv (User.phone (ReqUser.doc user))
       (Guest.smsDetails property (Guest.markPaid paymentIntent booking)) = None ->
     let booking' := Guest.markPaid paymentIntent booking in
     r.1 = Returned (mkResponse 200 (J_confirmed "Booking confirmed successfully" booking')) /\
     bookings r.2 = <[id := booking']> (bookings w) /\
     properties r.2 =
       <[Booking.property booking :=
           Property.push_availability (Guest.bookedWindow booking) property]> (properties w) /\
     console r.2 = console w ++ [["Twilio error:"; "twilio"];
                                 ["SMS sending failed:"; "Failed to send SMS"]]) /\
  (forall booking,
     bookings w !! id = Some booking ->
     Booking.guest booking = ReqUser.id user ->
     stripe_paymentIntents_retrieve sv (Booking.paymentIntentId booking) = None ->
     r.1 = Returned (mkResponse 500 (J_message "Server error")) /\
     bookings r.2 = bookings w /\ properties r.2 = properties w) /\
  (forall newId body property,
     Guest.bookingErrors sv body = [] ->
     properties w !! Guest.BookingBody.propertyId body = Some property ->
     stripe_paymentIntents_create sv
       (JS.Math_round (Price.totalAmount (Guest.quoteFor property body) * 100)%Q) "usd"
       (Guest.metadata user body) = None ->
     (Guest.createBooking sv newId user body w).1 =
       Returned (mkResponse 500 (J_message "Server error")) /\
     bookings (Guest.createBooking sv newId user body w).2 = bookings w) /\
  (forall email uid u,
     isEmail sv email = true ->
     userByEmail email w = Some (uid, u) ->
     transporter_sendMail sv (User.email u)
       (jwt_sign sv uid (JWT_SECRET sv +:+ default "undefined" (User.password u)))
       (User.firstName u) = None ->
     (Auth.forgotPassword sv email w).1 =
       Returned (mkResponse 500 (J_message "Server error"))).
Proof.
  intros Hs r r'. split; [now apply confirmBooking_sms_independent |].
  split; [| split; [| split]].
  - intros booking property paymentIntent Hb Hg Hp Hpi Hok Hsms booking'.
    unfold r. rewrite confirmBooking_run, Hb, Hpi, Hp.
    rewrite (bool_decide_eq_true_2 _ Hg), (bool_decide_eq_true_2 _ Hok).
    simpl negb. cbv iota zeta. unfold booking'. rewrite Hsms. simpl.
    split; [reflexivity |]. split; [reflexivity |]. split; [| now rewrite <- app_assoc].
    now apply alter_as_insert.
  - intros booking Hb Hg Hpi. unfold r. rewrite confirmBooking_run, Hb, Hpi.
    rewrite (bool_decide_eq_true_2 _ Hg). now repeat split.
  - intros newId body property He Hp Hpi. rewrite createBooking_run, He, Hp.
    cbv zeta. rewrite Hpi. now split.
  - intros email uid u He Hf Hmail. rewrite forgotPassword_run, He. simpl negb. cbv iota.
    rewrite Hf. cbv zeta. now rewrite Hmail.
Qed.

Lemma sms_failure_is_swallowed_witness :
  (Guest.confirmBooking Sample.sms_down Sample.alice "b1" Sample.world3).1 =
  (Guest.confirmBooking Sample.obliging Sample.alice "b1" Sample.world3).1 /\
  (Guest.confirmBooking Sample.sms_down Sample.alice "b1" Sample.world3).1 =
  Returned (mkResponse 200
    (J_confirmed "Booking confirmed successfully"
       (Guest.markPaid (PaymentIntent.mk "pi_1" "cs_1" "succeeded") Sample.stay))) /\
  (Guest.confirmBooking Sample.stripe_down Sample.alice "b1" Sample.world3).1 =
  Returned (mkResponse 500 (J_message "Server error")) /\
  (Auth.forgotPassword Sample.mail_down "alice@example.org" Sample.world4).1 =
  Returned (mkResponse 500 (J_message "Server error")).
Proof.
  split; [| split; [| split]].
  - now destruct (sms_failure_is_swallowed Sample.sms_down Sample.obliging Sample.alice
                    "b1" Sample.world3 eq_refl) as ((H & _) & _).
  - destruct (sms_failure_is_swallowed Sample.sms_down Sample.obliging Sample.alice
                "b1" Sample.world3 eq_refl) as (_ & H & _).
    now destruct (H Sample.stay Sample.cottage (PaymentIntent.mk "pi_1" "cs_1" "succeeded")
                    eq_refl eq_refl eq_refl eq_refl eq_refl eq_refl) as (H1 & _).
  - destruct (sms_failure_is_swallowed Sample.stripe_down Sample.stripe_down Sample.alice
                "b1" Sample.world3 eq_refl) as (_ & _ & H & _).
    now destruct (H Sample.stay eq_refl eq_refl eq_refl) as (H1 & _).
  - destruct (sms_failure_is_swallowed Sample.mail_down Sample.mail_down Sample.alice
                "b1" Sample.world4 eq_refl) as (_ & _ & _ & _ & H).
    apply (H "alice@example.org" "u1"
             (User.mk "alice@example.org" (Some "$2b$hash1") "Alice" "+15550100"
                guest None None)); [reflexivity | vm_compute; reflexivity | reflexivity].
Defined.

(** ** The host gate *)

Lemma authenticateHost_run sv authorization w :
  Middleware.authenticateHost sv authorization w =
  let token := Middleware.bearer authorization in
  if Middleware.missing token then
    (Returned (Middleware.reject
       (mkResponse 401 (J_message "Access denied. No token provided."))), w)
  else
    match jwt_verify sv (default "" token) (JWT_SECRET sv) with
    | None =>
        (Returned (Middleware.reject (mkResponse 401 (J_message "Token is not valid."))), w)
    | Some decoded =>
        match users w !! decoded with
        | None =>
            (Returned (Middleware.reject
               (mkResponse 401 (J_message "Host access required."))), w)
        | Some u =>
            if negb (bool_decide (User.role u = host)) &&
               negb (bool_decide (User.role u = admin)) then
              (Returned (Middleware.reject
                 (mkResponse 401 (J_message "Host access required."))), w)
            else
              (Returned (Middleware.next
                 (ReqUser.mk decoded (User.without_password u))), w)
        end
    end.
Proof.
  unfold Middleware.authenticateHost, tryCatch. cbv zeta.
  destruct (Middleware.missing _); [reflexivity |].
  unfold mbind at 1, M_bind at 1, await.
  destruct (jwt_verify _ _ _) as [decoded |]; [| reflexivity].
  unfold mret at 1, M_ret at 1, mbind, M_bind, User_findById_select, gets.
  destruct (users w !! decoded) as [u |]; [| reflexivity]. simpl.
  destruct (_ && _); reflexivity.
Qed.

Lemma missing_iff token :
  Middleware.missing token = true <-> token = None \/ token = Some "".
Proof.
  destruct token as [t |]; simpl.
  - rewrite bool_decide_eq_true. split; [intros ->; now right | intros [? | ?]; congruence].
  - split; [now left | reflexivity].
Qed.

(** C10. [authenticateHost] verifies the bearer token under [JWT_SECRET]
    and leaves the store alone; it answers 401 exactly when the token is
    missing, does not verify under that secret, names no user, or names a
    user whose role is neither host nor admin, and otherwise passes the
    request on with the user found; a user of role admin passes. *)
Theorem authenticateHost_gate (sv : Services) (authorization : option string) (w : World) :
  let r := Middleware.authenticateHost sv authorization w in
  r.2 = w /\
  ((exists response, r.1 = Returned (Middleware.reject response)) <->
   Spec.host_gate_refuses sv w authorization) /\
  (forall response, r.1 = Returned (Middleware.reject response) ->
                    statusCode response = 401) /\
  (~ Spec.host_gate_refuses sv w authorization ->
   exists t id u,
     Middleware.bearer authorization = Some t /\
     jwt_verify sv t (JWT_SECRET sv) = Some id /\
     users w !! id = Some u /\
     (User.role u = host \/ User.role u = admin) /\
     r.1 = Returned (Middleware.next (ReqUser.mk id (User.without_password u)))) /\
  (forall t id u,
     Middleware.bearer authorization = Some t -> t <> "" ->
     jwt_verify sv t (JWT_SECRET sv) = Some id ->
     users w !! id = Some u -> User.role u = admin ->
     r.1 = Returned (Middleware.next (ReqUser.mk id (User.without_password u)))).
Proof.
  cbv zeta. rewrite authenticateHost_run. cbv zeta. unfold Spec.host_gate_refuses.
  destruct (Middleware.missing (Middleware.bearer authorization)) eqn:Hm.
  { apply missing_iff in Hm. simpl. split; [reflexivity |].
    split; [split; [intros _; tauto | intros _; eauto] |].
    split; [intros response [= <-]; reflexivity |].
    split; [intros Hn; exfalso; apply Hn; tauto |].
    intros t id u Ht Hne. destruct Hm as [Hm | Hm]; congruence. }
  assert (Hpresent : exists t, Middleware.bearer authorization = Some t /\ t <> "").
  { destruct (Middleware.bearer authorization) as [t |]; simpl in Hm; [| discriminate].
    exists t. split; [reflexivity |]. now apply bool_decide_eq_false in Hm. }
  destruct Hpresent as (t & Ht & Hne). rewrite Ht. simpl default.
  destruct (jwt_verify sv t (JWT_SECRET sv)) as [id |] eqn:Hv.
  2:{ simpl. split; [reflexivity |].
      split; [split; [intros _; right; right; left; eauto | intros _; eauto] |].
      split; [intros response [= <-]; reflexivity |].
      split; [intros Hn; exfalso; apply Hn; right; right; left; eauto |].
      intros t' id u [= <-] _ Hv'. congruence. }
  destruct (users w !! id) as [u |] eqn:Hu.
  2:{ simpl. split; [reflexivity |].
      split; [split; [intros _; right; right; right; left; eauto | intros _; eauto] |].
      split; [intros response [= <-]; reflexivity |].
      split; [intros Hn; exfalso; apply Hn; right; right; right; left; eauto |].
      intros t' id' u [= <-] _ Hv' Hu'. congruence. }
  destruct (User.role u) eqn:Hr; simpl.
  - split; [reflexivity |].
    split; [split; [intros _; do 4 right; exists t, id, u; rewrite Hr; repeat split; congruence
                   | intros _; eauto] |].
    split; [intros response [= <-]; reflexivity |].
    split; [intros Hn; exfalso; apply Hn; do 4 right; exists t, id, u; rewrite Hr;
            repeat split; congruence |].
    intros t' id' u' [= <-] _ Hv' Hu' Hr'. congruence.
  - split; [reflexivity |].
    split; [split; [intros [response [=]] |] |].
    + intros [? | [? | [(t' & [= <-] & ?) | [(t' & id' & [= <-] & ? & ?)
                | (t' & id' & u' & [= <-] & ? & ? & ? & ?)]]]]; congruence.
    + split; [intros response [=] |].
      split; [intros _; exists t, id, u; rewrite Hr; repeat split; auto |].
      intros t' id' u' [= <-] _ Hv' Hu' Hr'. congruence.
  - split; [reflexivity |].
    split; [split; [intros [response [=]] |] |].
    + intros [? | [? | [(t' & [= <-] & ?) | [(t' & id' & [= <-] & ? & ?)
                | (t' & id' & u' & [= <-] & ? & ? & ? & ?)]]]]; congruence.
    + split; [intros response [=] |].
      split; [intros _; exists t, id, u; rewrite Hr; repeat split; auto |].
      intros t' id' u' [= <-] _ Hv' Hu' Hr'. congruence.
Qed.

(** ** Reviews *)

Lemma createReview_run sv newId user body w :
  Guest.createReview sv newId user body w =
  match Guest.reviewErrors sv body with
  | (_ :: _) as errors => (Returned (mkResponse 400 (J_errors errors)), w)
  | [] =>
      match completedBooking (Guest.ReviewBody.bookingId body) (ReqUser.id user)
              (Guest.ReviewBody.propertyId body) w with
      | None => (Returned (mkResponse 404 (J_message "Valid booking not found")), w)
      | Some _ =>
          match reviewOf (Guest.ReviewBody.bookingId body) w with
          | Some _ =>
              (Returned (mkResponse 400
                           (J_message "Review already exists for this booking")), w)
          | None =>
              (Returned (mkResponse 201 (J_review (Guest.newReview newId user body))),
               set_reviews (fun rs => rs ++ [Guest.newReview newId user body]) w)
          end
      end
  end.
Proof.
  unfold Guest.createReview, tryCatch.
  destruct (Guest.reviewErrors sv body); [| reflexivity].
  unfold mbind at 1, M_bind at 1, Booking_findOne_completed, gets.
  destruct (completedBooking _ _ _ w); [| reflexivity].
  unfold mbind at 1, M_bind at 1, Review_findOne_booking, gets.
  destruct (reviewOf _ w); reflexivity.
Qed.

Lemma completedBooking_Some id g p w b :
  completedBooking id g p w = Some b <->
  bookings w !! id = Some b /\ Booking.guest b = g /\ Booking.property b = p /\
  Booking.status b = completed.
Proof.
  unfold completedBooking. destruct (bookings w !! id) as [b' |]; [| intuition congruence].
  destruct (bool_decide_reflect (Booking.guest b' = g)) as [Hg | Hg];
    destruct (bool_decide_reflect (Booking.property b' = p)) as [Hp | Hp];
    destruct (bool_decide_reflect (Booking.status b' = completed)) as [Hs | Hs];
    simpl; split;
    try (intros [= <-]; tauto); try (intros ([= <-] & ? & ? & ?); congruence);
    try discriminate.
Qed.

Lemma reviewOf_None id w :
  reviewOf id w = None <-> forall r, r ∈ reviews w -> Review.booking r <> id.
Proof.
  unfold reviewOf. split.
  - intros H r Hr E. apply list_elem_of_In in Hr.
    pose proof (List.find_none _ _ H r Hr) as F. simpl in F.
    now apply bool_decide_eq_false in F.
  - intros H. destruct (List.find _ _) as [r |] eqn:F; [| reflexivity].
    apply List.find_some in F as [Hr E]. apply bool_decide_eq_true in E.
    apply list_elem_of_In in Hr. now apply H in Hr.
Qed.

Lemma reviewErrors_nil sv body :
  Guest.reviewErrors sv body = [] ->
  1 <= Guest.ReviewBody.rating body <= 5.
Proof.
  unfold Guest.reviewErrors. intros H.
  destruct (isMongoId sv (Guest.ReviewBody.bookingId body)); [| discriminate].
  destruct (isMongoId sv (Guest.ReviewBody.propertyId body)); [| discriminate].
  destruct (_ && _) eqn:R; [| discriminate].
  apply andb_true_iff in R as [R1 R2]. apply Z.leb_le in R1, R2. lia.
Qed.

(** The validator counts characters, not bytes: a comment of nine
    characters, one of them an e with a grave accent (two bytes in UTF-8),
    is too short. *)
Example accented_comment_is_too_short :
  let comment :=
    "Tr" +:+ String (Ascii.ascii_of_nat 195) (String (Ascii.ascii_of_nat 168) "s bien") in
  String.length comment = 10%nat /\
  Sample.characters comment = 9%nat /\
  Guest.reviewErrors Sample.obliging (Guest.ReviewBody.mk "b1" "p1" 5 comment) =
    ["comment"] /\
  (Guest.createReview Sample.obliging "r1" Sample.alice
     (Guest.ReviewBody.mk "b1" "p1" 5 comment) Sample.world5).1 =
    Returned (mkResponse 400 (J_errors ["comment"])).
Proof. cbv zeta. repeat split; reflexivity. Qed.

Lemma may_review_run sv newId w user body :
  Spec.may_review sv w user body <->
  Guest.createReview sv newId user body w =
    (Returned (mkResponse 201 (J_review (Guest.newReview newId user body))),
     set_reviews (fun rs => rs ++ [Guest.newReview newId user body]) w).
Proof.
  rewrite createReview_run. unfold Spec.may_review. split.
  - intros (-> & (b & Hb) & Hn). apply completedBooking_Some in Hb. rewrite Hb.
    apply reviewOf_None in Hn. now rewrite Hn.
  - destruct (Guest.reviewErrors sv body); [| discriminate].
    destruct (completedBooking _ _ _ w) as [b |] eqn:Hb; [| discriminate].
    destruct (reviewOf _ w) eqn:Hn; [discriminate |]. intros _.
    split; [reflexivity |]. split.
    + exists b. now apply completedBooking_Some.
    + now apply reviewOf_None.
Qed.

Lemma createReview_cases sv newId user body w :
  Spec.may_review sv w user body \/
  exists response,
    Guest.createReview sv newId user body w = (Returned response, w) /\
    (statusCode response = 400 \/ statusCode response = 404).
Proof.
  destruct (Guest.createReview sv newId user body w) as [o w'] eqn:Hrun.
  pose proof Hrun as Hrun'. rewrite createReview_run in Hrun'.
  destruct (Guest.reviewErrors sv body) eqn:He.
  - destruct (completedBooking _ _ _ w) eqn:Hb.
    + destruct (reviewOf _ w) eqn:Hn.
      * right. injection Hrun' as <- <-. eexists. split; [reflexivity | now left].
      * left. apply (may_review_run sv newId). rewrite createReview_run, He, Hb, Hn. reflexivity.
    + right. injection Hrun' as <- <-. eexists. split; [reflexivity | now right].
  - right. injection Hrun' as <- <-. eexists. split; [reflexivity | now left].
Qed.

Lemma createReview_keeps_one_review sv newId user body w :
  Spec.one_review_per_booking w ->
  Spec.one_review_per_booking (Guest.createReview sv newId user body w).2.
Proof.
  intros Hinv. destruct (createReview_cases sv newId user body w) as [Hm | (r & -> & _)];
    [| exact Hinv].
  pose proof Hm as Hrun. apply (may_review_run sv newId) in Hrun. rewrite Hrun.
  unfold Spec.one_review_per_booking. simpl. rewrite fmap_app. simpl.
  apply NoDup_app. split; [exact Hinv |]. split; [| apply NoDup_singleton].
  intros id Hid Hid'. apply list_elem_of_singleton in Hid'. subst id.
  apply list_elem_of_fmap in Hid as (r & Hr & Hin).
  destruct Hm as (_ & _ & Hn). apply (Hn r Hin). now rewrite Hr.
Qed.

Lemma updateBookingStatus_run user id status w :
  HostRoutes.updateBookingStatus user id status w =
  if negb (bool_decide (status ∈ [confirmed; cancelled; completed])) then
    (Returned (mkResponse 400 (J_errors ["status"])), w)
  else
    match hostOf (ReqUser.id user) w with
    | None =>
        (Returned (mkResponse 500 (J_message "Server error")),
         logged [[message_of nullDereference]] w)
    | Some h =>
        match HostRoutes.bookingOfHost id (Host._id h) w with
        | None => (Returned (mkResponse 404 (J_message "Booking not found")), w)
        | Some booking =>
            (Returned (mkResponse 200 (J_booking (Booking.set_status status booking))),
             set_bookings <[id := Booking.set_status status booking]> w)
        end
    end.
Proof.
  unfold HostRoutes.updateBookingStatus, tryCatch.
  destruct (negb _); [reflexivity |].
  unfold mbind at 1, M_bind at 1, Host_findOne_user, gets.
  destruct (hostOf _ w) as [h |]; [| reflexivity].
  unfold mbind at 1, M_bind at 1, HostRoutes.Booking_findOne_of_host, gets.
  destruct (HostRoutes.bookingOfHost _ _ w); reflexivity.
Qed.

Lemma bookingOfHost_Some id hostId w b :
  HostRoutes.bookingOfHost id hostId w = Some b -> bookings w !! id = Some b.
Proof.
  unfold HostRoutes.bookingOfHost. destruct (bookings w !! id) as [b' |]; [| discriminate].
  destruct (properties w !! _) as [p |]; [| discriminate].
  destruct (bool_decide _); [congruence | discriminate].
Qed.

(** ** What each request may change *)

Lemma replyToReview_run user id reply w :
  HostRoutes.replyToReview user id reply w =
  if bool_decide (reply = "") then (Returned (mkResponse 400 (J_errors ["reply"])), w)
  else
    match hostOf (ReqUser.id user) w with
    | None =>
        (Returned (mkResponse 500 (J_message "Server error")),
         logged [[message_of nullDereference]] w)
    | Some h =>
        match HostRoutes.reviewOfHost id (Host._id h) w with
        | None => (Returned (mkResponse 404 (J_message "Review not found")), w)
        | Some (i, review) =>
            (Returned (mkResponse 200 (J_review (Review.set_hostReply reply review))),
             set_reviews <[i := Review.set_hostReply reply review]> w)
        end
    end.
Proof.
  unfold HostRoutes.replyToReview, tryCatch.
  destruct (bool_decide _); [reflexivity |].
  unfold mbind at 1, M_bind at 1, Host_findOne_user, gets.
  destruct (hostOf _ w) as [h |]; [| reflexivity].
  unfold mbind at 1, M_bind at 1.
  destruct (HostRoutes.reviewOfHost _ _ w) as [[i review] |]; reflexivity.
Qed.

(** Replacing a review by one for the same booking leaves the list of
    reviewed bookings as it was. *)
Lemma reviewed_bookings_insert (rs : list Review.t) (i : nat) (r r' : Review.t) :
  rs !! i = Some r -> Review.booking r' = Review.booking r ->
  Review.booking <$> <[i := r']> rs = Review.booking <$> rs.
Proof.
  intros Hi E. rewrite list_fmap_insert, E. apply list_insert_id.
  now rewrite list_lookup_fmap, Hi.
Qed.

(** A request leaves the list of reviewed bookings alone, or appends the
    review it was allowed to create. *)
Lemma handle_reviews sv r w :
  Review.booking <$> reviews (handle sv r w).2 = Review.booking <$> reviews w \/
  exists newId user body,
    r = PostReviews newId user body /\ Spec.may_review sv w user body /\
    reviews (handle sv r w).2 = reviews w ++ [Guest.newReview newId user body].
Proof.
  destruct r as [newId user body | user id | newId user body | user id status
                | user id reply | email]; simpl.
  - left. rewrite createBooking_run.
    destruct (Guest.bookingErrors sv body); [| reflexivity].
    destruct (properties w !! _); [| reflexivity]. cbv zeta.
    destruct (stripe_paymentIntents_create _ _ _ _); reflexivity.
  - left. rewrite confirmBooking_run.
    destruct (bookings w !! id); [| reflexivity].
    destruct (negb _); [reflexivity |].
    destruct (stripe_paymentIntents_retrieve _ _); [| reflexivity].
    destruct (bool_decide _); [| reflexivity]. cbv zeta.
    destruct (properties w !! _); [| reflexivity]. simpl.
    destruct (twilio_messages_create _ _ _); reflexivity.
  - destruct (createReview_cases sv newId user body w) as [Hm | (response & -> & _)];
      [| now left].
    right. exists newId, user, body. split; [reflexivity |]. split; [exact Hm |].
    apply (may_review_run sv newId) in Hm. now rewrite Hm.
  - left. rewrite updateBookingStatus_run.
    destruct (negb _); [reflexivity |].
    destruct (hostOf _ w); [| reflexivity].
    destruct (HostRoutes.bookingOfHost _ _ w); reflexivity.
  - left. rewrite replyToReview_run.
    destruct (bool_decide _); [reflexivity |].
    destruct (hostOf _ w) as [h |]; [| reflexivity].
    destruct (HostRoutes.reviewOfHost _ _ w) as [[i review] |] eqn:Hf; [| reflexivity].
    simpl. apply list_find_Some in Hf as (Hi & _).
    eapply reviewed_bookings_insert; eauto.
  - left. rewrite forgotPassword_run.
    destruct (negb _); [reflexivity |].
    destruct (userByEmail email w) as [[uid u] |]; [| reflexivity]. cbv zeta.
    destruct (transporter_sendMail _ _ _ _); reflexivity.
Qed.

(** A request leaves the bookings alone, or stores the booking it
    creates, or stores again a booking that was there with the same
    dates. *)
Lemma handle_bookings sv r w :
  bookings (handle sv r w).2 = bookings w \/
  (exists newId user body b,
     r = PostBookings newId user body /\
     bookings (handle sv r w).2 = <[newId := b]> (bookings w) /\
     Booking.checkIn b = Guest.BookingBody.checkIn body /\
     Booking.checkOut b = Guest.BookingBody.checkOut body) \/
  (exists id b b',
     bookings w !! id = Some b /\
     bookings (handle sv r w).2 = <[id := b']> (bookings w) /\
     Booking.checkIn b' = Booking.checkIn b /\
     Booking.checkOut b' = Booking.checkOut b).
Proof.
  destruct r as [newId user body | user id | newId user body | user id status
                | user id reply | email]; simpl.
  - rewrite createBooking_run.
    destruct (Guest.bookingErrors sv body); [| now left].
    destruct (properties w !! _) as [property |]; [| now left]. cbv zeta.
    destruct (stripe_paymentIntents_create _ _ _ _) as [paymentIntent |]; [| now left].
    right; left. exists newId, user, body. eexists. split; [reflexivity |].
    split; [reflexivity |]. split; reflexivity.
  - rewrite confirmBooking_run.
    destruct (bookings w !! id) as [booking |] eqn:Hb; [| now left].
    destruct (negb _); [now left |].
    destruct (stripe_paymentIntents_retrieve _ _) as [paymentIntent |]; [| now left].
    destruct (bool_decide _); [| now left]. cbv zeta.
    right; right. exists id, booking, (Guest.markPaid paymentIntent booking).
    split; [exact Hb |].
    destruct (properties w !! _); [| now repeat split]. simpl.
    destruct (twilio_messages_create _ _ _); now repeat split.
  - left. rewrite createReview_run.
    destruct (Guest.reviewErrors sv body); [| reflexivity].
    destruct (completedBooking _ _ _ w); [| reflexivity].
    destruct (reviewOf _ w); reflexivity.
  - rewrite updateBookingStatus_run.
    destruct (negb _); [now left |].
    destruct (hostOf _ w) as [h |]; [| now left].
    destruct (HostRoutes.bookingOfHost _ _ w) as [booking |] eqn:Hb; [| now left].
    right; right. exists id, booking, (Booking.set_status status booking).
    split; [eapply bookingOfHost_Some; eauto | now repeat split].
  - left. rewrite replyToReview_run.
    destruct (bool_decide _); [reflexivity |].
    destruct (hostOf _ w) as [h |]; [| reflexivity].
    destruct (HostRoutes.reviewOfHost _ _ w) as [[i review] |]; reflexivity.
  - left. rewrite forgotPassword_run.
    destruct (negb _); [reflexivity |].
    destruct (userByEmail email w) as [[uid u] |]; [| reflexivity]. cbv zeta.
    destruct (transporter_sendMail _ _ _ _); reflexivity.
Qed.

(** ** One review per booking *)

Lemma reviewOf_Some id w x :
  x ∈ reviews w -> Review.booking x = id -> exists r, reviewOf id w = Some r.
Proof.
  intros Hx E. destruct (reviewOf id w) as [r |] eqn:F; [eauto |].
  exfalso. eapply reviewOf_None; eauto.
Qed.

Lemma createReview_already_reviewed sv newId user body w x :
  x ∈ reviews w -> Review.booking x = Guest.ReviewBody.bookingId body ->
  exists response,
    Guest.createReview sv newId user body w = (Returned response, w) /\
    (statusCode response = 400 \/ statusCode response = 404).
Proof.
  intros Hx E. destruct (createReview_cases sv newId user body w) as [(_ & _ & Hn) | H];
    [| exact H].
  exfalso. eapply Hn; eauto.
Qed.

Lemma handle_keeps_one_review sv r w :
  Spec.one_review_per_booking w -> Spec.one_review_per_booking (handle sv r w).2.
Proof.
  intros Hinv. destruct (handle_reviews sv r w) as [E | (newId & user & body & -> & _ & _)].
  - unfold Spec.one_review_per_booking. now rewrite E.
  - simpl. now apply createReview_keeps_one_review.
Qed.

Lemma serve_keeps_one_review trace w :
  Spec.one_review_per_booking w -> Spec.one_review_per_booking (serve trace w).
Proof.
  revert w. induction trace as [| [sv r] trace IH]; intros w Hinv; [exact Hinv |].
  simpl. apply IH. now apply handle_keeps_one_review.
Qed.

(** ** Overlapping review requests *)

Lemma advance_findsBooking sv c w :
  Overlap.advance sv c Overlap.findsBooking w =
  match Guest.reviewErrors sv (Overlap.body c) with
  | (_ :: _) as errors =>
      (Returned (Overlap.answered (mkResponse 400 (J_errors errors))), w)
  | [] =>
      match completedBooking (Guest.ReviewBody.bookingId (Overlap.body c))
              (ReqUser.id (Overlap.user c))
              (Guest.ReviewBody.propertyId (Overlap.body c)) w with
      | None =>
          (Returned (Overlap.answered
                       (mkResponse 404 (J_message "Valid booking not found"))), w)
      | Some _ => (Returned Overlap.findsReview, w)
      end
  end.
Proof.
  unfold Overlap.advance, tryCatch.
  destruct (Guest.reviewErrors sv (Overlap.body c)); [| reflexivity].
  unfold mbind, M_bind, Booking_findOne_completed, gets.
  destruct (completedBooking _ _ _ w); reflexivity.
Qed.

Lemma advance_findsReview sv c w :
  Overlap.advance sv c Overlap.findsReview w =
  match reviewOf (Guest.ReviewBody.bookingId (Overlap.body c)) w with
  | Some _ =>
      (Returned (Overlap.answered
                   (mkResponse 400 (J_message "Review already exists for this booking"))),
       w)
  | None => (Returned Overlap.saves, w)
  end.
Proof.
  unfold Overlap.advance, tryCatch, mbind, M_bind, Review_findOne_booking, gets.
  destruct (reviewOf _ w); reflexivity.
Qed.

Lemma advance_saves sv c w :
  Overlap.advance sv c Overlap.saves w =
  let review := Guest.newReview (Overlap.newId c) (Overlap.user c) (Overlap.body c) in
  (Returned (Overlap.answered (mkResponse 201 (J_review review))),
   set_reviews (fun rs => rs ++ [review]) w).
Proof. reflexivity. Qed.

Lemma advance_answered sv c response w :
  Overlap.advance sv c (Overlap.answered response) w =
  (Returned (Overlap.answered response), w).
Proof. reflexivity. Qed.

(** Served with nothing in between, the three stretches are the handler. *)
Lemma alone_is_createReview sv c w :
  Overlap.alone sv c w =
  let r := Guest.createReview sv (Overlap.newId c) (Overlap.user c) (Overlap.body c) w in
  match r.1 with
  | Returned response => (Returned (Overlap.answered response), r.2)
  | Thrown e => (Thrown e, r.2)
  end.
Proof.
  cbv zeta. rewrite createReview_run. unfold Overlap.alone.
  unfold mbind at 1, M_bind at 1. rewrite advance_findsBooking.
  destruct (Guest.reviewErrors sv (Overlap.body c)); [| reflexivity].
  destruct (completedBooking _ _ _ w); [| reflexivity].
  unfold mbind at 1, M_bind at 1. rewrite advance_findsReview.
  destruct (reviewOf _ w); reflexivity.
Qed.

(** C6 (as amended). A review is created exactly when the body is valid,
    the booking named exists with status completed for the requesting
    guest and the property named, and no review refers to that booking;
    the request then stores one review, for that booking, guest and
    property, with a rating between 1 and 5, and answers 201.  In every
    other case nothing is stored and the answer is 400 or 404; in
    particular a second attempt that starts after the first has been
    answered is refused with "Review already exists for this booking".
    Hence no sequence of requests served one after another leaves two
    reviews of one booking. *)
Theorem review_once (sv : Services) (newId : ObjectId) (user : ReqUser.t)
    (body : Guest.ReviewBody.t) (w : World) :
  let r := Guest.createReview sv newId user body w in
  let review := Guest.newReview newId user body in
  (Spec.may_review sv w user body ->
   r = (Returned (mkResponse 201 (J_review review)),
        set_reviews (fun rs => rs ++ [review]) w) /\
   reviews r.2 = reviews w ++ [review] /\
   Review.booking review = Guest.ReviewBody.bookingId body /\
   Review.guest review = ReqUser.id user /\
   Review.property review = Guest.ReviewBody.propertyId body /\
   1 <= Review.rating review <= 5) /\
  (~ Spec.may_review sv w user body ->
   exists response,
     r = (Returned response, w) /\
     (statusCode response = 400 \/ statusCode response = 404)) /\
  (Spec.may_review sv w user body ->
   forall sv' newId', Guest.reviewErrors sv' body = [] ->
     Guest.createReview sv' newId' user body r.2 =
       (Returned (mkResponse 400 (J_message "Review already exists for this booking")),
        r.2)) /\
  (forall sv' newId' user' body' x,
     x ∈ reviews w -> Review.booking x = Guest.ReviewBody.bookingId body' ->
     exists response,
       Guest.createReview sv' newId' user' body' w = (Returned response, w) /\
       (statusCode response = 400 \/ statusCode response = 404)) /\
  (Spec.may_review sv w user body ->
   forall newId',
     Overlap.run sv (Overlap.mkCall newId user body) (Overlap.mkCall newId' user body)
       Overlap.oneAfterAnother w =
     (Overlap.answered (mkResponse 201 (J_review review)),
      Overlap.answered
        (mkResponse 400 (J_message "Review already exists for this booking")),
      set_reviews (fun rs => rs ++ [review]) w)) /\
  (Spec.one_review_per_booking w -> Spec.one_review_per_booking r.2) /\
  (forall trace, Spec.one_review_per_booking w ->
                 Spec.one_review_per_booking (serve trace w)).
Proof.
  cbv zeta. split; [| split; [| split; [| split; [| split; [| split]]]]].
  - intros Hm. pose proof Hm as Hrun. apply (may_review_run sv newId) in Hrun. rewrite Hrun.
    split; [reflexivity |]. split; [reflexivity |]. repeat (split; [reflexivity |]).
    destruct Hm as (He & _). now apply reviewErrors_nil in He.
  - intros Hn. destruct (createReview_cases sv newId user body w) as [Hm | H]; [tauto | exact H].
  - intros Hm sv' newId' He'. pose proof Hm as Hrun. apply (may_review_run sv newId) in Hrun. rewrite Hrun.
    simpl. rewrite createReview_run, He'.
    destruct Hm as (_ & (b & Hb) & _). apply completedBooking_Some in Hb.
    unfold completedBooking in *. simpl. rewrite Hb.
    destruct (reviewOf_Some (Guest.ReviewBody.bookingId body)
                (set_reviews (fun rs => rs ++ [Guest.newReview newId user body]) w)
                (Guest.newReview newId user body)) as (r & ->); [| reflexivity | reflexivity].
    simpl. apply elem_of_app. right. now apply list_elem_of_singleton.
  - intros sv' newId' user' body' x. apply createReview_already_reviewed.
  - intros (He & (b & Hb) & Hn) newId'.
    apply completedBooking_Some in Hb. pose proof Hn as Hn'. apply reviewOf_None in Hn'.
    set (c1 := Overlap.mkCall newId user body).
    set (c2 := Overlap.mkCall newId' user body).
    set (w1 := set_reviews (fun rs => rs ++ [Guest.newReview newId user body]) w).
    assert (A1 : forall c, Overlap.body c = body -> Overlap.user c = user ->
                   forall w', bookings w' = bookings w ->
                   Overlap.advance sv c Overlap.findsBooking w' =
                   (Returned Overlap.findsReview, w')).
    { intros c Eb Eu w' Ew. rewrite advance_findsBooking, Eb, Eu, He.
      unfold completedBooking in *. rewrite Ew. now rewrite Hb. }
    assert (A2 : Overlap.advance sv c1 Overlap.findsReview w = (Returned Overlap.saves, w)).
    { rewrite advance_findsReview. cbn [c1 Overlap.body]. now rewrite Hn'. }
    assert (B2 : Overlap.advance sv c2 Overlap.findsReview w1 =
                 (Returned (Overlap.answered
                    (mkResponse 400 (J_message "Review already exists for this booking"))),
                  w1)).
    { rewrite advance_findsReview. cbn [c2 Overlap.body].
      destruct (reviewOf_Some (Guest.ReviewBody.bookingId body) w1
                  (Guest.newReview newId user body)) as (r & ->); [| reflexivity ..].
      simpl. apply elem_of_app. right. now apply list_elem_of_singleton. }
    unfold Overlap.run, Overlap.oneAfterAnother. cbn [fold_left Overlap.step].
    rewrite (A1 c1 eq_refl eq_refl w eq_refl). cbn [fold_left Overlap.step].
    rewrite A2. cbn [fold_left Overlap.step].
    rewrite advance_saves. cbv zeta. cbn [fold_left Overlap.step].
    cbn [c1 Overlap.body Overlap.user Overlap.newId]. fold w1.
    rewrite (A1 c2 eq_refl eq_refl w1 eq_refl). cbn [fold_left Overlap.step].
    rewrite B2. cbn [fold_left Overlap.step]. rewrite advance_answered. reflexivity.
  - apply createReview_keeps_one_review.
  - intros trace. apply serve_keeps_one_review.
Qed.

Lemma review_once_witness :
  let r := Guest.createReview Sample.obliging "r1" Sample.alice Sample.praise Sample.world5 in
  reviews r.2 = [Guest.newReview "r1" Sample.alice Sample.praise] /\
  Guest.createReview Sample.obliging "r2" Sample.alice Sample.praise r.2 =
    (Returned (mkResponse 400 (J_message "Review already exists for this booking")), r.2).
Proof.
  cbv zeta.
  assert (Hm : Spec.may_review Sample.obliging Sample.world5 Sample.alice Sample.praise).
  { split; [reflexivity |]. split.
    - exists (Booking.set_status completed Sample.stay). now repeat split.
    - intros r Hr. simpl in Hr. now apply elem_of_nil in Hr. }
  destruct (review_once Sample.obliging "r1" Sample.alice Sample.praise Sample.world5)
    as (H1 & _ & H3 & _).
  split.
  - now destruct (H1 Hm) as (_ & -> & _).
  - apply (H3 Hm). reflexivity.
Defined.

(** C6, the claim as worded fails: of two requests to review the same
    completed booking that both look for an earlier review before either
    has saved its own, neither is refused with a conflict; both are
    answered 201 and two reviews refer to the one booking. *)
Lemma overlapping_reviews_both_stored :
  let c1 := Overlap.mkCall "r1" Sample.alice Sample.praise in
  let c2 := Overlap.mkCall "r2" Sample.alice Sample.praise in
  let r1 := Guest.newReview "r1" Sample.alice Sample.praise in
  let r2 := Guest.newReview "r2" Sample.alice Sample.praise in
  let end_ := Overlap.run Sample.obliging c1 c2 Overlap.overlapping Sample.world5 in
  Spec.one_review_per_booking Sample.world5 /\
  end_.1.1 = Overlap.answered (mkResponse 201 (J_review r1)) /\
  end_.1.2 = Overlap.answered (mkResponse 201 (J_review r2)) /\
  reviews end_.2 = [r1; r2] /\
  Review.booking r1 = Review.booking r2 /\
  ~ Spec.one_review_per_booking end_.2.
Proof.
  cbv zeta. split; [apply NoDup_nil_2 |]. split; [reflexivity |].
  split; [reflexivity |]. split; [reflexivity |]. split; [reflexivity |].
  unfold Spec.one_review_per_booking.
  change (~ NoDup ["b1"; "b1"]). intros H.
  apply NoDup_cons in H as [H _]. apply H. now apply list_elem_of_singleton.
Qed.

(** ** The order of the dates of a booking *)

Lemma handle_keeps_order sv r w :
  Spec.bookings_ordered w ->
  match r with
  | PostBookings _ _ body =>
      1 <= Price.nights (Guest.BookingBody.checkIn body) (Guest.BookingBody.checkOut body)
  | _ => True
  end ->
  Spec.bookings_ordered (handle sv r w).2.
Proof.
  intros Hinv Hpos.
  destruct (handle_bookings sv r w)
    as [E | [(newId & user & body & b & -> & E & Hin & Hout)
            | (id & b & b' & Hb & E & Hin & Hout)]];
    unfold Spec.bookings_ordered; rewrite E; [exact Hinv | |].
  - intros id b0. destruct (decide (newId = id)) as [<- | Hne].
    + rewrite lookup_insert_eq. intros [= <-]. rewrite Hin, Hout.
      now apply nights_positive_iff.
    + rewrite lookup_insert_ne by exact Hne. apply Hinv.
  - intros id0 b0. destruct (decide (id = id0)) as [<- | Hne].
    + rewrite lookup_insert_eq. intros [= <-]. rewrite Hin, Hout. eapply Hinv; eauto.
    + rewrite lookup_insert_ne by exact Hne. apply Hinv.
Qed.

(** C8 (as amended). No handler compares the two dates.  A stored booking
    carries the dates of the request that created it, and no later request
    changes them; so if every stored booking ends after it starts and
    every booking request of a sequence asks for at least one night
    (which is the same as [checkOut > checkIn]), every stored booking
    still ends after it starts when the sequence has been served. *)
Theorem stored_bookings_ordered (trace : list (Services * Request)) (w : World) :
  Spec.bookings_ordered w ->
  Spec.stays_positive trace ->
  Spec.bookings_ordered (serve trace w) /\
  (forall checkIn checkOut, 1 <= Price.nights checkIn checkOut <-> checkIn < checkOut).
Proof.
  intros Hinv Hpos. split; [| intros; apply nights_positive_iff].
  revert w Hinv. induction Hpos as [| [sv r] trace Hr Hpos IH]; intros w Hinv;
    [exact Hinv |].
  simpl. apply IH. now apply handle_keeps_order.
Qed.

Lemma stored_bookings_ordered_witness :
  Spec.bookings_ordered
    (serve [(Sample.obliging,
             PostBookings "b2" Sample.alice
               (Guest.BookingBody.mk "p1" (Sample.day 1) (Sample.day 3) 2 None));
            (Sample.obliging, PostBookingsConfirm Sample.alice "b2")]
       Sample.world1).
Proof.
  apply stored_bookings_ordered.
  - intros id b H. vm_compute in H. discriminate.
  - repeat constructor. vm_compute. discriminate.
Defined.

(** C8, the claim as worded fails: with a gateway that refuses every
    amount that is not positive, a request whose check-out equals its
    check-in ([nights = 0]) on a property with a negative discount is
    charged 200 and stored. *)
Lemma same_day_stay_is_stored :
  let body := Guest.BookingBody.mk "p2" (Sample.day 2) (Sample.day 2) 1 None in
  let w' := (Guest.createBooking Sample.positive_charges_only "b1" Sample.alice body
               Sample.world2).2 in
  exists b,
    bookings w' !! "b1" = Some b /\
    Booking.checkIn b = Sample.day 2 /\ Booking.checkOut b = Sample.day 2 /\
    ~ Booking.checkIn b < Booking.checkOut b /\
    ~ Spec.bookings_ordered w'.
Proof.
  cbv zeta. eexists. split; [vm_compute; reflexivity |].
  split; [reflexivity |]. split; [reflexivity |]. split; [simpl; lia |].
  intros H. specialize (H "b1" _ eq_refl). simpl in H. lia.
Qed.

Lemma authenticateHost_gate_witness :
  (Middleware.authenticateHost Sample.obliging (Some "Bearer secret.u3") Sample.world4).1 =
  Returned (Middleware.next (ReqUser.mk "u3" (User.without_password Sample.adam))).
Proof.
  destruct (authenticateHost_gate Sample.obliging (Some "Bearer secret.u3") Sample.world4)
    as (_ & _ & _ & _ & H).
  apply (H "secret.u3" "u3" Sample.adam); [reflexivity | discriminate | reflexivity ..].
Defined.

(** The gate at work: the token that [login] issues to an administrator is
    signed with [JWT_ADMIN_SECRET] and is refused; a host passes; a guest,
    a request without a token and one with a forged token are refused. *)
Example authenticateHost_samples :
  let run authorization :=
    (Middleware.authenticateHost Sample.obliging authorization Sample.world4).1 in
  Auth.generateToken Sample.obliging "u3" true = "admin-secret.u3" /\
  run (Some "Bearer admin-secret.u3") =
    Returned (Middleware.reject (mkResponse 401 (J_message "Token is not valid."))) /\
  run (Some "Bearer secret.u2") =
    Returned (Middleware.next (ReqUser.mk "u2" (User.without_password Sample.hedda))) /\
  run (Some "Bearer secret.u1") =
    Returned (Middleware.reject (mkResponse 401 (J_message "Host access required."))) /\
  run (Some "Bearer secret.u9") =
    Returned (Middleware.reject (mkResponse 401 (J_message "Host access required."))) /\
  run None =
    Returned (Middleware.reject
                (mkResponse 401 (J_message "Access denied. No token provided."))) /\
  run (Some "Bearer ") =
    Returned (Middleware.reject
                (mkResponse 401 (J_message "Access denied. No token provided."))).
Proof. cbv zeta. repeat split; vm_compute; reflexivity. Qed.

Example bearer_samples :
  Middleware.bearer (Some "Bearer abc") = Some "abc" /\
  Middleware.bearer (Some "abc") = Some "abc" /\
  Middleware.bearer (Some "Bearer Bearer abc") = Some "Bearer abc" /\
  Middleware.bearer None = None.
Proof. repeat split. Qed.

(** * Part III: further properties of the code *)

(** ** The other two gates *)

Lemma authenticate_run sv authorization w :
  Middleware.authenticate sv authorization w =
  let token := Middleware.bearer authorization in
  if Middleware.missing token then
    (Returned (Middleware.reject
       (mkResponse 401 (J_message "Access denied. No token provided."))), w)
  else
    match jwt_verify sv (default "" token) (JWT_SECRET sv) with
    | None =>
        (Returned (Middleware.reject (mkResponse 401 (J_message "Token is not valid."))), w)
    | Some decoded =>
        match users w !! decoded with
        | None =>
            (Returned (Middleware.reject
               (mkResponse 401 (J_message "Token is not valid."))), w)
        | Some u =>
            (Returned (Middleware.next (ReqUser.mk decoded (User.without_password u))), w)
        end
    end.
Proof.
  unfold Middleware.authenticate, tryCatch. cbv zeta.
  destruct (Middleware.missing _); [reflexivity |].
  unfold mbind at 1, M_bind at 1, await.
  destruct (jwt_verify _ _ _) as [decoded |]; [| reflexivity].
  unfold mret at 1, M_ret at 1, mbind, M_bind, User_findById_select, gets.
  destruct (users w !! decoded) as [u |]; reflexivity.
Qed.

Lemma authenticateAdmin_run sv authorization w :
  Middleware.authenticateAdmin sv authorization w =
  let token := Middleware.bearer authorization in
  if Middleware.missing token then
    (Returned (Middleware.reject
       (mkResponse 401 (J_message "Access denied. No token provided."))), w)
  else
    match jwt_verify sv (default "" token) (JWT_ADMIN_SECRET sv) with
    | None =>
        (Returned (Middleware.reject
           (mkResponse 401 (J_message "Admin token is not valid."))), w)
    | Some decoded =>
        match users w !! decoded with
        | None =>
            (Returned (Middleware.reject
               (mkResponse 401 (J_message "Admin access required."))), w)
        | Some u =>
            if negb (bool_decide (User.role u = admin)) then
              (Returned (Middleware.reject
                 (mkResponse 401 (J_message "Admin access required."))), w)
            else
              (Returned (Middleware.next (ReqUser.mk decoded (User.without_password u))), w)
        end
    end.
Proof.
  unfold Middleware.authenticateAdmin, tryCatch. cbv zeta.
  destruct (Middleware.missing _); [reflexivity |].
  unfold mbind at 1, M_bind at 1, await.
  destruct (jwt_verify _ _ _) as [decoded |]; [| reflexivity].
  unfold mret at 1, M_ret at 1, mbind, M_bind, User_findById_select, gets.
  destruct (users w !! decoded) as [u |]; [| reflexivity]. simpl.
  destruct (negb _); reflexivity.
Qed.

Lemma not_missing token :
  Middleware.missing token = false <-> exists t, token = Some t /\ t <> "".
Proof.
  destruct token as [t |]; simpl.
  - rewrite bool_decide_eq_false. split; [eauto | intros (t' & [= <-] & H); exact H].
  - split; [discriminate | intros (t' & [=] & _)].
Qed.

(** X1. [authenticate] lets a request through exactly when its token is
    present, verifies under [JWT_SECRET] and names a stored user, whatever
    the role of that user; the user passed on is the stored one without
    its password; every other request is answered 401; the store is never
    touched. *)
Theorem authenticate_gate (sv : Services) (authorization : option string) (w : World) :
  let r := Middleware.authenticate sv authorization w in
  r.2 = w /\
  (forall user,
     r.1 = Returned (Middleware.next user) <->
     exists t u,
       Middleware.bearer authorization = Some t /\ t <> "" /\
       jwt_verify sv t (JWT_SECRET sv) = Some (ReqUser.id user) /\
       users w !! ReqUser.id user = Some u /\
       ReqUser.doc user = User.without_password u) /\
  (forall user, r.1 = Returned (Middleware.next user) ->
                User.password (ReqUser.doc user) = None) /\
  ((exists user, r.1 = Returned (Middleware.next user)) \/
   (exists response, r.1 = Returned (Middleware.reject response) /\
                     statusCode response = 401)).
Proof.
  cbv zeta. rewrite authenticate_run. cbv zeta.
  destruct (Middleware.missing (Middleware.bearer authorization)) eqn:Hm.
  { apply missing_iff in Hm. simpl. split; [reflexivity |].
    split; [| split; [intros user [=] | right; eauto]].
    intros user. split; [intros [=] |].
    intros (t & u & Ht & Hne & _). destruct Hm as [Hm | Hm]; congruence. }
  apply not_missing in Hm as (t & Ht & Hne). rewrite Ht. simpl default.
  destruct (jwt_verify sv t (JWT_SECRET sv)) as [id |] eqn:Hv.
  2:{ simpl. split; [reflexivity |].
      split; [| split; [intros user [=] | right; eauto]].
      intros user. split; [intros [=] |].
      intros (t' & u & [= <-] & _ & Hv' & _). congruence. }
  destruct (users w !! id) as [u |] eqn:Hu.
  2:{ simpl. split; [reflexivity |].
      split; [| split; [intros user [=] | right; eauto]].
      intros user. split; [intros [=] |].
      intros (t' & u & [= <-] & _ & Hv' & Hu' & _). congruence. }
  simpl. split; [reflexivity |]. split; [| split; [intros user [= <-]; reflexivity | left; eauto]].
  intros [id' doc']. simpl. split.
  - intros [= <- <-]. exists t, u. auto.
  - intros (t' & u' & [= <-] & _ & Hv' & Hu' & ->).
    assert (id' = id) by congruence. subst id'.
    assert (u' = u) by congruence. now subst u'.
Qed.

(** X2. [authenticateAdmin] lets a request through exactly when its token
    is present, verifies under [JWT_ADMIN_SECRET] and names a stored user
    of role admin; what the token is worth under [JWT_SECRET] plays no
    part; every other request is answered 401. *)
Theorem authenticateAdmin_gate (sv : Services) (authorization : option string) (w : World) :
  let r := Middleware.authenticateAdmin sv authorization w in
  r.2 = w /\
  (forall user,
     r.1 = Returned (Middleware.next user) <->
     exists t u,
       Middleware.bearer authorization = Some t /\ t <> "" /\
       jwt_verify sv t (JWT_ADMIN_SECRET sv) = Some (ReqUser.id user) /\
       users w !! ReqUser.id user = Some u /\ User.role u = admin /\
       ReqUser.doc user = User.without_password u) /\
  ((exists user, r.1 = Returned (Middleware.next user)) \/
   (exists response, r.1 = Returned (Middleware.reject response) /\
                     statusCode response = 401)).
Proof.
  cbv zeta. rewrite authenticateAdmin_run. cbv zeta.
  destruct (Middleware.missing (Middleware.bearer authorization)) eqn:Hm.
  { apply missing_iff in Hm. simpl. split; [reflexivity |]. split; [| right; eauto].
    intros user. split; [intros [=] |].
    intros (t & u & Ht & Hne & _). destruct Hm as [Hm | Hm]; congruence. }
  apply not_missing in Hm as (t & Ht & Hne). rewrite Ht. simpl default.
  destruct (jwt_verify sv t (JWT_ADMIN_SECRET sv)) as [id |] eqn:Hv.
  2:{ simpl. split; [reflexivity |]. split; [| right; eauto].
      intros user. split; [intros [=] |].
      intros (t' & u & [= <-] & _ & Hv' & _). congruence. }
  destruct (users w !! id) as [u |] eqn:Hu.
  2:{ simpl. split; [reflexivity |]. split; [| right; eauto].
      intros user. split; [intros [=] |].
      intros (t' & u & [= <-] & _ & Hv' & Hu' & _). congruence. }
  destruct (bool_decide_reflect (User.role u = admin)) as [Hr | Hr]; simpl.
  - split; [reflexivity |]. split; [| left; eauto].
    intros [id' doc']. simpl. split.
    + intros [= <- <-]. exists t, u. repeat split; auto.
    + intros (t' & u' & [= <-] & _ & Hv' & Hu' & _ & ->).
      assert (id' = id) by congruence. subst id'.
      assert (u' = u) by congruence. now subst u'.
  - split; [reflexivity |]. split; [| right; eauto].
    intros user. split; [intros [=] |].
    intros (t' & u' & [= <-] & _ & Hv' & Hu' & Hr' & _).
    assert (ReqUser.id user = id) by congruence. congruence.
Qed.

(** X3. Whatever passes the host gate passes the plain user gate with the
    same user, and that user is a host or an administrator. *)
Theorem host_gate_within_user_gate (sv : Services) (authorization : option string)
    (w : World) (user : ReqUser.t) :
  (Middleware.authenticateHost sv authorization w).1 = Returned (Middleware.next user) ->
  (Middleware.authenticate sv authorization w).1 = Returned (Middleware.next user) /\
  (User.role (ReqUser.doc user) = host \/ User.role (ReqUser.doc user) = admin).
Proof.
  rewrite authenticateHost_run, authenticate_run. cbv zeta.
  destruct (Middleware.missing _); [intros [=] |].
  destruct (jwt_verify _ _ _) as [id |]; [| intros [=]].
  destruct (users w !! id) as [u |]; [| intros [=]].
  destruct (bool_decide_reflect (User.role u = host)) as [Hh | Hh];
    destruct (bool_decide_reflect (User.role u = admin)) as [Ha | Ha]; simpl;
    intros [= <-]; simpl; auto.
Qed.

Lemma host_gate_within_user_gate_witness :
  (Middleware.authenticate Sample.obliging (Some "Bearer secret.u2") Sample.world4).1 =
  Returned (Middleware.next (ReqUser.mk "u2" (User.without_password Sample.hedda))).
Proof.
  apply (host_gate_within_user_gate Sample.obliging (Some "Bearer secret.u2") Sample.world4).
  vm_compute. reflexivity.
Defined.

(** ** Bearer tokens and the tokens that login issues *)

Lemma string_app_cons a s t : String a s +:+ t = String a (s +:+ t).
Proof. reflexivity. Qed.

Lemma string_app_nil t : "" +:+ t = t.
Proof. reflexivity. Qed.

Lemma substring_all (s : string) : String.substring 0 (String.length s) s = s.
Proof. induction s as [| a s IH]; simpl; [reflexivity | now rewrite IH]. Qed.

Lemma bearer_strips_prefix (t : string) :
  Middleware.bearer (Some ("Bearer " +:+ t)) = Some t.
Proof.
  assert (P : String.prefix "" t = true) by (destruct t; reflexivity).
  unfold Middleware.bearer, JS.replace.
  rewrite !string_app_cons, string_app_nil. simpl. rewrite P. simpl.
  rewrite Nat.sub_0_r. now rewrite substring_all.
Qed.

(** X4. Taking the token out of a header ["Bearer " ++ t] gives back [t],
    whatever [t] is, even when [t] itself contains ["Bearer "]. *)
Theorem bearer_of_header (t : string) :
  Middleware.bearer (Some ("Bearer " +:+ t)) = Some t.
Proof. exact (bearer_strips_prefix t). Qed.

Lemma userByEmail_Some email w id u :
  userByEmail email w = Some (id, u) -> users w !! id = Some u /\ User.email u = email.
Proof.
  unfold userByEmail. intros H. apply List.find_some in H as [Hin He].
  apply list_elem_of_In, elem_of_map_to_list in Hin.
  apply bool_decide_eq_true in He. now split.
Qed.

Lemma login_run sv correctPassword email password w :
  Account.login sv correctPassword email password w =
  match Account.loginErrors sv email password with
  | (_ :: _) as errors => (Returned (A_errors 400 errors), w)
  | [] =>
      match userByEmail email w with
      | None => (Returned (A_message 401 "Invalid credentials"), w)
      | Some (id, user) =>
          if negb (correctPassword password (User.password user)) then
            (Returned (A_message 401 "Invalid credentials"), w)
          else
            (Returned (A_json 200
               (Account.LoginBody.mk
                  (Auth.generateToken sv id (bool_decide (User.role user = admin)))
                  id (User.email user) (User.firstName user) (User.phone user)
                  (User.role user))), w)
      end
  end.
Proof.
  unfold Account.login, tryCatch.
  destruct (Account.loginErrors sv email password); [| reflexivity].
  unfold mbind, M_bind, User_findOne_email, gets.
  destruct (userByEmail email w) as [[id user] |]; [| reflexivity].
  destruct (negb _); reflexivity.
Qed.

Lemma login_success sv correctPassword email password w body :
  (Account.login sv correctPassword email password w).1 = Returned (A_json 200 body) ->
  exists u,
    users w !! Account.LoginBody.id body = Some u /\
    User.email u = email /\
    correctPassword password (User.password u) = true /\
    Account.LoginBody.role body = User.role u /\
    Account.LoginBody.token body =
      jwt_sign sv (Account.LoginBody.id body)
        (if bool_decide (User.role u = admin)
         then JWT_ADMIN_SECRET sv else JWT_SECRET sv).
Proof.
  rewrite login_run.
  destruct (Account.loginErrors sv email password); [| intros [=]].
  destruct (userByEmail email w) as [[id user] |] eqn:Hf; [| intros [=]].
  destruct (correctPassword password (User.password user)) eqn:Hc; simpl; [| intros [=]].
  intros [= <-]. simpl. apply userByEmail_Some in Hf as [Hu He].
  exists user. repeat split; auto.
Qed.

(** X5. Login never changes the store, answers an unknown address and a
    wrong password alike with 401 "Invalid credentials", and on success
    returns the token [generateToken] makes for the user found: signed
    with [JWT_ADMIN_SECRET] for an administrator, with [JWT_SECRET] for
    everybody else. *)
Theorem login_outcomes (sv : Services) (correctPassword : string -> option string -> bool)
    (email password : string) (w : World) :
  let r := Account.login sv correctPassword email password w in
  r.2 = w /\
  (Account.loginErrors sv email password = [] ->
   (forall id u, users w !! id = Some u -> User.email u <> email) ->
   r.1 = Returned (A_message 401 "Invalid credentials")) /\
  (forall id u,
     Account.loginErrors sv email password = [] ->
     userByEmail email w = Some (id, u) ->
     correctPassword password (User.password u) = false ->
     r.1 = Returned (A_message 401 "Invalid credentials")) /\
  (forall body,
     r.1 = Returned (A_json 200 body) ->
     exists u,
       users w !! Account.LoginBody.id body = Some u /\
       User.email u = email /\
       correctPassword password (User.password u) = true /\
       Account.LoginBody.role body = User.role u /\
       Account.LoginBody.token body =
         jwt_sign sv (Account.LoginBody.id body)
           (if bool_decide (User.role u = admin)
            then JWT_ADMIN_SECRET sv else JWT_SECRET sv)).
Proof.
  cbv zeta. rewrite login_run. split; [| split; [| split]].
  - destruct (Account.loginErrors sv email password); [| reflexivity].
    destruct (userByEmail email w) as [[id user] |]; [| reflexivity].
    destruct (negb _); reflexivity.
  - intros -> Hnone. destruct (userByEmail email w) as [[id user] |] eqn:Hf; [| reflexivity].
    apply userByEmail_Some in Hf as [Hu He]. exfalso. eapply Hnone; eauto.
  - intros id u -> -> Hc. now rewrite Hc.
  - intros body. rewrite <- login_run. apply login_success.
Qed.

(** X6. The token that login returns opens the gate that matches the key
    it was signed with, provided the JWT library accepts under a key the
    tokens signed with that key: the plain gate (and the host gate, for a
    host) for a user who is not an administrator, the admin gate for an
    administrator.  An administrator's login token is refused by the host
    gate whenever the library rejects it under [JWT_SECRET]. *)
Theorem login_token_gates (sv : Services)
    (correctPassword : string -> option string -> bool)
    (email password : string) (w : World) (body : Account.LoginBody.t) :
  (Account.login sv correctPassword email password w).1 = Returned (A_json 200 body) ->
  (forall id secret, jwt_verify sv (jwt_sign sv id secret) secret = Some id) ->
  Account.LoginBody.token body <> "" ->
  let header := Some ("Bearer " +:+ Account.LoginBody.token body) in
  exists u,
    users w !! Account.LoginBody.id body = Some u /\
    let user := ReqUser.mk (Account.LoginBody.id body) (User.without_password u) in
    (User.role u <> admin ->
     (Middleware.authenticate sv header w).1 = Returned (Middleware.next user)) /\
    (User.role u = host ->
     (Middleware.authenticateHost sv header w).1 = Returned (Middleware.next user)) /\
    (User.role u = admin ->
     (Middleware.authenticateAdmin sv header w).1 = Returned (Middleware.next user)) /\
    (User.role u = admin ->
     jwt_verify sv (Account.LoginBody.token body) (JWT_SECRET sv) = None ->
     (Middleware.authenticateHost sv header w).1 =
       Returned (Middleware.reject (mkResponse 401 (J_message "Token is not valid.")))).
Proof.
  intros Hlogin Hjwt Hne header.
  destruct (login_success _ _ _ _ _ _ Hlogin) as (u & Hu & _ & _ & _ & Htok).
  exists u. split; [exact Hu |]. cbv zeta. unfold header.
  assert (Hmiss : Middleware.missing (Some (Account.LoginBody.token body)) = false).
  { simpl. now apply bool_decide_eq_false. }
  split; [| split; [| split]].
  - intros Hr. rewrite authenticate_run, bearer_strips_prefix. cbv zeta. rewrite Hmiss.
    simpl default. rewrite Htok. rewrite bool_decide_eq_false_2 by exact Hr.
    now rewrite Hjwt, Hu.
  - intros Hr. rewrite authenticateHost_run, bearer_strips_prefix. cbv zeta. rewrite Hmiss.
    simpl default. rewrite Htok. rewrite bool_decide_eq_false_2 by (rewrite Hr; discriminate).
    rewrite Hjwt, Hu, Hr. reflexivity.
  - intros Hr. rewrite authenticateAdmin_run, bearer_strips_prefix. cbv zeta. rewrite Hmiss.
    simpl default. rewrite Htok. rewrite bool_decide_eq_true_2 by exact Hr.
    rewrite Hjwt, Hu. now rewrite bool_decide_eq_true_2 by exact Hr.
  - intros Hr Hrej. rewrite authenticateHost_run, bearer_strips_prefix. cbv zeta. rewrite Hmiss.
    simpl default. now rewrite Hrej.
Qed.

Lemma string_prefix_app (s t : string) : String.prefix s (s +:+ t) = true.
Proof.
  induction s as [| a s IH].
  - rewrite string_app_nil. now destruct t.
  - rewrite string_app_cons. simpl. now destruct (Ascii.ascii_dec a a).
Qed.

Lemma string_length_app (s t : string) :
  String.length (s +:+ t) = (String.length s + String.length t)%nat.
Proof.
  induction s as [| a s IH]; [reflexivity |].
  rewrite string_app_cons. simpl. now rewrite IH.
Qed.

Lemma string_substring_skip (s t : string) (n : nat) :
  String.substring (String.length s) n (s +:+ t) = String.substring 0 n t.
Proof.
  induction s as [| a s IH]; [reflexivity |].
  rewrite string_app_cons. simpl. exact IH.
Qed.

Lemma string_app_assoc (s t u : string) : (s +:+ t) +:+ u = s +:+ (t +:+ u).
Proof.
  induction s as [| a s IH]; [reflexivity |].
  rewrite !string_app_cons. now rewrite IH.
Qed.

(** The sample JWT library accepts under a key what it signed with it. *)
Lemma obliging_jwt_round_trip id secret :
  jwt_verify Sample.obliging (jwt_sign Sample.obliging id secret) secret = Some id.
Proof.
  change (jwt_verify Sample.obliging (jwt_sign Sample.obliging id secret) secret)
    with (if String.prefix (secret +:+ ".") (secret +:+ "." +:+ id)
          then Some (String.substring (String.length secret + 1)
                       (String.length (secret +:+ "." +:+ id) - (String.length secret + 1))
                       (secret +:+ "." +:+ id))
          else None).
  rewrite <- string_app_assoc.
  assert (L : (String.length secret + 1)%nat = String.length (secret +:+ "."))
    by now rewrite string_length_app.
  rewrite L, string_prefix_app, string_substring_skip, string_length_app.
  replace (String.length (secret +:+ ".") + String.length id -
           String.length (secret +:+ "."))%nat with (String.length id) by lia.
  now rewrite substring_all.
Qed.

Lemma login_token_gates_witness :
  (Middleware.authenticateHost Sample.obliging (Some "Bearer secret.u2") Sample.world4).1 =
  Returned (Middleware.next (ReqUser.mk "u2" (User.without_password Sample.hedda))) /\
  (Middleware.authenticateAdmin Sample.obliging (Some "Bearer admin-secret.u3")
     Sample.world4).1 =
  Returned (Middleware.next (ReqUser.mk "u3" (User.without_password Sample.adam))) /\
  (Middleware.authenticateHost Sample.obliging (Some "Bearer admin-secret.u3")
     Sample.world4).1 =
  Returned (Middleware.reject (mkResponse 401 (J_message "Token is not valid."))).
Proof.
  split; [| split].
  - destruct (login_token_gates Sample.obliging (fun _ _ => true) "hedda@example.org" "pw"
                Sample.world4
                (Account.LoginBody.mk "secret.u2" "u2" "hedda@example.org" "Hedda"
                   "+15550101" host))
      as (u & Hu & _ & H & _);
      [vm_compute; reflexivity | apply obliging_jwt_round_trip | discriminate |].
    vm_compute in Hu. injection Hu as <-. now apply H.
  - destruct (login_token_gates Sample.obliging (fun _ _ => true) "adam@example.org" "pw"
                Sample.world4
                (Account.LoginBody.mk "admin-secret.u3" "u3" "adam@example.org" "Adam"
                   "+15550102" admin))
      as (u & Hu & _ & _ & H & _);
      [vm_compute; reflexivity | apply obliging_jwt_round_trip | discriminate |].
    vm_compute in Hu. injection Hu as <-. now apply H.
  - destruct (login_token_gates Sample.obliging (fun _ _ => true) "adam@example.org" "pw"
                Sample.world4
                (Account.LoginBody.mk "admin-secret.u3" "u3" "adam@example.org" "Adam"
                   "+15550102" admin))
      as (u & Hu & _ & _ & _ & H);
      [vm_compute; reflexivity | apply obliging_jwt_round_trip | discriminate |].
    vm_compute in Hu. injection Hu as <-. now apply H.
Defined.

(** ** More on nights and discounts *)

(** X7. A stay of [k] whole days and [r] further milliseconds, [r] less
    than a day, counts [k] nights when [r = 0] and [k + 1] nights
    otherwise: every started day is charged, and [k] may be negative. *)
Theorem nights_started_days (checkIn : Date) (k r : Z) :
  0 <= r < Price.msPerDay ->
  Price.nights checkIn (checkIn + k * Price.msPerDay + r) = if r =? 0 then k else k + 1.
Proof.
  intros Hr.
  pose proof (nights_upper checkIn (checkIn + k * Price.msPerDay + r)) as U.
  pose proof (nights_lower checkIn (checkIn + k * Price.msPerDay + r)) as L.
  unfold Price.msPerDay in *.
  destruct (Z.eqb_spec r 0) as [-> | Hne]; nia.
Qed.

Lemma nights_started_days_witness :
  Price.nights (Sample.day 3) (Sample.day 3 + 2 * Price.msPerDay + 1) = 3.
Proof.
  apply (nights_started_days (Sample.day 3) 2 1). unfold Price.msPerDay. lia.
Defined.

(** X8. The number of nights grows with the check-out and shrinks with
    the check-in. *)
Theorem nights_monotone (checkIn checkIn' checkOut checkOut' : Date) :
  checkIn' <= checkIn -> checkOut <= checkOut' ->
  Price.nights checkIn checkOut <= Price.nights checkIn' checkOut'.
Proof.
  intros Hi Ho. apply nights_least.
  pose proof (nights_upper checkIn' checkOut'). lia.
Qed.

Lemma nights_monotone_witness :
  Price.nights (Sample.day 2) (Sample.day 3) <= Price.nights (Sample.day 1) (Sample.day 5).
Proof.
  apply nights_monotone; unfold Sample.day, Price.msPerDay; lia.
Defined.

Lemma filter_bool_Permutation {A} (f : A -> bool) (l l' : list A) :
  l ≡ₚ l' -> List.filter f l ≡ₚ List.filter f l'.
Proof.
  induction 1 as [| x l l' _ IH | x y l | l l' l'' _ IH1 _ IH2]; simpl.
  - reflexivity.
  - destruct (f x); [now constructor | exact IH].
  - destruct (f x), (f y); try reflexivity. apply perm_swap.
  - now transitivity (List.filter f l').
Qed.

Lemma first_maximum_bounds total l best d :
  Spec.first_maximum total l best -> d ∈ l ->
  (Price.amountOf total d <= Price.amountOf total best)%Q.
Proof.
  intros (i & _ & Hmax & _) Hd. apply list_elem_of_lookup_1 in Hd as [j Hj]. eauto.
Qed.

(** X9. The amounts do not depend on the order of the discount list: two
    lists that are permutations of one another give equal
    [discountAmount] and equal [totalAmount] (the order only decides which
    of several equally good discounts is the one recorded as best). *)
Theorem quote_order_independent (pricePerNight : Q) (discounts discounts' : list Discount)
    (checkIn checkOut : Date) :
  discounts ≡ₚ discounts' ->
  let q := Price.quote pricePerNight discounts checkIn checkOut in
  let q' := Price.quote pricePerNight discounts' checkIn checkOut in
  Price.applicableDiscounts q ≡ₚ Price.applicableDiscounts q' /\
  (Price.discountAmount q == Price.discountAmount q')%Q /\
  (Price.totalAmount q == Price.totalAmount q')%Q.
Proof.
  intros Hp q q'.
  assert (Hap : Price.applicableDiscounts q ≡ₚ Price.applicableDiscounts q').
  { unfold q, q'. rewrite !quote_applicable. now apply filter_bool_Permutation. }
  assert (Hraw : Price.rawTotal q = Price.rawTotal q').
  { unfold q, q'. now rewrite !quote_rawTotal. }
  assert (Hda : (Price.discountAmount q == Price.discountAmount q')%Q).
  { pose proof (quote_best pricePerNight discounts checkIn checkOut) as B.
    pose proof (quote_best pricePerNight discounts' checkIn checkOut) as B'.
    cbv zeta in B, B'. fold q in B. fold q' in B'.
    destruct (Price.applicableDiscounts q) as [| d ds] eqn:E.
    - destruct (Price.applicableDiscounts q') as [| d' ds'] eqn:E'.
      + destruct B as [_ ->], B' as [_ ->]. reflexivity.
      + now apply Permutation_nil_cons in Hap.
    - destruct (Price.applicableDiscounts q') as [| d' ds'] eqn:E'.
      { symmetry in Hap. now apply Permutation_nil_cons in Hap. }
      destruct B as (b & _ & -> & Hb), B' as (b' & _ & -> & Hb').
      rewrite <- Hraw in *. apply Qle_antisym.
      + eapply first_maximum_bounds; [exact Hb' |].
        rewrite <- Hap. eapply first_maximum_elem; eauto.
      + eapply first_maximum_bounds; [exact Hb |].
        rewrite Hap. eapply first_maximum_elem; eauto. }
  split; [exact Hap |]. split; [exact Hda |].
  pose proof (quote_total pricePerNight discounts checkIn checkOut) as T.
  pose proof (quote_total pricePerNight discounts' checkIn checkOut) as T'.
  cbv zeta in T, T'. fold q in T. fold q' in T'. rewrite T, T', Hraw, Hda. reflexivity.
Qed.

Lemma quote_order_independent_witness :
  let d1 := mkDiscount fixed 80 None (Sample.day 0) (Sample.day 30) in
  let d2 := mkDiscount percentage 10 None (Sample.day 0) (Sample.day 30) in
  (Price.totalAmount (Price.quote 100 [d1; d2] (Sample.day 1) (Sample.day 5)) ==
   Price.totalAmount (Price.quote 100 [d2; d1] (Sample.day 1) (Sample.day 5)))%Q.
Proof.
  cbv zeta.
  apply (quote_order_independent 100
           [mkDiscount fixed 80 None (Sample.day 0) (Sample.day 30);
            mkDiscount percentage 10 None (Sample.day 0) (Sample.day 30)]
           [mkDiscount percentage 10 None (Sample.day 0) (Sample.day 30);
            mkDiscount fixed 80 None (Sample.day 0) (Sample.day 30)]).
  apply perm_swap.
Defined.

(** ** More on booking and paying *)

(** X11. Creating a booking never touches users, hosts, properties or
    reviews.  Either the answer is not 200 and the bookings are as before,
    or the answer is 200 and exactly the new booking is stored under the
    new id: pending, unpaid, for the requesting guest and the requested
    property and dates, carrying the id of the payment intent and the
    total and the discount of the price computed for the stay. *)
Theorem createBooking_effect (sv : Services) (newId : ObjectId) (user : ReqUser.t)
    (body : Guest.BookingBody.t) (w : World) :
  let r := Guest.createBooking sv newId user body w in
  (users r.2 = users w /\ hosts r.2 = hosts w /\ properties r.2 = properties w /\
   reviews r.2 = reviews w) /\
  ((exists response,
      r.1 = Returned response /\ statusCode response <> 200 /\
      bookings r.2 = bookings w) \/
   (exists property paymentIntent booking,
      properties w !! Guest.BookingBody.propertyId body = Some property /\
      r = (Returned (mkResponse 200
                       (J_created newId booking (PaymentIntent.client_secret paymentIntent))),
           set_bookings <[newId := booking]> w) /\
      Booking.status booking = pending /\
      Booking.paymentStatus booking = payment_pending /\
      Booking.guest booking = ReqUser.id user /\
      Booking.property booking = Guest.BookingBody.propertyId body /\
      Booking.checkIn booking = Guest.BookingBody.checkIn body /\
      Booking.checkOut booking = Guest.BookingBody.checkOut body /\
      Booking.guestsCount booking = Guest.BookingBody.guestsCount body /\
      1 <= Booking.guestsCount booking /\
      Booking.paymentIntentId booking = PaymentIntent.id paymentIntent /\
      Booking.transactionId booking = None /\
      Booking.totalAmount booking =
        Price.totalAmount (Guest.quoteFor property body) /\
      Booking.discountAmount booking =
        Price.discountAmount (Guest.quoteFor property body))).
Proof.
  cbv zeta. rewrite createBooking_run.
  destruct (Guest.bookingErrors sv body) as [| e es] eqn:He.
  2:{ split; [now repeat split |]. left. eexists. split; [reflexivity |]. now split. }
  destruct (properties w !! _) as [property |] eqn:Hp.
  2:{ split; [now repeat split |]. left. eexists. split; [reflexivity |]. now split. }
  cbv zeta. destruct (stripe_paymentIntents_create _ _ _ _) as [paymentIntent |].
  2:{ split; [now repeat split |]. left. eexists. split; [reflexivity |]. now split. }
  split; [now repeat split |]. right.
  exists property, paymentIntent. eexists. split; [reflexivity |]. split; [reflexivity |].
  simpl. repeat (split; [reflexivity |]). split.
  - unfold Guest.bookingErrors in He.
    destruct (isMongoId sv _); [| discriminate].
    destruct (Z.leb_spec 1 (Guest.BookingBody.guestsCount body)); [lia | discriminate].
  - repeat (split; [reflexivity |]). reflexivity.
Qed.

(** ** More on confirming *)

(** X12. A confirmation request changes a booking or a property only for
    the guest who made the booking and only when the gateway reports the
    payment intent of that booking as succeeded; in particular the
    request of another user, or a payment that has not succeeded, leaves
    every document as it was. *)
Theorem confirmBooking_only_owner_and_paid (sv : Services) (user : ReqUser.t)
    (id : ObjectId) (w : World) :
  let r := Guest.confirmBooking sv user id w in
  (bookings r.2 <> bookings w \/ properties r.2 <> properties w ->
   exists booking paymentIntent,
     bookings w !! id = Some booking /\
     Booking.guest booking = ReqUser.id user /\
     stripe_paymentIntents_retrieve sv (Booking.paymentIntentId booking) =
       Some paymentIntent /\
     PaymentIntent.status paymentIntent = "succeeded") /\
  (forall booking,
     bookings w !! id = Some booking -> Booking.guest booking <> ReqUser.id user ->
     r = (Returned (mkResponse 404 (J_message "Booking not found")), w)) /\
  (forall booking paymentIntent,
     bookings w !! id = Some booking -> Booking.guest booking = ReqUser.id user ->
     stripe_paymentIntents_retrieve sv (Booking.paymentIntentId booking) =
       Some paymentIntent ->
     PaymentIntent.status paymentIntent <> "succeeded" ->
     r = (Returned (mkResponse 400 (J_message "Payment failed")), w)) /\
  users r.2 = users w /\ hosts r.2 = hosts w /\ reviews r.2 = reviews w.
Proof.
  cbv zeta. rewrite confirmBooking_run. split; [| split; [| split]].
  - destruct (bookings w !! id) as [booking |] eqn:Hb; [| simpl; intros [? | ?]; congruence].
    destruct (bool_decide_reflect (Booking.guest booking = ReqUser.id user)) as [Hg | Hg];
      simpl negb; cbv iota; [| simpl; intros [? | ?]; congruence].
    destruct (stripe_paymentIntents_retrieve _ _) as [paymentIntent |] eqn:Hpi;
      [| simpl; intros [? | ?]; congruence].
    destruct (bool_decide_reflect (PaymentIntent.status paymentIntent = "succeeded"))
      as [Hs | Hs]; [| simpl; intros [? | ?]; congruence].
    intros _. exists booking, paymentIntent. auto.
  - intros booking -> Hg. now rewrite (bool_decide_eq_false_2 _ Hg).
  - intros booking paymentIntent -> Hg -> Hs.
    now rewrite (bool_decide_eq_true_2 _ Hg), (bool_decide_eq_false_2 _ Hs).
  - destruct (bookings w !! id) as [booking |]; [| now repeat split].
    destruct (negb _); [now repeat split |].
    destruct (stripe_paymentIntents_retrieve _ _); [| now repeat split].
    destruct (bool_decide _); [| now repeat split]. cbv zeta.
    destruct (properties w !! _); [| now repeat split]. simpl.
    destruct (twilio_messages_create _ _ _); now repeat split.
Qed.

(** X13. Confirmation is not idempotent: when a booking that has been
    confirmed is confirmed again, and the gateway still reports the
    payment as succeeded, the request succeeds again and the property
    ends with the same unavailable window twice. *)
Theorem confirmBooking_twice (sv sv' : Services) (user : ReqUser.t) (id : ObjectId)
    (w : World) (booking : Booking.t) (property : Property.t)
    (paymentIntent paymentIntent' : PaymentIntent.t) :
  bookings w !! id = Some booking ->
  Booking.guest booking = ReqUser.id user ->
  properties w !! Booking.property booking = Some property ->
  stripe_paymentIntents_retrieve sv (Booking.paymentIntentId booking) = Some paymentIntent ->
  PaymentIntent.status paymentIntent = "succeeded" ->
  stripe_paymentIntents_retrieve sv' (Booking.paymentIntentId booking) = Some paymentIntent' ->
  PaymentIntent.status paymentIntent' = "succeeded" ->
  let w1 := (Guest.confirmBooking sv user id w).2 in
  let r2 := Guest.confirmBooking sv' user id w1 in
  exists booking2 property2,
    r2.1 = Returned (mkResponse 200 (J_confirmed "Booking confirmed successfully" booking2)) /\
    properties r2.2 !! Booking.property booking = Some property2 /\
    Property.availability property2 =
      Property.availability property ++
      [Guest.bookedWindow booking; Guest.bookedWindow booking].
Proof.
  intros Hb Hg Hp Hpi Hs Hpi' Hs' w1 r2.
  assert (H1 : bookings w1 !! id = Some (Guest.markPaid paymentIntent booking) /\
               properties w1 !! Booking.property booking =
                 Some (Property.push_availability (Guest.bookedWindow booking) property)).
  { unfold w1. rewrite confirmBooking_run, Hb, Hpi, Hp.
    rewrite (bool_decide_eq_true_2 _ Hg), (bool_decide_eq_true_2 _ Hs).
    simpl negb. cbv iota zeta.
    destruct (twilio_messages_create _ _ _); simpl;
      now rewrite lookup_insert_eq, lookup_alter_eq, Hp. }
  destruct H1 as [Hb1 Hp1]. unfold r2. rewrite confirmBooking_run, Hb1.
  change (Booking.guest (Guest.markPaid paymentIntent booking)) with (Booking.guest booking).
  change (Booking.paymentIntentId (Guest.markPaid paymentIntent booking))
    with (Booking.paymentIntentId booking).
  change (Booking.property (Guest.markPaid paymentIntent booking))
    with (Booking.property booking).
  rewrite Hpi', Hp1.
  rewrite (bool_decide_eq_true_2 _ Hg), (bool_decide_eq_true_2 _ Hs').
  simpl negb. cbv iota zeta.
  eexists. eexists. split; [reflexivity |]. split.
  - destruct (twilio_messages_create _ _ _); simpl; now rewrite lookup_alter_eq, Hp1.
  - simpl. now rewrite <- app_assoc.
Qed.

Lemma confirmBooking_twice_witness :
  let w1 := (Guest.confirmBooking Sample.obliging Sample.alice "b1" Sample.world3).2 in
  let w2 := (Guest.confirmBooking Sample.obliging Sample.alice "b1" w1).2 in
  exists property2,
    properties w2 !! "p1" = Some property2 /\
    Property.availability property2 =
      [mkAvailability (Sample.day 1) (Sample.day 5) false;
       mkAvailability (Sample.day 1) (Sample.day 5) false].
Proof.
  cbv zeta.
  destruct (confirmBooking_twice Sample.obliging Sample.obliging Sample.alice "b1"
              Sample.world3 Sample.stay Sample.cottage
              (PaymentIntent.mk "pi_1" "cs_1" "succeeded")
              (PaymentIntent.mk "pi_1" "cs_1" "succeeded")
              eq_refl eq_refl eq_refl eq_refl eq_refl eq_refl eq_refl)
    as (booking2 & property2 & _ & H2 & H3).
  exists property2. split; [exact H2 | exact H3].
Defined.

(** ** The host's routes *)

Lemma bookingOfHost_iff id hostId w b :
  HostRoutes.bookingOfHost id hostId w = Some b <->
  bookings w !! id = Some b /\
  exists p, properties w !! Booking.property b = Some p /\ Property.host p = hostId.
Proof.
  unfold HostRoutes.bookingOfHost.
  destruct (bookings w !! id) as [b' |]; [| split; [discriminate | intros [[=] _]]].
  destruct (properties w !! Booking.property b') as [p |] eqn:Hp.
  - destruct (bool_decide_reflect (Property.host p = hostId)) as [Hh | Hh].
    + split; [intros [= <-]; eauto | now intros [[= <-] _]].
    + split; [discriminate |]. intros [[= <-] (p' & Hp' & Hh')]. congruence.
  - split; [discriminate |]. intros [[= <-] (p' & Hp' & _)]. congruence.
Qed.

(** X14. A host changes the status of a booking exactly when the new
    status is confirmed, cancelled or completed, the user has a host
    profile, and the booking is on a property of that host; the booking
    is then stored with the new status and nothing else changed, whatever
    its status was before (no order of statuses is enforced).  In every
    other case the bookings are as before; a booking on another host's
    property is answered 404. *)
Theorem updateBookingStatus_effect (user : ReqUser.t) (id : ObjectId)
    (status : BookingStatus) (w : World) :
  let r := HostRoutes.updateBookingStatus user id status w in
  (forall booking',
     r.1 = Returned (mkResponse 200 (J_booking booking')) <->
     status <> pending /\
     exists h booking property,
       hostOf (ReqUser.id user) w = Some h /\
       bookings w !! id = Some booking /\
       properties w !! Booking.property booking = Some property /\
       Property.host property = Host._id h /\
       booking' = Booking.set_status status booking) /\
  (forall booking',
     r.1 = Returned (mkResponse 200 (J_booking booking')) ->
     bookings r.2 = <[id := booking']> (bookings w) /\
     Booking.status booking' = status) /\
  ((forall booking', r.1 <> Returned (mkResponse 200 (J_booking booking'))) ->
   bookings r.2 = bookings w) /\
  (forall h booking property,
     status <> pending ->
     hostOf (ReqUser.id user) w = Some h ->
     bookings w !! id = Some booking ->
     properties w !! Booking.property booking = Some property ->
     Property.host property <> Host._id h ->
     r = (Returned (mkResponse 404 (J_message "Booking not found")), w)) /\
  users r.2 = users w /\ hosts r.2 = hosts w /\ properties r.2 = properties w /\
  reviews r.2 = reviews w.
Proof.
  cbv zeta. rewrite updateBookingStatus_run.
  assert (Hv : bool_decide (status ∈ [confirmed; cancelled; completed]) = true <->
               status <> pending).
  { destruct status;
      (split; [intros H; vm_compute in H; try discriminate; congruence
              | intros H; try congruence; vm_compute; reflexivity]). }
  destruct (bool_decide (status ∈ [confirmed; cancelled; completed])) eqn:Hok; simpl negb;
    cbv iota.
  2:{ assert (Hp : status = pending).
      { destruct (decide (status = pending)) as [E | N]; [exact E |].
        apply Hv in N. discriminate. }
      split; [intros booking'; split; [intros [=] | intros [N _]; congruence] |].
      split; [intros booking' [=] |]. split; [reflexivity |].
      split; [intros h booking property N; congruence | now repeat split]. }
  assert (Hnp : status <> pending) by now apply Hv.
  destruct (hostOf (ReqUser.id user) w) as [h |] eqn:Hh.
  2:{ split; [intros booking'; split;
                [intros [=] | intros (_ & h & b & p & [=] & _)] |].
      split; [intros booking' [=] |]. split; [reflexivity |].
      split; [intros h booking property _ [=] | now repeat split]. }
  destruct (HostRoutes.bookingOfHost id (Host._id h) w) as [booking |] eqn:Hb.
  - apply bookingOfHost_iff in Hb as (Hb & p & Hp & Hhost).
    split; [| split; [| split; [| split; [| now repeat split]]]].
    + intros booking'. split.
      * intros [= <-]. split; [exact Hnp |]. exists h, booking, p. auto.
      * intros (_ & h' & b' & p' & [= <-] & Hb' & _ & _ & ->).
        assert (b' = booking) by congruence. now subst b'.
    + intros booking' [= <-]. now split.
    + intros H. exfalso. now apply (H (Booking.set_status status booking)).
    + intros h' b' p' _ [= <-] Hb' Hp' Hne.
      assert (b' = booking) by congruence. subst b'. congruence.
  - split; [| split; [intros booking' [=] | split; [reflexivity |
              split; [| now repeat split]]]].
    + intros booking'. split; [intros [=] |].
      intros (_ & h' & b' & p' & [= <-] & Hb' & Hp' & Hhost & _).
      assert (HostRoutes.bookingOfHost id (Host._id h) w = Some b') as C
        by (apply bookingOfHost_iff; eauto). congruence.
    + intros h' b' p' _ [= <-] Hb' Hp' Hne. reflexivity.
Qed.

Lemma replyToReview_answers user id reply w :
  (exists review',
     (HostRoutes.replyToReview user id reply w).1 =
       Returned (mkResponse 200 (J_review review'))) <->
  reply <> "" /\
  exists x h p,
    x ∈ reviews w /\ Review._id x = id /\
    hostOf (ReqUser.id user) w = Some h /\
    properties w !! Review.property x = Some p /\ Property.host p = Host._id h.
Proof.
  rewrite replyToReview_run.
  destruct (bool_decide_reflect (reply = "")) as [He | He].
  { split; [intros (? & [=]) | intros [H _]; contradiction]. }
  destruct (hostOf (ReqUser.id user) w) as [h |] eqn:Hh.
  2:{ split; [intros (? & [=]) | intros (_ & x & h & p & _ & _ & [=] & _)]. }
  destruct (HostRoutes.reviewOfHost id (Host._id h) w) as [[i x] |] eqn:Hf.
  - split; [| intros _; eexists; reflexivity]. intros _. split; [exact He |].
    apply list_find_Some in Hf as (Hi & Hown & _).
    unfold HostRoutes.ownReview in Hown. apply andb_true_iff in Hown as [Hid Hp].
    apply bool_decide_eq_true in Hid.
    destruct (properties w !! Review.property x) as [p |] eqn:Hprop; [| discriminate].
    apply bool_decide_eq_true in Hp.
    exists x, h, p. split; [eapply list_elem_of_lookup_2; eauto |]. now repeat split.
  - split; [intros (? & [=]) |]. intros (_ & x & h' & p & Hin & Hid & [= <-] & Hp & Hown).
    exfalso. apply list_find_None in Hf. rewrite Forall_forall in Hf.
    apply (Hf x Hin). unfold HostRoutes.ownReview.
    rewrite Hp. rewrite !bool_decide_eq_true_2 by assumption. reflexivity.
Qed.

(** X15. A reply is stored, with answer 200, exactly when it is not
    empty, the user has a host profile and a review with the given id is
    on a property of that host.  It changes nothing but the [hostReply] of
    one review: the review answered is the first with the given id on a
    property of the requesting host, its reply becomes the new text (an
    earlier reply is overwritten), every other field and every other
    review stays, and so do bookings, properties, users and hosts; an
    empty reply is refused with 400, and every answer other than 200
    leaves the reviews as they were. *)
Theorem replyToReview_effect (user : ReqUser.t) (id : ObjectId) (reply : string)
    (w : World) :
  let r := HostRoutes.replyToReview user id reply w in
  ((exists review', r.1 = Returned (mkResponse 200 (J_review review'))) <->
   reply <> "" /\
   exists x h p,
     x ∈ reviews w /\ Review._id x = id /\
     hostOf (ReqUser.id user) w = Some h /\
     properties w !! Review.property x = Some p /\ Property.host p = Host._id h) /\
  ((forall review', r.1 <> Returned (mkResponse 200 (J_review review'))) ->
   reviews r.2 = reviews w) /\
  (users r.2 = users w /\ hosts r.2 = hosts w /\ properties r.2 = properties w /\
   bookings r.2 = bookings w) /\
  length (reviews r.2) = length (reviews w) /\
  (forall (j : nat) x', reviews r.2 !! j = Some x' ->
     exists x, reviews w !! j = Some x /\
               (x' = x \/ (x' = Review.set_hostReply reply x /\ Review._id x = id))) /\
  (forall review',
     r.1 = Returned (mkResponse 200 (J_review review')) ->
     reply <> "" /\
     exists (i : nat) x h p,
       reviews w !! i = Some x /\ Review._id x = id /\
       hostOf (ReqUser.id user) w = Some h /\
       properties w !! Review.property x = Some p /\ Property.host p = Host._id h /\
       review' = Review.set_hostReply reply x /\
       Review.hostReply review' = Some reply /\
       reviews r.2 = <[i := review']> (reviews w)) /\
  (reply = "" -> r = (Returned (mkResponse 400 (J_errors ["reply"])), w)).
Proof.
  cbv zeta. split; [apply replyToReview_answers |].
  rewrite replyToReview_run. split.
  { destruct (bool_decide (reply = "")); [reflexivity |].
    destruct (hostOf (ReqUser.id user) w) as [h |]; [| reflexivity].
    destruct (HostRoutes.reviewOfHost id (Host._id h) w) as [[i x] |]; [| reflexivity].
    intros H. now destruct (H (Review.set_hostReply reply x)). }
  destruct (bool_decide_reflect (reply = "")) as [He | He].
  { split; [now repeat split |]. split; [reflexivity |].
    split; [intros j x' Hj; eauto |]. split; [intros review' [=] | reflexivity]. }
  destruct (hostOf (ReqUser.id user) w) as [h |] eqn:Hh.
  2:{ split; [now repeat split |]. split; [reflexivity |].
      split; [intros j x' Hj; eauto |]. split; [intros review' [=] | congruence]. }
  destruct (HostRoutes.reviewOfHost id (Host._id h) w) as [[i x] |] eqn:Hf.
  2:{ split; [now repeat split |]. split; [reflexivity |].
      split; [intros j x' Hj; eauto |]. split; [intros review' [=] | congruence]. }
  apply list_find_Some in Hf as (Hi & Hown & _).
  unfold HostRoutes.ownReview in Hown. apply andb_true_iff in Hown as [Hid Hp].
  apply bool_decide_eq_true in Hid.
  split; [now repeat split |]. simpl. split; [apply length_insert |].
  split; [| split; [| congruence]].
  - intros j x' Hj. destruct (decide (i = j)) as [<- | Hne].
    + rewrite list_lookup_insert_eq in Hj by (eapply lookup_lt_Some; eauto).
      injection Hj as <-. exists x. split; [exact Hi | right; now split].
    + rewrite list_lookup_insert_ne in Hj by exact Hne. eauto.
  - intros review' [= <-]. split; [exact He |].
    destruct (properties w !! Review.property x) as [p |] eqn:Hprop; [| discriminate].
    apply bool_decide_eq_true in Hp.
    exists i, x, h, p. repeat split; auto.
Qed.

Lemma replyToReview_effect_witness :
  exists review',
    (HostRoutes.replyToReview (ReqUser.mk "u2" Sample.hedda) "r1" "Thank you"
       Sample2.world7).1 = Returned (mkResponse 200 (J_review review')).
Proof.
  apply (proj1 (replyToReview_effect (ReqUser.mk "u2" Sample.hedda) "r1" "Thank you"
                  Sample2.world7)).
  split; [discriminate |].
  exists (Guest.newReview "r1" Sample.alice Sample.praise),
         (Host.mk "h1" "u2" true 0 0 None), Sample.cottage.
  split; [apply list_elem_of_singleton; reflexivity |].
  split; [reflexivity |]. split; [reflexivity |]. split; reflexivity.
Defined.

(** ** From booking to review *)

(** X16. The four requests in sequence: a guest books an existing
    property and the gateway accepts the charge; the guest confirms and
    the gateway reports the payment as succeeded; the host of the property
    marks the booking completed; the guest reviews it.  Then the review is
    created (201) as the only new review, the booking is stored completed
    and paid, and the property has gained the window of the stay.  If the
    guest asks to review right after the confirmation, before the host has
    marked the booking completed, the request is refused with 404 and
    nothing is stored. *)
Theorem booking_workflow (sv sv' sv'' : Services) (bid rid : ObjectId)
    (guestUser hostUser : ReqUser.t) (body : Guest.BookingBody.t)
    (rbody : Guest.ReviewBody.t) (w : World) (property : Property.t) (h : Host.t)
    (paymentIntent paymentIntent' : PaymentIntent.t) :
  Guest.bookingErrors sv body = [] ->
  properties w !! Guest.BookingBody.propertyId body = Some property ->
  stripe_paymentIntents_create sv
    (JS.Math_round (Price.totalAmount (Guest.quoteFor property body) * 100)%Q) "usd"
    (Guest.metadata guestUser body) = Some paymentIntent ->
  stripe_paymentIntents_retrieve sv' (PaymentIntent.id paymentIntent) = Some paymentIntent' ->
  PaymentIntent.status paymentIntent' = "succeeded" ->
  hostOf (ReqUser.id hostUser) w = Some h ->
  Property.host property = Host._id h ->
  Guest.reviewErrors sv'' rbody = [] ->
  Guest.ReviewBody.bookingId rbody = bid ->
  Guest.ReviewBody.propertyId rbody = Guest.BookingBody.propertyId body ->
  (forall x, x ∈ reviews w -> Review.booking x <> bid) ->
  let w1 := (Guest.createBooking sv bid guestUser body w).2 in
  let w2 := (Guest.confirmBooking sv' guestUser bid w1).2 in
  let w3 := (HostRoutes.updateBookingStatus hostUser bid completed w2).2 in
  let r4 := Guest.createReview sv'' rid guestUser rbody w3 in
  r4.1 = Returned (mkResponse 201 (J_review (Guest.newReview rid guestUser rbody))) /\
  reviews r4.2 = reviews w ++ [Guest.newReview rid guestUser rbody] /\
  (exists b, bookings r4.2 !! bid = Some b /\
             Booking.status b = completed /\ Booking.paymentStatus b = paid /\
             Booking.guest b = ReqUser.id guestUser) /\
  (exists p, properties r4.2 !! Guest.BookingBody.propertyId body = Some p /\
             Property.availability p =
               Property.availability property ++
               [mkAvailability (Guest.BookingBody.checkIn body)
                  (Guest.BookingBody.checkOut body) false]) /\
  Guest.createReview sv'' rid guestUser rbody w2 =
    (Returned (mkResponse 404 (J_message "Valid booking not found")), w2).
Proof.
  intros He Hp Hpay Hret Hok Hh Hhost Hre Hbid Hpid Hnone w1 w2 w3 r4.
  set (pid := Guest.BookingBody.propertyId body) in *.
  set (b0 := Guest.newBooking guestUser body (Guest.quoteFor property body) paymentIntent).
  set (b1 := Guest.markPaid paymentIntent' b0).
  set (p1 := Property.push_availability (Guest.bookedWindow b1) property).
  (* after the booking *)
  assert (E1 : w1 = set_bookings <[bid := b0]> w).
  { unfold w1. rewrite createBooking_run, He. fold pid. rewrite Hp. cbv zeta.
    now rewrite Hpay. }
  (* after the confirmation *)
  assert (E2 : bookings w2 = <[bid := b1]> (bookings w1) /\
               properties w2 = <[pid := p1]> (properties w) /\
               hosts w2 = hosts w /\ reviews w2 = reviews w).
  { unfold w2. rewrite confirmBooking_run, E1. simpl bookings.
    rewrite lookup_insert_eq. simpl Booking.guest. rewrite bool_decide_eq_true_2 by reflexivity.
    simpl negb. cbv iota. simpl Booking.paymentIntentId. rewrite Hret.
    rewrite (bool_decide_eq_true_2 _ Hok). cbv zeta. simpl properties.
    simpl Booking.property. fold pid. rewrite Hp. fold b0 b1.
    destruct (twilio_messages_create _ _ _); simpl;
      (split; [reflexivity |]; split; [now apply alter_as_insert | now split]). }
  destruct E2 as (Eb2 & Ep2 & Eh2 & Er2).
  assert (Hb2 : bookings w2 !! bid = Some b1) by (rewrite Eb2; apply lookup_insert_eq).
  assert (Hp2 : properties w2 !! pid = Some p1) by (rewrite Ep2; apply lookup_insert_eq).
  (* after the host's update *)
  assert (E3 : w3 = set_bookings <[bid := Booking.set_status completed b1]> w2).
  { unfold w3. rewrite updateBookingStatus_run.
    rewrite bool_decide_eq_true_2 by set_solver.
    simpl negb. cbv iota. unfold hostOf. rewrite Eh2. fold (hostOf (ReqUser.id hostUser) w).
    rewrite Hh.
    assert (Hf : HostRoutes.bookingOfHost bid (Host._id h) w2 = Some b1).
    { apply bookingOfHost_iff. split; [exact Hb2 |]. exists p1. split; [exact Hp2 |].
      exact Hhost. }
    now rewrite Hf. }
  set (b3 := Booking.set_status completed b1) in *.
  assert (Hc3 : completedBooking bid (ReqUser.id guestUser) pid w3 = Some b3).
  { apply completedBooking_Some. rewrite E3. simpl. rewrite lookup_insert_eq.
    now repeat split. }
  assert (Hn3 : reviewOf bid w3 = None).
  { apply reviewOf_None. rewrite E3. simpl. rewrite Er2. exact Hnone. }
  assert (E4 : r4 = (Returned (mkResponse 201 (J_review (Guest.newReview rid guestUser rbody))),
                     set_reviews (fun rs => rs ++ [Guest.newReview rid guestUser rbody]) w3)).
  { unfold r4. rewrite createReview_run, Hre, Hbid, Hpid. fold pid.
    now rewrite Hc3, Hn3. }
  rewrite E4. simpl. split; [reflexivity |]. split; [| split; [| split]].
  - rewrite E3. simpl. now rewrite Er2.
  - exists b3. rewrite E3. simpl. rewrite lookup_insert_eq. now repeat split.
  - exists p1. rewrite E3. simpl. split; [exact Hp2 | reflexivity].
  - rewrite createReview_run, Hre, Hbid, Hpid. fold pid.
    assert (Hc2 : completedBooking bid (ReqUser.id guestUser) pid w2 = None).
    { unfold completedBooking. rewrite Hb2. simpl.
      now rewrite !bool_decide_eq_true_2 by reflexivity. }
    now rewrite Hc2.
Qed.

Lemma booking_workflow_witness :
  let w1 := (Guest.createBooking Sample.obliging "b9" Sample.alice
               (Guest.BookingBody.mk "p1" (Sample.day 1) (Sample.day 3) 2 None)
               Sample.world4).2 in
  let w2 := (Guest.confirmBooking Sample.obliging Sample.alice "b9" w1).2 in
  let w3 := (HostRoutes.updateBookingStatus (ReqUser.mk "u2" Sample.hedda) "b9"
               completed w2).2 in
  reviews (Guest.createReview Sample.obliging "r1" Sample.alice
             (Guest.ReviewBody.mk "b9" "p1" 4 "Quiet and clean") w3).2 =
  [Guest.newReview "r1" Sample.alice (Guest.ReviewBody.mk "b9" "p1" 4 "Quiet and clean")].
Proof.
  cbv zeta.
  refine (proj1 (proj2
    (booking_workflow Sample.obliging Sample.obliging Sample.obliging "b9" "r1"
       Sample.alice (ReqUser.mk "u2" Sample.hedda)
       (Guest.BookingBody.mk "p1" (Sample.day 1) (Sample.day 3) 2 None)
       (Guest.ReviewBody.mk "b9" "p1" 4 "Quiet and clean")
       Sample.world4 Sample.cottage (Host.mk "h1" "u2" true 0 0 None)
       (PaymentIntent.mk "pi_1" "cs_1" "requires_payment_method")
       (PaymentIntent.mk "pi_1" "cs_1" "succeeded")
       eq_refl eq_refl eq_refl eq_refl eq_refl eq_refl eq_refl eq_refl eq_refl eq_refl _))).
  intros x Hx. simpl in Hx. now apply elem_of_nil in Hx.
Defined.

(** ** Forgotten passwords *)

(** X17. A password-reset request never touches bookings, properties,
    hosts or reviews.  For an address no user has it answers 404 and
    changes nothing.  For the address of a user it stores on that user,
    and on no other, the signed token and an expiry one hour after the
    request, leaving address, password and role alone, and it does so
    whether or not the e-mail can then be sent: the answer is 200 when the
    mail goes out and 500 when it does not. *)
Theorem forgotPassword_effect (sv : Services) (email : string) (w : World) :
  let r := Auth.forgotPassword sv email w in
  (bookings r.2 = bookings w /\ properties r.2 = properties w /\
   hosts r.2 = hosts w /\ reviews r.2 = reviews w) /\
  (isEmail sv email = true ->
   (forall id u, users w !! id = Some u -> User.email u <> email) ->
   r = (Returned (mkResponse 404 (J_message "User not found")), w)) /\
  (forall id u,
     isEmail sv email = true -> userByEmail email w = Some (id, u) ->
     let token :=
       jwt_sign sv id (JWT_SECRET sv +:+ default "undefined" (User.password u)) in
     let u' := User.set_reset token (Date_now sv + 3600000) u in
     users w !! id = Some u /\
     users r.2 = <[id := u']> (users w) /\
     User.resetPasswordToken u' = Some token /\
     User.resetPasswordExpires u' = Some (Date_now sv + 3600000) /\
     (User.email u', User.password u', User.role u') =
     (User.email u, User.password u, User.role u) /\
     (forall other, other <> id -> users r.2 !! other = users w !! other) /\
     r.1 = Returned
             (match transporter_sendMail sv (User.email u) token (User.firstName u) with
              | Some _ => mkResponse 200 (J_message "Password reset email sent")
              | None => mkResponse 500 (J_message "Server error")
              end)).
Proof.
  cbv zeta. rewrite forgotPassword_run. split; [| split].
  - destruct (negb _); [now repeat split |].
    destruct (userByEmail email w) as [[id u] |]; [| now repeat split]. cbv zeta.
    destruct (transporter_sendMail _ _ _ _); now repeat split.
  - intros -> Hnone. simpl negb. cbv iota.
    destruct (userByEmail email w) as [[id u] |] eqn:Hf; [| reflexivity].
    apply userByEmail_Some in Hf as [Hu He]. exfalso. eapply Hnone; eauto.
  - intros id u -> Hf. simpl negb. cbv iota. rewrite Hf. cbv zeta.
    apply userByEmail_Some in Hf as [Hu _].
    split; [exact Hu |].
    destruct (transporter_sendMail _ _ _ _); simpl;
      (split; [reflexivity |]; split; [reflexivity |]; split; [reflexivity |];
       split; [reflexivity |]; split; [| reflexivity];
       intros other Hne; now apply lookup_insert_ne).
Qed.

Lemma resetPassword_run sv hash token password w :
  Account.resetPassword sv hash token password w =
  match Account.resetErrors sv token password with
  | (_ :: _) as errors => (Returned (A_errors 400 errors), w)
  | [] =>
      match Account.userByResetToken token (Date_now sv) w with
      | None => (Returned (A_message 400 "Invalid or expired token"), w)
      | Some (id, user) =>
          match jwt_verify sv token
                  (JWT_SECRET sv +:+ default "undefined" (User.password user)) with
          | None => (Returned (A_message 400 "Token expired or invalid"), w)
          | Some _ =>
              (Returned (A_message 200 "Password reset successfully"),
               set_users <[id := Account.withNewPassword (hash password) user]> w)
          end
      end
  end.
Proof.
  unfold Account.resetPassword, tryCatch at 1.
  destruct (Account.resetErrors sv token password); [| reflexivity].
  unfold mbind at 1, M_bind at 1, gets.
  destruct (Account.userByResetToken _ _ w) as [[id user] |]; [| reflexivity].
  unfold mbind at 1, M_bind at 1, tryCatch, await.
  destruct (jwt_verify _ _ _); reflexivity.
Qed.

Lemma userByResetToken_Some token now w id u :
  Account.userByResetToken token now w = Some (id, u) ->
  users w !! id = Some u /\ Account.holdsResetToken token now u = true.
Proof.
  unfold Account.userByResetToken. intros H. apply List.find_some in H as [Hin Hh].
  apply list_elem_of_In, elem_of_map_to_list in Hin. now split.
Qed.

Lemma userByResetToken_unique token now w id u :
  users w !! id = Some u -> Account.holdsResetToken token now u = true ->
  (forall id' u', users w !! id' = Some u' -> id' <> id ->
                  User.resetPasswordToken u' <> Some token) ->
  Account.userByResetToken token now w = Some (id, u).
Proof.
  intros Hu Hh Hothers.
  destruct (Account.userByResetToken token now w) as [[id' u'] |] eqn:Hf.
  - apply userByResetToken_Some in Hf as [Hu' Hh'].
    destruct (decide (id' = id)) as [-> | Hne]; [congruence |].
    exfalso. apply (Hothers id' u' Hu' Hne).
    unfold Account.holdsResetToken in Hh'. apply andb_true_iff in Hh' as [Ht _].
    now apply bool_decide_eq_true in Ht.
  - exfalso. unfold Account.userByResetToken in Hf.
    assert (Hin : In (id, u) (map_to_list (users w)))
      by now apply list_elem_of_In, elem_of_map_to_list.
    pose proof (List.find_none _ _ Hf (id, u) Hin) as F. simpl in F. congruence.
Qed.

Lemma userByResetToken_nobody token now w :
  (forall id u, users w !! id = Some u -> Account.holdsResetToken token now u = false) ->
  Account.userByResetToken token now w = None.
Proof.
  intros Hnone. destruct (Account.userByResetToken token now w) as [[id u] |] eqn:Hf;
    [| reflexivity].
  apply userByResetToken_Some in Hf as [Hu Hh]. rewrite (Hnone id u Hu) in Hh. discriminate.
Qed.

Lemma holdsResetToken_other token now u :
  User.resetPasswordToken u <> Some token -> Account.holdsResetToken token now u = false.
Proof.
  intros H. unfold Account.holdsResetToken. now rewrite (bool_decide_eq_false_2 _ H).
Qed.

(** X18. The token stored by a password-reset request opens
    POST /reset-password strictly less than one hour later, provided no
    other user holds the same token and the JWT library accepts it under
    the key it was signed with: the user then has the new password and no
    token, address and role being as before, and the same token is
    refused from then on ("Invalid or expired token").  One hour after
    the request or later the token is refused and nothing changes. *)
Theorem password_reset_round_trip (sv sv' : Services) (hash : string -> string)
    (email newPassword : string) (w : World) (id : ObjectId) (u : User.t) :
  isEmail sv email = true ->
  userByEmail email w = Some (id, u) ->
  let token := jwt_sign sv id (JWT_SECRET sv +:+ default "undefined" (User.password u)) in
  token <> "" ->
  isLength sv' 6 newPassword = true ->
  (forall id' u', users w !! id' = Some u' -> id' <> id ->
                  User.resetPasswordToken u' <> Some token) ->
  is_Some (jwt_verify sv' token
             (JWT_SECRET sv' +:+ default "undefined" (User.password u))) ->
  let w1 := (Auth.forgotPassword sv email w).2 in
  let r := Account.resetPassword sv' hash token newPassword w1 in
  (Date_now sv' < Date_now sv + 3600000 ->
   r.1 = Returned (A_message 200 "Password reset successfully") /\
   (exists u2,
      users r.2 !! id = Some u2 /\
      User.password u2 = Some (hash newPassword) /\
      User.resetPasswordToken u2 = None /\ User.resetPasswordExpires u2 = None /\
      User.email u2 = User.email u /\ User.role u2 = User.role u) /\
   (forall other, other <> id -> users r.2 !! other = users w !! other) /\
   (forall sv'' password,
      isLength sv'' 6 password = true ->
      Account.resetPassword sv'' hash token password r.2 =
        (Returned (A_message 400 "Invalid or expired token"), r.2))) /\
  (Date_now sv + 3600000 <= Date_now sv' ->
   r = (Returned (A_message 400 "Invalid or expired token"), w1)).
Proof.
  intros He Hf token Hne Hlen Hothers [decoded Hv] w1 r.
  pose proof (userByEmail_Some _ _ _ _ Hf) as [Hu _].
  set (u1 := User.set_reset token (Date_now sv + 3600000) u).
  assert (E1 : users w1 = <[id := u1]> (users w)).
  { unfold w1. rewrite forgotPassword_run, He. simpl negb. cbv iota. rewrite Hf. cbv zeta.
    fold token. destruct (transporter_sendMail _ _ _ _); reflexivity. }
  assert (Herr : forall sv0 password, isLength sv0 6 password = true ->
                                      Account.resetErrors sv0 token password = []).
  { intros sv0 password Hl. unfold Account.resetErrors.
    now rewrite (bool_decide_eq_false_2 _ Hne), Hl. }
  assert (Hothers1 : forall id' u', users w1 !! id' = Some u' -> id' <> id ->
                                    User.resetPasswordToken u' <> Some token).
  { intros id' u' Hu' Hne'. rewrite E1, lookup_insert_ne in Hu' by congruence. eauto. }
  split.
  - intros Hnow.
    assert (Hfind : Account.userByResetToken token (Date_now sv') w1 = Some (id, u1)).
    { apply userByResetToken_unique; [rewrite E1; apply lookup_insert_eq | | exact Hothers1].
      unfold Account.holdsResetToken, u1. simpl.
      rewrite bool_decide_eq_true_2 by reflexivity. simpl. now apply Z.ltb_lt. }
    assert (Er : r = (Returned (A_message 200 "Password reset successfully"),
                      set_users <[id := Account.withNewPassword (hash newPassword) u1]> w1)).
    { unfold r. rewrite resetPassword_run, (Herr _ _ Hlen), Hfind.
      change (User.password u1) with (User.password u). now rewrite Hv. }
    rewrite Er. simpl. split; [reflexivity |]. split; [| split].
    + eexists. rewrite lookup_insert_eq. split; [reflexivity |]. now repeat split.
    + intros other Hne'. rewrite lookup_insert_ne by congruence.
      rewrite E1. now rewrite lookup_insert_ne by congruence.
    + intros sv'' password Hl. rewrite resetPassword_run, (Herr _ _ Hl).
      rewrite userByResetToken_nobody; [reflexivity |].
      intros id' u' Hu'. simpl in Hu'. destruct (decide (id = id')) as [<- | Hne'].
      * rewrite lookup_insert_eq in Hu'. injection Hu' as <-. reflexivity.
      * rewrite lookup_insert_ne in Hu' by exact Hne'.
        apply holdsResetToken_other. eapply Hothers1; eauto.
  - intros Hlate. unfold r. rewrite resetPassword_run, (Herr _ _ Hlen).
    rewrite userByResetToken_nobody; [reflexivity |].
    intros id' u' Hu'. destruct (decide (id = id')) as [<- | Hne'].
    + rewrite E1, lookup_insert_eq in Hu'. injection Hu' as <-.
      unfold Account.holdsResetToken, u1. simpl.
      rewrite bool_decide_eq_true_2 by reflexivity. simpl. apply Z.ltb_ge. lia.
    + apply holdsResetToken_other. eapply Hothers1; eauto.
Qed.


Lemma password_reset_round_trip_witness :
  let w1 := (Auth.forgotPassword Sample.obliging "alice@example.org" Sample.world4).2 in
  (Account.resetPassword Sample.obliging (fun s => "hashed:" +:+ s)
     "secret$2b$hash1.u1" "newsecret" w1).1 =
  Returned (A_message 200 "Password reset successfully").
Proof.
  cbv zeta.
  assert (Hfind : userByEmail "alice@example.org" Sample.world4 =
                  Some ("u1", User.mk "alice@example.org" (Some "$2b$hash1") "Alice"
                                "+15550100" guest None None))
    by (vm_compute; reflexivity).
  refine (proj1 (proj1
    (password_reset_round_trip Sample.obliging Sample.obliging (fun s => "hashed:" +:+ s)
       "alice@example.org" "newsecret" Sample.world4 "u1" _ eq_refl Hfind _ _ _ _) _)).
  - discriminate.
  - simpl. lia.
  - intros id' u' Hu' _. unfold Sample.world4 in Hu'. cbn [users] in Hu'.
    destruct (decide ("u1" = id')) as [<- | N1];
      [rewrite lookup_insert_eq in Hu'; injection Hu' as <-; discriminate |].
    rewrite lookup_insert_ne in Hu' by exact N1.
    destruct (decide ("u2" = id')) as [<- | N2];
      [rewrite lookup_insert_eq in Hu'; injection Hu' as <-; discriminate |].
    rewrite lookup_insert_ne in Hu' by exact N2.
    destruct (decide ("u3" = id')) as [<- | N3];
      [rewrite lookup_singleton_eq in Hu'; injection Hu' as <-; discriminate |].
    rewrite lookup_singleton_ne in Hu' by exact N3. discriminate.
  - eexists. apply obliging_jwt_round_trip.
  - simpl. lia.
Defined.

(** ** The administrator's switch *)

Lemma toggled_twice p : Admin.toggled (Admin.toggled p) = p.
Proof. destruct p. unfold Admin.toggled. simpl. now rewrite negb_involutive. Qed.

Lemma togglePropertyStatus_run castable id w :
  Admin.togglePropertyStatus castable id w =
  if negb (castable id) then
    (Returned (A_message 500 "Server error"),
     logged [[message_of Admin.castError]] w)
  else
    match properties w !! id with
    | None => (Returned (A_message 404 "Property not found"), w)
    | Some p => (Returned (A_json 200 (Admin.toggled p)),
                 set_properties <[id := Admin.toggled p]> w)
    end.
Proof.
  unfold Admin.togglePropertyStatus, tryCatch. destruct (negb (castable id)); [reflexivity |].
  unfold mbind, M_bind, Property_findById, gets.
  destruct (properties w !! id); reflexivity.
Qed.

(** X19. The status switch flips [isActive] of the property named and
    changes nothing else; an id that is an ObjectId but names no property
    is answered 404 with the store untouched, an id that is no ObjectId
    500 with a line on the console and every document untouched;
    switching twice restores the properties exactly. *)
Theorem togglePropertyStatus_twice (castable : ObjectId -> bool) (id : ObjectId)
    (w : World) :
  let r1 := Admin.togglePropertyStatus castable id w in
  let r2 := Admin.togglePropertyStatus castable id r1.2 in
  (castable id = false ->
   r1 = (Returned (A_message 500 "Server error"),
         logged [[message_of Admin.castError]] w)) /\
  (castable id = true -> properties w !! id = None ->
   r1 = (Returned (A_message 404 "Property not found"), w)) /\
  (forall p,
     castable id = true -> properties w !! id = Some p ->
     r1.1 = Returned (A_json 200 (Admin.toggled p)) /\
     properties r1.2 = <[id := Admin.toggled p]> (properties w) /\
     Property.isActive (Admin.toggled p) = negb (Property.isActive p) /\
     (Property.host (Admin.toggled p), Property.title (Admin.toggled p),
      Property.pricePerNight (Admin.toggled p), Property.maxGuests (Admin.toggled p),
      Property.availability (Admin.toggled p), Property.discounts (Admin.toggled p)) =
     (Property.host p, Property.title p, Property.pricePerNight p, Property.maxGuests p,
      Property.availability p, Property.discounts p) /\
     r2.1 = Returned (A_json 200 p) /\
     properties r2.2 = properties w) /\
  (users r1.2 = users w /\ hosts r1.2 = hosts w /\ bookings r1.2 = bookings w /\
   reviews r1.2 = reviews w) /\
  (r1.1 <> Returned (A_message 500 "Server error") -> console r1.2 = console w).
Proof.
  cbv zeta. rewrite togglePropertyStatus_run.
  split; [now intros -> |]. split; [now intros -> -> |]. split; [| split].
  - intros p Hc Hp. rewrite Hc, Hp. simpl. split; [reflexivity |]. split; [reflexivity |].
    split; [reflexivity |]. split; [reflexivity |].
    rewrite togglePropertyStatus_run, Hc. simpl. rewrite lookup_insert_eq. simpl.
    rewrite toggled_twice. split; [reflexivity |].
    rewrite insert_insert_eq. now apply insert_id.
  - destruct (negb (castable id)); [now repeat split |].
    destruct (properties w !! id); now repeat split.
  - destruct (negb (castable id)); [intros H; now destruct H |].
    destruct (properties w !! id); reflexivity.
Qed.

(** ** More on host tags *)

#[global] Instance inOrder_transitive : Transitive Rank.inOrder.
Proof. intros a b c Hab Hbc. unfold Rank.inOrder in *. eapply Qle_trans; eauto. Qed.

Lemma StronglySorted_lookup_le {A} (R : relation A) `{!Reflexive R} (l : list A)
    (i j : nat) (x y : A) :
  StronglySorted R l -> (i <= j)%nat -> l !! i = Some x -> l !! j = Some y -> R x y.
Proof.
  intros Hs. revert i j. induction Hs as [| a l Hs IH Hall]; intros i j Hij Hi Hj.
  - discriminate.
  - destruct i as [| i], j as [| j]; simpl in *.
    + assert (x = y) by congruence. subst y. reflexivity.
    + injection Hi as <-. rewrite Forall_forall in Hall. apply Hall.
      eapply list_elem_of_lookup_2; eauto.
    + lia.
    + apply (IH i j); [lia | exact Hi | exact Hj].
Qed.

#[global] Instance inOrder_reflexive : Reflexive Rank.inOrder.
Proof. intros a. unfold Rank.inOrder. apply Qle_refl. Qed.

Lemma rerank_lookup allHosts index h' :
  Rank.rerank allHosts !! index = Some h' ->
  exists h,
    Rank.sortedHosts allHosts !! index = Some h /\
    h' = Host.set_hostTag
           (Rank.tagOf (Rank.percentile index (length allHosts))) h /\
    (index < length allHosts)%nat.
Proof.
  unfold Rank.rerank, Rank.assignTags. rewrite list_lookup_imap, sortedHosts_length.
  destruct (Rank.sortedHosts allHosts !! index) as [h |] eqn:Hh; [| discriminate].
  simpl. intros [= <-]. exists h. split; [reflexivity |]. split; [reflexivity |].
  rewrite <- sortedHosts_length. eapply lookup_lt_Some; eauto.
Qed.

(** X20. How many hosts get each tag: among [N] hosts the first
    [N / 100] positions (integer division) are gold, the positions from
    there up to [N / 10] silver, those up to [3 N / 10] bronze, and the
    rest get no tag.  So nobody is gold among fewer than 100 hosts, and
    nobody has a tag among fewer than 4. *)
Theorem tag_by_position (allHosts : list Host.t) (index : nat) (h' : Host.t) :
  Rank.rerank allHosts !! index = Some h' ->
  let N := Z.of_nat (length allHosts) in
  let i := Z.of_nat index in
  (Host.hostTag h' = Some gold <-> i < N / 100) /\
  (Host.hostTag h' = Some silver <-> N / 100 <= i < N / 10) /\
  (Host.hostTag h' = Some bronze <-> N / 10 <= i < 3 * N / 10) /\
  (Host.hostTag h' = None <-> 3 * N / 10 <= i) /\
  (N < 100 -> Host.hostTag h' <> Some gold) /\
  (N < 4 -> Host.hostTag h' = None).
Proof.
  intros Hl N i. apply rerank_lookup in Hl as (h & _ & -> & Hlt). simpl.
  rewrite tagOf_by_rank by lia. unfold Spec.tag_by_rank. fold N i.
  pose proof (Z.div_mod N 100 ltac:(lia)) as D100.
  pose proof (Z.mod_pos_bound N 100 ltac:(lia)) as M100.
  pose proof (Z.div_mod N 10 ltac:(lia)) as D10.
  pose proof (Z.mod_pos_bound N 10 ltac:(lia)) as M10.
  pose proof (Z.div_mod (3 * N) 10 ltac:(lia)) as D30.
  pose proof (Z.mod_pos_bound (3 * N) 10 ltac:(lia)) as M30.
  destruct (Z.leb_spec (100 * (i + 1)) N);
    [| destruct (Z.leb_spec (10 * (i + 1)) N);
       [| destruct (Z.leb_spec (10 * (i + 1)) (3 * N))]];
    (repeat split; try discriminate; try congruence; try lia; intros; try reflexivity;
     try lia; exfalso; try lia).
Qed.

Lemma tag_by_position_witness :
  let N := Z.of_nat (length Sample.hundredHosts) in
  Host.hostTag (Host.set_hostTag (Some silver) (Sample.hostNo 90)) = Some silver <->
  N / 100 <= Z.of_nat 9 < N / 10.
Proof.
  refine (proj1 (proj2
    (tag_by_position Sample.hundredHosts 9
       (Host.set_hostTag (Some silver) (Sample.hostNo 90)) _))).
  vm_compute. reflexivity.
Defined.

Lemma tag_level_monotone (i j len : nat) :
  (i <= j)%nat ->
  tagLevel (Spec.tag_by_rank j len) <= tagLevel (Spec.tag_by_rank i len).
Proof.
  intros Hij. unfold Spec.tag_by_rank.
  repeat match goal with
         | |- context [?a <=? ?b] => destruct (Z.leb_spec a b)
         end; simpl; lia.
Qed.

(** X21. Tags follow earnings: of two hosts, the one who has earned
    strictly more never ends with the lower tag (gold above silver above
    bronze above none), and is never placed after the other. *)
Theorem higher_earnings_no_lower_tag (allHosts : list Host.t) (i j : nat) (a b : Host.t) :
  Rank.rerank allHosts !! i = Some a ->
  Rank.rerank allHosts !! j = Some b ->
  (Host.earnings b < Host.earnings a)%Q ->
  (i < j)%nat /\ tagLevel (Host.hostTag b) <= tagLevel (Host.hostTag a).
Proof.
  intros Ha Hb Hlt.
  apply rerank_lookup in Ha as (a0 & Ha0 & -> & Hi).
  apply rerank_lookup in Hb as (b0 & Hb0 & -> & Hj).
  simpl in *.
  assert (Hs : StronglySorted Rank.inOrder (Rank.sortedHosts allHosts))
    by apply sortedHosts_strongly.
  assert (Hij : (i < j)%nat).
  { destruct (Nat.lt_ge_cases i j) as [L | G]; [exact L |]. exfalso.
    pose proof (StronglySorted_lookup_le Rank.inOrder _ j i b0 a0 Hs G Hb0 Ha0) as O.
    unfold Rank.inOrder in O. now apply Qlt_not_le in Hlt. }
  split; [exact Hij |].
  rewrite !tagOf_by_rank by lia. apply tag_level_monotone. lia.
Qed.

Lemma higher_earnings_no_lower_tag_witness :
  tagLevel (Host.hostTag (Host.set_hostTag None (Sample.hostNo 59))) <=
  tagLevel (Host.hostTag (Host.set_hostTag (Some silver) (Sample.hostNo 96))).
Proof.
  refine (proj2
    (higher_earnings_no_lower_tag Sample.hundredHosts 3 40
       (Host.set_hostTag (Some silver) (Sample.hostNo 96))
       (Host.set_hostTag None (Sample.hostNo 59)) _ _ _)).
  - vm_compute. reflexivity.
  - vm_compute. reflexivity.
  - vm_compute. reflexivity.
Defined.

Lemma earning_imap (f : nat -> Host.t -> Host.t) (e : Q) (l : list Host.t) :
  (forall i h, Host.earnings (f i h) = Host.earnings h) ->
  (forall i h, Host.set_hostTag None (f i h) = Host.set_hostTag None h) ->
  Host.set_hostTag None <$> Rank.earning e (imap f l) =
  Host.set_hostTag None <$> Rank.earning e l.
Proof.
  unfold Rank.earning. revert f. induction l as [| x l IH]; intros f He Ht; [reflexivity |].
  cbn [imap List.filter]. rewrite He.
  destruct (Qeq_bool (Host.earnings x) e); cbn [fmap list_fmap].
  - rewrite Ht. f_equal. apply IH; intros; [apply He | apply Ht].
  - apply IH; intros; [apply He | apply Ht].
Qed.

(** X22. Re-ranking loses and invents no host: the hosts it returns are
    the hosts it was given, in another order and with other tags, every
    other field being as before; hosts of equal earnings stay in the
    order in which they were given; earlier tags play no part in the new
    ones. *)
Theorem rerank_keeps_hosts (allHosts : list Host.t) :
  length (Rank.rerank allHosts) = length allHosts /\
  Host.set_hostTag None <$> Rank.rerank allHosts ≡ₚ Host.set_hostTag None <$> allHosts /\
  (forall e, Host.set_hostTag None <$> Rank.earning e (Rank.rerank allHosts) =
             Host.set_hostTag None <$> Rank.earning e allHosts) /\
  (forall index h', Rank.rerank allHosts !! index = Some h' ->
     exists h, h ∈ allHosts /\
               (Host._id h', Host.user h', Host.isVerified h', Host.earnings h',
                Host.totalBookings h') =
               (Host._id h, Host.user h, Host.isVerified h, Host.earnings h,
                Host.totalBookings h) /\
               Host.hostTag h' =
                 Rank.tagOf (Rank.percentile index (length allHosts))).
Proof.
  split; [| split; [| split]].
  - unfold Rank.rerank, Rank.assignTags. now rewrite length_imap, sortedHosts_length.
  - rewrite <- (sortedHosts_perm allHosts) at 2.
    unfold Rank.rerank, Rank.assignTags.
    match goal with
    | |- ?l1 ≡ₚ ?l2 => assert (E : l1 = l2); [| now rewrite E]
    end.
    apply list_eq. intros i.
    rewrite !list_lookup_fmap, list_lookup_imap.
    now destruct (Rank.sortedHosts allHosts !! i).
  - intros e. unfold Rank.rerank, Rank.assignTags.
    rewrite earning_imap by (intros; reflexivity).
    now rewrite sortedHosts_is_stable.
  - intros index h' Hl. apply rerank_lookup in Hl as (h & Hh & -> & _).
    exists h. split; [| now split].
    rewrite <- (sortedHosts_perm allHosts). eapply list_elem_of_lookup_2; eauto.
Qed.

(** ** The dashboards *)











(** ** What no sequence of requests does *)

Lemma handle_booking_kept sv r w id b :
  bookings w !! id = Some b ->
  match r with PostBookings newId _ _ => newId <> id | _ => True end ->
  exists b',
    bookings (handle sv r w).2 !! id = Some b' /\
    bookingCore b' = bookingCore b /\
    (Booking.paymentStatus b = paid -> Booking.paymentStatus b' = paid).
Proof.
  intros Hb Hfresh.
  assert (Same : forall w', bookings w' = bookings w ->
            exists b', bookings w' !! id = Some b' /\ bookingCore b' = bookingCore b /\
                       (Booking.paymentStatus b = paid -> Booking.paymentStatus b' = paid)).
  { intros w' ->. exists b. auto. }
  assert (Other : forall w' k v, k <> id -> bookings w' = <[k := v]> (bookings w) ->
            exists b', bookings w' !! id = Some b' /\ bookingCore b' = bookingCore b /\
                       (Booking.paymentStatus b = paid -> Booking.paymentStatus b' = paid)).
  { intros w' k v Hne ->. exists b. rewrite lookup_insert_ne by exact Hne. auto. }
  destruct r as [newId user body | user bid | newId user body | user bid status
                | user rid reply | email]; simpl.
  - rewrite createBooking_run.
    destruct (Guest.bookingErrors sv body); [| now apply Same].
    destruct (properties w !! Guest.BookingBody.propertyId body); [| now apply Same].
    cbv zeta.
    destruct (stripe_paymentIntents_create _ _ _ _); [| now apply Same].
    eapply Other; [exact Hfresh | reflexivity].
  - rewrite confirmBooking_run.
    destruct (bookings w !! bid) as [booking |] eqn:Hbid; [| now apply Same].
    destruct (negb _); [now apply Same |].
    destruct (stripe_paymentIntents_retrieve _ _) as [paymentIntent |]; [| now apply Same].
    destruct (bool_decide _); [| now apply Same]. cbv zeta.
    assert (Hgoal : forall w', bookings w' =
                      <[bid := Guest.markPaid paymentIntent booking]> (bookings w) ->
              exists b', bookings w' !! id = Some b' /\ bookingCore b' = bookingCore b /\
                         (Booking.paymentStatus b = paid -> Booking.paymentStatus b' = paid)).
    { intros w' E. destruct (decide (bid = id)) as [-> | Hne]; [| eapply Other; eauto].
      assert (booking = b) by congruence. subst booking.
      exists (Guest.markPaid paymentIntent b). rewrite E, lookup_insert_eq. now repeat split. }
    destruct (properties w !! Booking.property booking); [| now apply Hgoal]. simpl.
    destruct (twilio_messages_create _ _ _); now apply Hgoal.
  - rewrite createReview_run.
    destruct (Guest.reviewErrors sv body); [| now apply Same].
    destruct (completedBooking _ _ _ w); [| now apply Same].
    destruct (reviewOf _ w); now apply Same.
  - rewrite updateBookingStatus_run.
    destruct (negb _); [now apply Same |].
    destruct (hostOf _ w) as [h |]; [| now apply Same].
    destruct (HostRoutes.bookingOfHost bid (Host._id h) w) as [booking |] eqn:Hf;
      [| now apply Same].
    apply bookingOfHost_Some in Hf.
    destruct (decide (bid = id)) as [-> | Hne]; [| eapply Other; eauto; reflexivity].
    assert (booking = b) by congruence. subst booking.
    exists (Booking.set_status status b). simpl. rewrite lookup_insert_eq. now repeat split.
  - rewrite replyToReview_run.
    destruct (bool_decide _); [now apply Same |].
    destruct (hostOf _ w) as [h |]; [| now apply Same].
    destruct (HostRoutes.reviewOfHost _ _ w) as [[i review] |]; now apply Same.
  - rewrite forgotPassword_run.
    destruct (negb _); [now apply Same |].
    destruct (userByEmail email w) as [[uid u] |]; [| now apply Same]. cbv zeta.
    destruct (transporter_sendMail _ _ _ _); now apply Same.
Qed.

(** X25. A stored booking is never deleted, and its guest, property,
    dates, guest count, amounts, payment-intent id and special requests
    never change, whatever requests follow (as long as none creates a
    booking under the same id); a booking that is paid stays paid.  Only
    its status, payment status and transaction id can change. *)
Theorem booking_core_is_kept (trace : list (Services * Request)) (w : World)
    (id : ObjectId) (b : Booking.t) :
  bookings w !! id = Some b ->
  keeps_id id trace ->
  exists b',
    bookings (serve trace w) !! id = Some b' /\
    bookingCore b' = bookingCore b /\
    (Booking.paymentStatus b = paid -> Booking.paymentStatus b' = paid).
Proof.
  intros Hb Hk. revert w b Hb.
  induction Hk as [| [sv r] trace Hr Hk IH]; intros w b Hb; [exists b; auto |].
  simpl in Hr. simpl.
  destruct (handle_booking_kept sv r w id b Hb Hr) as (b1 & Hb1 & Hc1 & Hp1).
  destruct (IH _ _ Hb1) as (b' & Hb' & Hc' & Hp').
  exists b'. split; [exact Hb' |]. split; [congruence | auto].
Qed.

Lemma booking_core_is_kept_witness :
  exists b',
    bookings (serve [(Sample.obliging, PostBookingsConfirm Sample.alice "b1");
                     (Sample.obliging,
                      PatchHostBookings (ReqUser.mk "u2" Sample.hedda) "b1" completed)]
                Sample.world4) !! "b1" = Some b' /\
    bookingCore b' = bookingCore Sample.stay.
Proof.
  destruct (booking_core_is_kept
              [(Sample.obliging, PostBookingsConfirm Sample.alice "b1");
               (Sample.obliging,
                PatchHostBookings (ReqUser.mk "u2" Sample.hedda) "b1" completed)]
              Sample.world4 "b1" Sample.stay eq_refl) as (b' & H1 & H2 & _).
  - repeat constructor.
  - exists b'. split; [exact H1 | exact H2].
Defined.

Lemma handle_property_kept sv r w pid p :
  properties w !! pid = Some p ->
  exists p',
    properties (handle sv r w).2 !! pid = Some p' /\
    propertyCore p' = propertyCore p /\
    Property.availability p `prefix_of` Property.availability p'.
Proof.
  intros Hp.
  assert (Same : forall w', properties w' = properties w ->
            exists p', properties w' !! pid = Some p' /\ propertyCore p' = propertyCore p /\
                       Property.availability p `prefix_of` Property.availability p').
  { intros w' ->. exists p. split; [exact Hp |]. split; reflexivity. }
  destruct r as [newId user body | user bid | newId user body | user bid status
                | user rid reply | email]; simpl.
  - rewrite createBooking_run.
    destruct (Guest.bookingErrors sv body); [| now apply Same].
    destruct (properties w !! Guest.BookingBody.propertyId body); [| now apply Same].
    cbv zeta. destruct (stripe_paymentIntents_create _ _ _ _); now apply Same.
  - rewrite confirmBooking_run.
    destruct (bookings w !! bid) as [booking |]; [| now apply Same].
    destruct (negb _); [now apply Same |].
    destruct (stripe_paymentIntents_retrieve _ _) as [paymentIntent |]; [| now apply Same].
    destruct (bool_decide _); [| now apply Same]. cbv zeta.
    destruct (properties w !! Booking.property booking) as [property |] eqn:Hq;
      [| now apply Same].
    assert (Hgoal : forall w', properties w' =
                      alter (Property.push_availability
                               (Guest.bookedWindow (Guest.markPaid paymentIntent booking)))
                        (Booking.property booking) (properties w) ->
              exists p', properties w' !! pid = Some p' /\
                         propertyCore p' = propertyCore p /\
                         Property.availability p `prefix_of` Property.availability p').
    { intros w' E. rewrite E. destruct (decide (Booking.property booking = pid)) as [-> | Hne].
      - rewrite lookup_alter_eq, Hp. simpl. eexists. split; [reflexivity |].
        split; [reflexivity |]. simpl. now apply prefix_app_r.
      - rewrite lookup_alter_ne by exact Hne. exists p. split; [exact Hp |].
        split; reflexivity. }
    simpl. destruct (twilio_messages_create _ _ _); now apply Hgoal.
  - rewrite createReview_run.
    destruct (Guest.reviewErrors sv body); [| now apply Same].
    destruct (completedBooking _ _ _ w); [| now apply Same].
    destruct (reviewOf _ w); now apply Same.
  - rewrite updateBookingStatus_run.
    destruct (negb _); [now apply Same |].
    destruct (hostOf _ w) as [h |]; [| now apply Same].
    destruct (HostRoutes.bookingOfHost _ _ w); now apply Same.
  - rewrite replyToReview_run.
    destruct (bool_decide _); [now apply Same |].
    destruct (hostOf _ w) as [h |]; [| now apply Same].
    destruct (HostRoutes.reviewOfHost _ _ w) as [[i review] |]; now apply Same.
  - rewrite forgotPassword_run.
    destruct (negb _); [now apply Same |].
    destruct (userByEmail email w) as [[uid u] |]; [| now apply Same]. cbv zeta.
    destruct (transporter_sendMail _ _ _ _); now apply Same.
Qed.

(** X26. Availability is append-only over every sequence of guest, host
    and password requests: a property is never removed, its host, title,
    price, capacity, discounts and active flag never change, and its
    availability list only grows at the end, the entries it had staying in
    place. *)
Theorem availability_only_grows (trace : list (Services * Request)) (w : World)
    (pid : ObjectId) (p : Property.t) :
  properties w !! pid = Some p ->
  exists p',
    properties (serve trace w) !! pid = Some p' /\
    propertyCore p' = propertyCore p /\
    Property.availability p `prefix_of` Property.availability p'.
Proof.
  revert w p. induction trace as [| [sv r] trace IH]; intros w p Hp.
  - exists p. split; [exact Hp |]. split; reflexivity.
  - simpl. destruct (handle_property_kept sv r w pid p Hp) as (p1 & Hp1 & Hc1 & Ha1).
    destruct (IH _ _ Hp1) as (p' & Hp' & Hc' & Ha').
    exists p'. split; [exact Hp' |]. split; [congruence |]. now transitivity
      (Property.availability p1).
Qed.

Lemma availability_only_grows_witness :
  exists p',
    properties (serve [(Sample.obliging, PostBookingsConfirm Sample.alice "b1")]
                  Sample.world3) !! "p1" = Some p' /\
    propertyCore p' = propertyCore Sample.cottage.
Proof.
  destruct (availability_only_grows
              [(Sample.obliging, PostBookingsConfirm Sample.alice "b1")]
              Sample.world3 "p1" Sample.cottage eq_refl) as (p' & H1 & H2 & _).
  exists p'. split; [exact H1 | exact H2].
Defined.

(** ** Gate and handler composed *)

Lemma guarded_run gate handler w :
  Routes.guarded gate handler w =
  match gate w with
  | (Returned (Middleware.next user), w') => handler user w'
  | (Returned (Middleware.reject response), w') => (Returned response, w')
  | (Thrown e, w') => (Thrown e, w')
  end.
Proof.
  unfold Routes.guarded, mbind, M_bind.
  destruct (gate w) as [[[user | response] | e] w']; reflexivity.
Qed.

(** X27. POST /bookings behind its gate: without a token that verifies
    and names a stored user the route answers 401 and stores nothing;
    with one it runs the handler for that user; and whenever the stored
    bookings change, exactly one pending, unpaid booking was added whose
    guest is the user the token names. *)
Theorem postBookings_for_token_owner (sv : Services) (newId : ObjectId)
    (authorization : option string) (body : Guest.BookingBody.t) (w : World) :
  let r := Routes.postBookings sv newId authorization body w in
  ((~ exists t id u,
        Middleware.bearer authorization = Some t /\ t <> "" /\
        jwt_verify sv t (JWT_SECRET sv) = Some id /\ users w !! id = Some u) ->
   exists response, r = (Returned response, w) /\ statusCode response = 401) /\
  (forall t id u,
     Middleware.bearer authorization = Some t -> t <> "" ->
     jwt_verify sv t (JWT_SECRET sv) = Some id -> users w !! id = Some u ->
     r = Guest.createBooking sv newId (ReqUser.mk id (User.without_password u)) body w) /\
  (bookings r.2 <> bookings w ->
   exists t booking,
     Middleware.bearer authorization = Some t /\
     jwt_verify sv t (JWT_SECRET sv) = Some (Booking.guest booking) /\
     bookings r.2 = <[newId := booking]> (bookings w) /\
     Booking.status booking = pending /\
     Booking.paymentStatus booking = payment_pending).
Proof.
  cbv zeta. unfold Routes.postBookings. rewrite guarded_run, authenticate_run. cbv zeta.
  destruct (Middleware.missing (Middleware.bearer authorization)) eqn:Hm.
  { apply missing_iff in Hm. split; [intros _; eexists; split; reflexivity |].
    split; [| intros Hne; now destruct Hne].
    intros t id u Ht Hne. destruct Hm as [Hm | Hm]; congruence. }
  apply not_missing in Hm as (t & Ht & Hne). rewrite Ht. simpl default.
  destruct (jwt_verify sv t (JWT_SECRET sv)) as [id |] eqn:Hv.
  2:{ split; [intros _; eexists; split; reflexivity |].
      split; [| intros Hc; now destruct Hc].
      intros t' id u [= <-] _ Hv'. congruence. }
  destruct (users w !! id) as [u |] eqn:Hu.
  2:{ split; [intros _; eexists; split; reflexivity |].
      split; [| intros Hc; now destruct Hc].
      intros t' id' u [= <-] _ Hv' Hu'. congruence. }
  split; [intros Hno; destruct Hno; eauto 10 |].
  split; [intros t' id' u' [= <-] _ Hv' Hu'; congruence |].
  rewrite createBooking_run.
  destruct (Guest.bookingErrors sv body); [| intros Hc; now destruct Hc].
  destruct (properties w !! Guest.BookingBody.propertyId body) as [property |];
    [| intros Hc; now destruct Hc].
  cbv zeta.
  destruct (stripe_paymentIntents_create _ _ _ _) as [paymentIntent |];
    [| intros Hc; now destruct Hc].
  intros _.
  exists t, (Guest.newBooking (ReqUser.mk id (User.without_password u)) body
               (Guest.quoteFor property body) paymentIntent).
  split; [reflexivity |]. split; [exact Hv |].
  split; [reflexivity |]. split; reflexivity.
Qed.

Lemma postBookings_for_token_owner_witness :
  exists response,
    Routes.postBookings Sample.obliging "b9" None
      (Guest.BookingBody.mk "p1" (Sample.day 10) (Sample.day 14) 2 None) Sample.world1 =
    (Returned response, Sample.world1) /\ statusCode response = 401.
Proof.
  refine (proj1 (postBookings_for_token_owner Sample.obliging "b9" None
                   (Guest.BookingBody.mk "p1" (Sample.day 10) (Sample.day 14) 2 None)
                   Sample.world1) _).
  intros (t & id & u & Ht & _). discriminate Ht.
Defined.

(** X28. PATCH /host/bookings/:id behind its gate: a non-empty token of a
    user whose role is guest is answered 401 whatever the booking, and the
    stored bookings change only when the token names a host or admin user
    who has a host profile owning the property of the booking; the change
    is then the new status of that one booking. *)
Theorem patchHostBooking_only_by_owner (sv : Services) (authorization : option string)
    (id : ObjectId) (status : BookingStatus) (w : World) :
  let r := Routes.patchHostBooking sv authorization id status w in
  (forall t uid u,
     Middleware.bearer authorization = Some t -> t <> "" ->
     jwt_verify sv t (JWT_SECRET sv) = Some uid -> users w !! uid = Some u ->
     User.role u = guest ->
     r = (Returned (mkResponse 401 (J_message "Host access required.")), w)) /\
  (bookings r.2 <> bookings w ->
   exists t uid u h booking property,
     Middleware.bearer authorization = Some t /\
     jwt_verify sv t (JWT_SECRET sv) = Some uid /\ users w !! uid = Some u /\
     User.role u <> guest /\
     hostOf uid w = Some h /\
     bookings w !! id = Some booking /\
     properties w !! Booking.property booking = Some property /\
     Property.host property = Host._id h /\
     bookings r.2 = <[id := Booking.set_status status booking]> (bookings w)).
Proof.
  cbv zeta. unfold Routes.patchHostBooking. rewrite guarded_run, authenticateHost_run.
  cbv zeta.
  destruct (Middleware.missing (Middleware.bearer authorization)) eqn:Hm.
  { apply missing_iff in Hm. split; [| intros Hc; now destruct Hc].
    intros t uid u Ht Hne. destruct Hm as [Hm | Hm]; congruence. }
  apply not_missing in Hm as (t & Ht & Hne). rewrite Ht. simpl default.
  destruct (jwt_verify sv t (JWT_SECRET sv)) as [uid |] eqn:Hv.
  2:{ split; [| intros Hc; now destruct Hc]. intros t' uid u [= <-] _ Hv'. congruence. }
  destruct (users w !! uid) as [u |] eqn:Hu.
  2:{ split; [| intros Hc; now destruct Hc].
      intros t' uid' u [= <-] _ Hv' Hu'. congruence. }
  destruct (bool_decide_reflect (User.role u = host)) as [Hh | Hh];
    destruct (bool_decide_reflect (User.role u = admin)) as [Ha | Ha]; simpl.
  4:{ split; [reflexivity || (intros; reflexivity) | intros Hc; now destruct Hc]. }
  all: (split; [intros t' uid' u' [= <-] _ Hv' Hu' Hg; congruence |]).
  all: rewrite updateBookingStatus_run.
  all: destruct (negb _); [intros Hc; now destruct Hc |].
  all: simpl ReqUser.id.
  all: destruct (hostOf uid w) as [h |] eqn:Hhost; [| intros Hc; now destruct Hc].
  all: destruct (HostRoutes.bookingOfHost id (Host._id h) w) as [booking |] eqn:Hf;
    [| intros Hc; now destruct Hc].
  all: apply bookingOfHost_iff in Hf as (Hb & property & Hp & Hown).
  all: intros _; exists t, uid, u, h, booking, property.
  all: repeat (split; [first [assumption | congruence | reflexivity] |]).
  all: reflexivity.
Qed.

Lemma patchHostBooking_only_by_owner_witness :
  Routes.patchHostBooking Sample.obliging (Some "Bearer secret.u1") "b1" completed
    Sample.world4 =
  (Returned (mkResponse 401 (J_message "Host access required.")), Sample.world4).
Proof.
  refine (proj1 (patchHostBooking_only_by_owner Sample.obliging (Some "Bearer secret.u1")
                   "b1" completed Sample.world4) "secret.u1" "u1" _ _ _ _ _ _).
  - reflexivity.
  - discriminate.
  - vm_compute. reflexivity.
  - vm_compute. reflexivity.
  - reflexivity.
Defined.

